(** * PAYMENT-SHIELD: the rule-based fraud scoring engine

    A shallow embedding of [fraud_detector.py] (class [FraudDetector], the
    batch scorer) and [transaction_analyzer.py] (class [TransactionAnalyzer],
    the single-transaction analysis), followed by the properties of the two
    scorers.

    Conventions of the embedding.
    - A Python float is an exact rational ([Q]); the not-a-number and
      infinite values that pandas produces for degenerate statistics are kept
      explicit in [xfloat].  Rounding of binary floating point is not
      modelled; a property of a sum or a quotient is therefore stated on the
      operations of the source in their order, or as a bound that rounding
      preserves, never by an identity of exact arithmetic.
    - A pandas [Timestamp] is a number of seconds since 1970-01-01T00:00:00
      (naive, no time zone); a [timedelta] is a number of seconds.
    - A DataFrame is a list of rows; every row carries its index label.
    - The settings dictionary is a finite map from option names to values.
    - A Python exception is the result [None].
    - Where a property is about which objects a call writes to, the methods
      are given a second time as a program on a heap ([Program]). *)

From Stdlib Require Import ZArith QArith Qround Lqa Lia.
From Stdlib Require Import String Ascii List Bool.
From stdpp Require Import gmap strings.

Import ListNotations.
Local Open Scope Q_scope.
Local Open Scope string_scope.
Local Open Scope list_scope.

(** ** Numbers *)

Definition Qltb (a b : Q) : bool := negb (Qle_bool b a).
Definition Qgtb (a b : Q) : bool := Qltb b a.
Definition Qgeb (a b : Q) : bool := Qle_bool b a.

Definition Qmin (a b : Q) : Q := if Qle_bool a b then a else b.
Definition Qmax (a b : Q) : Q := if Qle_bool a b then b else a.

Fixpoint Qsum (l : list Q) : Q :=
  match l with
  | [] => 0
  | x :: l' => x + Qsum l'
  end.

Definition Qof_nat (n : nat) : Q := inject_Z (Z.of_nat n).

(** [a % k == 0] on floats: [a] is an exact multiple of [k]. *)
Definition Qdivisible (a k : Q) : bool :=
  Qeq_bool (a / k) (inject_Z (Qfloor (a / k))).

(** A float that may be NaN or infinite, as numpy produces them: division
    by zero gives NaN for [0/0] and a signed infinity otherwise, and every
    ordered comparison with NaN is false. *)
Inductive xfloat : Type :=
| XNum (q : Q)
| XNaN
| XInf (positive : bool).

Definition xdiv (a b : xfloat) : xfloat :=
  match a, b with
  | XNum x, XNum y =>
      if Qeq_bool y 0
      then (if Qeq_bool x 0 then XNaN else XInf (Qltb 0 x))
      else XNum (x / y)
  | _, _ => XNaN
  end.

Definition xsub (a b : xfloat) : xfloat :=
  match a, b with
  | XNum x, XNum y => XNum (x - y)
  | _, _ => XNaN
  end.

Definition xmul (a b : xfloat) : xfloat :=
  match a, b with
  | XNum x, XNum y => XNum (x * y)
  | _, _ => XNaN
  end.

(** [a > b] *)
Definition xgt (a b : xfloat) : bool :=
  match a, b with
  | XNum x, XNum y => Qgtb x y
  | XInf true, XNum _ => true
  | _, _ => false
  end.

(** [Series.mean()]: NaN on an empty series. *)
Definition mean (l : list Q) : xfloat :=
  match l with
  | [] => XNaN
  | _ => XNum (Qsum l / Qof_nat (length l))
  end.

(** The square of [Series.std()] (sample standard deviation, one degree of
    freedom removed): NaN when there are fewer than two values.  The
    standard deviation itself is a square root and is not rational, so the
    embedding carries the variance and compares squares: for [s = sqrt v],
    [s > 0] is [v > 0] and [abs (d / s) > k] is [d * d / v > k * k], also in
    the degenerate cases ([0/0] is NaN, [d/0] is infinite on both sides). *)
Definition variance (l : list Q) : xfloat :=
  match mean l with
  | XNum m =>
      if (length l <=? 1)%nat then XNaN
      else XNum (Qsum (map (fun x => (x - m) * (x - m)) l)
                 / Qof_nat (length l - 1))
  | _ => XNaN
  end.

(** The square of the z-score [(x - mean) / std]. *)
Definition z_score_sq (x : Q) (m v : xfloat) : xfloat :=
  let d := xsub (XNum x) m in xdiv (xmul d d) v.

(** ** Strings *)

Definition lower_ascii (c : ascii) : ascii :=
  let n := nat_of_ascii c in
  if ((65 <=? n) && (n <=? 90))%nat then ascii_of_nat (n + 32) else c.

(** [str.lower()], on the ASCII letters. *)
Fixpoint lower (s : string) : string :=
  match s with
  | EmptyString => EmptyString
  | String c s' => String (lower_ascii c) (lower s')
  end.

(** [needle in hay]; also [Series.str.contains(needle)] for the keywords of
    this program, which are plain words and so match as regular expressions
    exactly where they occur as substrings. *)
Fixpoint contains (hay needle : string) : bool :=
  String.prefix needle hay
  || match hay with
     | EmptyString => false
     | String _ hay' => contains hay' needle
     end.

Fixpoint mem_ascii (c : ascii) (chars : string) : bool :=
  match chars with
  | EmptyString => false
  | String d chars' => Ascii.eqb c d || mem_ascii c chars'
  end.

(** [s.rstrip(chars)]: drop the longest suffix made of characters of
    [chars]. *)
Fixpoint rstrip (chars s : string) : string :=
  match s with
  | EmptyString => EmptyString
  | String c s' =>
      match rstrip chars s' with
      | EmptyString => if mem_ascii c chars then EmptyString else String c EmptyString
      | r => String c r
      end
  end.

Definition opt_string_eqb (a b : option string) : bool :=
  match a, b with
  | Some x, Some y => String.eqb x y
  | _, _ => false
  end.

(** ** Time *)

Module Clock.
Local Open Scope Z_scope.

Definition minute_s : Z := 60.
Definition hour_s : Z := 3600.
Definition day_s : Z := 86400.

(** [Timestamp.hour] *)
Definition hour (t : Z) : Z := (t / hour_s) mod 24.
(** [Timestamp.floor('H')], as the number of the hour since the epoch *)
Definition floor_hour (t : Z) : Z := t / hour_s.
(** [Timestamp.date()], as the number of the day since the epoch *)
Definition date (t : Z) : Z := t / day_s.
(** [Timestamp.dayofweek] and [weekday()]: Monday is 0; the epoch was a
    Thursday. *)
Definition dayofweek (t : Z) : Z := (date t + 3) mod 7.

(** Month and day of the month of a day number (proleptic Gregorian
    calendar). *)
Definition month_day (days : Z) : Z * Z :=
  let z := days + 719468 in
  let era := z / 146097 in
  let doe := z - era * 146097 in
  let yoe := (doe - doe / 1460 + doe / 36524 - doe / 146096) / 365 in
  let doy := doe - (365 * yoe + yoe / 4 - yoe / 100) in
  let mp := (5 * doy + 2) / 153 in
  let d := doy - (153 * mp + 2) / 5 + 1 in
  let m := if mp <? 10 then mp + 3 else mp - 9 in
  (m, d).

Definition month (t : Z) : Z := fst (month_day (date t)).
Definition day (t : Z) : Z := snd (month_day (date t)).
End Clock.

(** ** Transactions and frames *)

(** One row of the transaction table.  The text columns are object columns
    and may hold a missing value ([None]). *)
Record Transaction : Type := mkTransaction {
  transaction_id : string;
  amount : Q;
  merchant : option string;
  location : option string;
  timestamp : Z;
  user_id : string;
  card_type : option string;
  merchant_category : option string
}.

(** A row of the frame that [detect_fraud] works on: the transaction, its
    index label and the three columns that the detector adds. *)
Record Row : Type := mkRow {
  index : nat;
  tx : Transaction;
  risk_score : Q;
  is_fraud : bool;
  fraud_reasons : string
}.

Definition DataFrame : Type := list Row.

(** [df.loc[mask, 'risk_score'] += delta; df.loc[mask, 'fraud_reasons'] += label] *)
Definition bump (delta : Q) (label : string) (r : Row) : Row :=
  {| index := index r; tx := tx r;
     risk_score := risk_score r + delta;
     is_fraud := is_fraud r;
     fraud_reasons := fraud_reasons r ++ label |}.

Definition loc_add (mask : Row -> bool) (delta : Q) (label : string)
    (df : DataFrame) : DataFrame :=
  map (fun r => if mask r then bump delta label r else r) df.

(** The same with a list of index labels in place of a boolean mask. *)
Definition in_labels (labels : list nat) (r : Row) : bool :=
  existsb (Nat.eqb (index r)) labels.

(** [df.sort_values('timestamp')]: ascending.  The default sort of pandas
    (quicksort) does not fix the order of rows with equal timestamps; here
    the row that comes later in the table goes first. *)
Fixpoint insert_by_timestamp (r : Row) (l : list Row) : list Row :=
  match l with
  | [] => [r]
  | r' :: l' =>
      if (timestamp (tx r) <? timestamp (tx r'))%Z
      then r :: l
      else r' :: insert_by_timestamp r l'
  end.

Definition sort_values_timestamp (df : DataFrame) : DataFrame :=
  fold_right insert_by_timestamp [] df.

(** [Series.unique()]: the distinct values in order of first appearance. *)
Fixpoint unique_by {A : Type} (eqb : A -> A -> bool) (l : list A) : list A :=
  match l with
  | [] => []
  | x :: l' => x :: List.filter (fun y => negb (eqb x y)) (unique_by eqb l')
  end.

(** [Series.diff()] on timestamps: missing on the first row. *)
Fixpoint diff_from (prev : option Z) (l : list Z) : list (option Z) :=
  match l with
  | [] => []
  | t :: l' =>
      match prev with
      | None => None
      | Some p => Some (t - p)%Z
      end :: diff_from (Some t) l'
  end.

Definition diff (l : list Z) : list (option Z) := diff_from None l.

(** [Series.shift(1)]: missing on the first row. *)
Definition shift {A : Type} (l : list A) : list (option A) :=
  match l with
  | [] => []
  | _ => None :: map Some (removelast l)
  end.

(** [time_diff < timedelta(seconds=limit)]; a missing difference (NaT)
    compares false. *)
Definition lt_timedelta (d : option Z) (limit : Z) : bool :=
  match d with
  | Some x => (x <? limit)%Z
  | None => false
  end.

(** ** The batch scorer: class [FraudDetector] *)

(** A value of the settings dictionary: a number (Python int or float), a
    time of day ([datetime.time], hour and minute), or any other object,
    which the dictionary accepts as well. *)
Inductive SettingValue : Type :=
| VNum (q : Q)
| VTime (h m : Z)
| VStr (s : string).

Module FraudDetector.

(** [self.settings] as set by [__init__]. *)
Definition default_settings : gmap string SettingValue :=
  <["high_risk_threshold" := VNum 0.7]>
  (<["medium_risk_threshold" := VNum 0.4]>
  (<["unusual_amount_threshold" := VNum 10000]>
  (<["micro_transaction_threshold" := VNum 1]>
  (<["off_hours_start" := VTime 22 0]>
  (<["off_hours_end" := VTime 6 0]>
  (<["max_transactions_per_hour" := VNum 10]>
  (<["max_amount_per_day" := VNum 50000]> ∅))))))).

(** [self.settings.update(new_settings)]: every key of [new_settings]
    is written, the other keys stay. *)
Definition update_settings (settings new_settings : gmap string SettingValue)
    : gmap string SettingValue :=
  new_settings ∪ settings.

(** [self.settings[key]] used as a number: a missing key raises
    [KeyError], a value that is not a number raises [TypeError] where it
    is compared. *)
Definition get_num (settings : gmap string SettingValue) (key : string)
    : option Q :=
  match settings !! key with
  | Some (VNum q) => Some q
  | _ => None
  end.

(** [self.settings[key].hour]: only a time of day has the attribute. *)
Definition get_hour (settings : gmap string SettingValue) (key : string)
    : option Z :=
  match settings !! key with
  | Some (VTime h _) => Some h
  | _ => None
  end.

(** *** Amount rules *)

Definition amounts (df : DataFrame) : list Q := map (fun r => amount (tx r)) df.

(** [np.abs((amount - amount_mean) / amount_std) > 3], compared on the
    squares (see [variance]). *)
Definition extreme_amounts (df : DataFrame) (r : Row) : bool :=
  xgt (z_score_sq (amount (tx r)) (mean (amounts df)) (variance (amounts df)))
      (XNum 9).

Definition flag_extreme_amounts (df : DataFrame) : DataFrame :=
  loc_add (extreme_amounts df) 0.3 "Extreme amount, " df.

Definition flag_large_amounts (threshold : Q) (df : DataFrame) : DataFrame :=
  loc_add (fun r => Qgtb (amount (tx r)) threshold) 0.2 "Large amount, " df.

Definition flag_micro_amounts (threshold : Q) (df : DataFrame) : DataFrame :=
  loc_add (fun r => Qltb (amount (tx r)) threshold) 0.1 "Micro transaction, " df.

Definition flag_round_amounts (df : DataFrame) : DataFrame :=
  loc_add (fun r => Qdivisible (amount (tx r)) 100 && Qgtb (amount (tx r)) 100)
          0.05 "Round amount, " df.

Definition _check_amount_anomalies (settings : gmap string SettingValue)
    (df : DataFrame) : option DataFrame :=
  let df := flag_extreme_amounts df in
  unusual ← get_num settings "unusual_amount_threshold";
  let df := flag_large_amounts unusual df in
  micro ← get_num settings "micro_transaction_threshold";
  let df := flag_micro_amounts micro df in
  Some (flag_round_amounts df).

(** *** Time rules *)

Definition off_hours (off_hours_start off_hours_end hour : Z) : bool :=
  if (off_hours_start >? off_hours_end)%Z
  then (hour >=? off_hours_start)%Z || (hour <=? off_hours_end)%Z
  else (hour >=? off_hours_start)%Z && (hour <=? off_hours_end)%Z.

Definition weekend (day_of_week : Z) : bool :=
  (day_of_week =? 5)%Z || (day_of_week =? 6)%Z.

(** The columns [hour] and [day_of_week] that the source adds here and drops
    in [_calculate_final_score] are computed from the timestamp where they
    are used. *)
Definition _check_time_patterns (settings : gmap string SettingValue)
    (df : DataFrame) : option DataFrame :=
  off_hours_start ← get_hour settings "off_hours_start";
  off_hours_end ← get_hour settings "off_hours_end";
  let df :=
    loc_add (fun r => off_hours off_hours_start off_hours_end
                                (Clock.hour (timestamp (tx r))))
            0.15 "Off-hours transaction, " df in
  Some (loc_add (fun r => weekend (Clock.dayofweek (timestamp (tx r))))
                0.05 "Weekend transaction, " df).

(** *** Velocity rules *)

Definition user_rows (df_sorted : DataFrame) (user : string) : list Row :=
  List.filter (fun r => String.eqb (user_id (tx r)) user) df_sorted.

Definition users (df : DataFrame) : list string :=
  unique_by String.eqb (map (fun r => user_id (tx r)) df).

(** The index labels of the rows of [rows] whose entry in [mask] is true. *)
Fixpoint masked_indices (rows : list Row) (mask : list bool) : list nat :=
  match rows, mask with
  | r :: rows', b :: mask' =>
      if b then index r :: masked_indices rows' mask'
      else masked_indices rows' mask'
  | _, _ => []
  end.

Definition rapid_indices (user_transactions : list Row) : list nat :=
  let time_diff := diff (map (fun r => timestamp (tx r)) user_transactions) in
  masked_indices user_transactions
    (map (fun d => lt_timedelta d Clock.minute_s) time_diff).

(** The keys of [groupby(key)]; the rows are sorted by timestamp, so the
    keys come out in ascending order. *)
Definition group_keys (key : Row -> Z) (rows : list Row) : list Z :=
  unique_by Z.eqb (map key rows).

Definition group (key : Row -> Z) (rows : list Row) (k : Z) : list Row :=
  List.filter (fun r => (key r =? k)%Z) rows.

Definition hour_group (r : Row) : Z := Clock.floor_hour (timestamp (tx r)).
Definition date_group (r : Row) : Z := Clock.date (timestamp (tx r)).

Definition excessive_hours (max_per_hour : Q) (user_transactions : list Row)
    : list Z :=
  List.filter (fun h => Qgtb (Qof_nat (length (group hour_group user_transactions h)))
                        max_per_hour)
         (group_keys hour_group user_transactions).

Definition excessive_dates (max_per_day : Q) (user_transactions : list Row)
    : list Z :=
  List.filter (fun d => Qgtb (Qsum (amounts (group date_group user_transactions d)))
                        max_per_day)
         (group_keys date_group user_transactions).

Definition velocity_user (settings : gmap string SettingValue)
    (df_sorted : DataFrame) (df : DataFrame) (user : string)
    : option DataFrame :=
  let user_transactions := user_rows df_sorted user in
  if (1 <? length user_transactions)%nat then
    let df := loc_add (in_labels (rapid_indices user_transactions))
                      0.25 "Rapid consecutive transactions, " df in
    max_per_hour ← get_num settings "max_transactions_per_hour";
    let df :=
      fold_left
        (fun df h =>
           loc_add (in_labels (map index (group hour_group user_transactions h)))
                   0.2 "High hourly velocity, " df)
        (excessive_hours max_per_hour user_transactions) df in
    max_per_day ← get_num settings "max_amount_per_day";
    Some (fold_left
            (fun df d =>
               loc_add (in_labels (map index (group date_group user_transactions d)))
                       0.15 "High daily amount, " df)
            (excessive_dates max_per_day user_transactions) df)
  else Some df.

(** A loop whose body may raise. *)
Fixpoint for_each {A S : Type} (body : S -> A -> option S) (l : list A)
    (s : S) : option S :=
  match l with
  | [] => Some s
  | x :: l' => s' ← body s x; for_each body l' s'
  end.

Definition _check_velocity_patterns (settings : gmap string SettingValue)
    (df : DataFrame) : option DataFrame :=
  let df_sorted := sort_values_timestamp df in
  for_each (velocity_user settings df_sorted) (users df) df.
(** *** Location rules *)

(** [location != location.shift(1)]: a missing value differs from
    everything, also from another missing value, and the first row has no
    predecessor. *)
Definition location_changed (user_transactions : list Row) : list bool :=
  let locations := map (fun r => location (tx r)) user_transactions in
  map (fun p => match snd p with
                | None => true
                | Some prev => negb (opt_string_eqb (fst p) prev)
                end)
      (combine locations (shift locations)).

Definition rapid_location_indices (user_transactions : list Row) : list nat :=
  let time_diff := diff (map (fun r => timestamp (tx r)) user_transactions) in
  masked_indices user_transactions
    (map (fun p => fst p && lt_timedelta (snd p) Clock.hour_s)
         (combine (location_changed user_transactions) time_diff)).

Definition location_user (df_sorted : DataFrame) (df : DataFrame)
    (user : string) : DataFrame :=
  let user_transactions := user_rows df_sorted user in
  if (1 <? length user_transactions)%nat then
    loc_add (in_labels (rapid_location_indices user_transactions))
            0.3 "Rapid location change, " df
  else df.

Definition high_risk_keywords : list string :=
  ["unknown"; "test"; "temp"; "null"; ""].

(** [series.str.lower().str.contains(keyword, na=False)] *)
Definition str_contains (field : option string) (keyword : string) : bool :=
  match field with
  | Some s => contains (lower s) keyword
  | None => false
  end.

Definition flag_high_risk_location (df : DataFrame) (keyword : string)
    : DataFrame :=
  loc_add (fun r => str_contains (location (tx r)) keyword)
          0.1 "High-risk location, " df.

Definition _check_location_patterns (df : DataFrame) : DataFrame :=
  let df_sorted := sort_values_timestamp df in
  let df := fold_left (location_user df_sorted) (users df) df in
  fold_left flag_high_risk_location high_risk_keywords df.

(** *** Merchant rules *)

(** [merchant_counts[merchant]] of [value_counts()], which leaves missing
    values out. *)
Definition count_value (column : list (option string)) (v : string) : nat :=
  length (List.filter (fun x => opt_string_eqb x (Some v)) column).

Definition rare_merchant (df : DataFrame) (r : Row) : bool :=
  match merchant (tx r) with
  | Some m => (count_value (map (fun r => merchant (tx r)) df) m =? 1)%nat
  | None => false
  end.

Definition high_risk_categories : list string :=
  ["gambling"; "adult"; "cryptocurrency"; "cash_advance"].

Definition suspicious_keywords : list string :=
  ["test"; "temp"; "fake"; "dummy"].

Definition flag_high_risk_category (df : DataFrame) (category : string)
    : DataFrame :=
  loc_add (fun r => str_contains (merchant_category (tx r)) category)
          0.15 ("High-risk category (" ++ category ++ "), ") df.

Definition flag_suspicious_merchant (df : DataFrame) (keyword : string)
    : DataFrame :=
  loc_add (fun r => str_contains (merchant (tx r)) keyword)
          0.2 "Suspicious merchant name, " df.

Definition _check_merchant_patterns (df : DataFrame) : DataFrame :=
  let df := loc_add (rare_merchant df) 0.1 "New/rare merchant, " df in
  let df := fold_left flag_high_risk_category high_risk_categories df in
  fold_left flag_suspicious_merchant suspicious_keywords df.

(** *** The final score *)

Definition finalize_row (high_risk_threshold : Q) (r : Row) : Row :=
  let score := Qmin (risk_score r) 1 in
  {| index := index r; tx := tx r;
     risk_score := score;
     is_fraud := Qgeb score high_risk_threshold;
     fraud_reasons := rstrip ", " (fraud_reasons r) |}.

Definition _calculate_final_score (settings : gmap string SettingValue)
    (df : DataFrame) : option DataFrame :=
  high_risk_threshold ← get_num settings "high_risk_threshold";
  Some (map (finalize_row high_risk_threshold) df).

(** *** [detect_fraud] *)

(** The fresh columns [risk_score = 0.0], [is_fraud = False],
    [fraud_reasons = ''] on a copy of the transactions; the frame has the
    default index [0, 1, 2, ...]. *)
Definition fresh_row (i : nat) (t : Transaction) : Row :=
  {| index := i; tx := t; risk_score := 0; is_fraud := false;
     fraud_reasons := "" |}.

Fixpoint init_rows (i : nat) (transactions : list Transaction) : DataFrame :=
  match transactions with
  | [] => []
  | t :: ts => fresh_row i t :: init_rows (S i) ts
  end.

Definition detect_fraud (settings : gmap string SettingValue)
    (transactions : list Transaction) : option DataFrame :=
  let df := init_rows 0 transactions in
  df ← _check_amount_anomalies settings df;
  df ← _check_time_patterns settings df;
  df ← _check_velocity_patterns settings df;
  let df := _check_location_patterns df in
  let df := _check_merchant_patterns df in
  _calculate_final_score settings df.

(** The detector object and the caller's table as a store;
    [update_settings] writes the settings. *)
Record Store : Type := mkStore {
  settings_of : gmap string SettingValue;
  table_of : list Transaction
}.

Definition call_update_settings (new_settings : gmap string SettingValue)
    (st : Store) : Store :=
  {| settings_of := update_settings (settings_of st) new_settings;
     table_of := table_of st |}.

(** *** [get_fraud_statistics] *)

Record FraudStatistics : Type := mkStatistics {
  total_transactions : nat;
  fraud_transactions : nat;
  fraud_rate : Q;
  high_risk_transactions : nat;
  medium_risk_transactions : nat;
  fraud_amount : Q;
  total_amount : Q;
  fraud_amount_rate : Q;
  average_risk_score : xfloat
}.

Definition get_fraud_statistics (settings : gmap string SettingValue)
    (transactions : list Transaction) : option FraudStatistics :=
  transactions_with_scores ← detect_fraud settings transactions;
  let total_transactions := length transactions_with_scores in
  let fraud_transactions :=
    length (List.filter is_fraud transactions_with_scores) in
  let high_risk_transactions :=
    length (List.filter (fun r => Qgtb (risk_score r) 0.7)
              transactions_with_scores) in
  let medium_risk_transactions :=
    length (List.filter (fun r => Qgtb (risk_score r) 0.4
                                  && Qle_bool (risk_score r) 0.7)
              transactions_with_scores) in
  let fraud_amount :=
    Qsum (amounts (List.filter is_fraud transactions_with_scores)) in
  let total_amount := Qsum (amounts transactions_with_scores) in
  Some {| total_transactions := total_transactions;
          fraud_transactions := fraud_transactions;
          fraud_rate :=
            if (0 <? total_transactions)%nat
            then Qof_nat fraud_transactions / Qof_nat total_transactions
            else 0;
          high_risk_transactions := high_risk_transactions;
          medium_risk_transactions := medium_risk_transactions;
          fraud_amount := fraud_amount;
          total_amount := total_amount;
          fraud_amount_rate :=
            if Qgtb total_amount 0 then fraud_amount / total_amount else 0;
          average_risk_score := mean (map risk_score transactions_with_scores) |}.
End FraudDetector.


(** ** The single-transaction analysis: class [TransactionAnalyzer] *)

(** The risk factors.  The source builds them as strings, some of them with
    formatted numbers; here every message is a constructor that carries the
    values that the message shows. *)
Inductive Factor : Type :=
| NewUser                          (* "New user - no transaction history" *)
| AmountHighlyUnusual (z_sq : xfloat)   (* "Amount highly unusual for user (Z-score: ..)" *)
| AmountSomewhatUnusual (z_sq : xfloat) (* "Amount somewhat unusual for user (Z-score: ..)" *)
| VeryRecentTransaction            (* "Very recent transaction from same user" *)
| DailySpendingAboveAverage        (* "Daily spending significantly above average" *)
| TopOnePercent (amount : Q)       (* "Amount in top 1% of all transactions ($..)" *)
| TopFivePercent (amount : Q)      (* "Amount in top 5% of all transactions ($..)" *)
| MicroAmount (amount : Q)         (* "Micro transaction amount ($..)" *)
| RoundAmount (amount : Q)         (* "Round amount ($..)" *)
| RoundAmountTen (amount : Q)      (* "Round amount to nearest $10 ($..)" *)
| StatisticalOutlier (z_sq : xfloat)    (* "Statistical outlier (Z-score: ..)" *)
| OffHours (hour : Z)              (* "Off-hours transaction (HH:00)" *)
| WeekendTransaction               (* "Weekend transaction" *)
| HolidayTransaction               (* "Holiday transaction" *)
| UnusualHour (count : nat)        (* "Unusual hour for transactions (only .. historical transactions)" *)
| NewLocationForUser               (* "New location for this user" *)
| RareLocationForUser              (* "Rarely used location for this user" *)
| NewLocationGlobally              (* "New location globally" *)
| RareLocationGlobally             (* "Rarely used location globally" *)
| SuspiciousLocationName           (* "Suspicious location name" *)
| NewMerchantForUser               (* "New merchant for this user" *)
| NewCategoryForUser               (* "New merchant category for this user" *)
| NewMerchantGlobally              (* "New merchant globally" *)
| RareMerchant                     (* "Rarely used merchant" *)
| HighRiskCategory (category : string)  (* "High-risk merchant category: .." *)
| SuspiciousMerchantName.          (* "Suspicious merchant name" *)

Inductive Action : Type := BLOCK | REVIEW | MONITOR | APPROVE.
Inductive Level : Type := HIGH | MEDIUM | LOW | VERY_LOW.

Module TransactionAnalyzer.

(** The result of one sub-analysis (the [details] mapping, which is only
    displayed, is left out). *)
Record Analysis : Type := mkAnalysis {
  risk_contribution : Q;
  factors : list Factor
}.

Definition no_risk : Analysis := {| risk_contribution := 0; factors := [] |}.

(** [risk_contribution += c; factors.append(f)] *)
Definition fire (c : Q) (f : Factor) (a : Analysis) : Analysis :=
  {| risk_contribution := risk_contribution a + c;
     factors := factors a ++ [f] |}.

Definition fire_if (b : bool) (c : Q) (f : Factor) (a : Analysis) : Analysis :=
  if b then fire c f a else a.

Record Recommendation : Type := mkRecommendation {
  action : Action;
  confidence : Level;
  reasoning : string;
  risk_level : Level;
  primary_concerns : list Factor
}.

Record RiskAnalysisResult : Type := mkResult {
  risk_score : Q;
  risk_factors : list Factor;
  user_analysis : Analysis;
  amount_analysis : Analysis;
  temporal_analysis : Analysis;
  location_analysis : Analysis;
  merchant_analysis : Analysis;
  recommendation : Recommendation
}.

Definition user_history (historical_data : list Transaction) (user : string)
    : list Transaction :=
  List.filter (fun h => String.eqb (user_id h) user) historical_data.

(** [Series.max()] of a non-empty series of timestamps. *)
Definition max_timestamp (first : Z) (rest : list Z) : Z :=
  fold_left Z.max rest first.

Fixpoint insert_Z (x : Z) (l : list Z) : list Z :=
  match l with
  | [] => [x]
  | y :: l' => if (x <=? y)%Z then x :: l else y :: insert_Z x l'
  end.

(** The dates of [groupby(timestamp.dt.date)]: distinct and ascending. *)
Definition dates (txs : list Transaction) : list Z :=
  unique_by Z.eqb (fold_right insert_Z [] (map (fun h => Clock.date (timestamp h)) txs)).

(** [groupby(date)['amount'].sum()] *)
Definition daily_sums (txs : list Transaction) : list Q :=
  map (fun d => Qsum (map amount
                        (List.filter (fun h => (Clock.date (timestamp h) =? d)%Z) txs)))
      (dates txs).

Definition _analyze_user_behavior (transaction : Transaction)
    (historical_data : list Transaction) : Analysis :=
  let user_transactions := user_history historical_data (user_id transaction) in
  match user_transactions with
  | [] => fire 0.3 NewUser no_risk
  | first :: rest =>
      let a := no_risk in
      let avg_amount := mean (map amount user_transactions) in
      let var_amount := variance (map amount user_transactions) in
      let a :=
        if xgt var_amount (XNum 0) then
          let z_sq := z_score_sq (amount transaction) avg_amount var_amount in
          if xgt z_sq (XNum 9) then fire 0.25 (AmountHighlyUnusual z_sq) a
          else if xgt z_sq (XNum 4) then fire 0.15 (AmountSomewhatUnusual z_sq) a
          else a
        else a in
      let last_transaction :=
        max_timestamp (timestamp first) (map timestamp rest) in
      let time_since_last := (timestamp transaction - last_transaction)%Z in
      let a := fire_if (time_since_last <? 5 * Clock.minute_s)%Z
                       0.2 VeryRecentTransaction a in
      let recent_transactions :=
        List.filter (fun h => (timestamp h >? timestamp transaction - Clock.day_s)%Z)
               user_transactions in
      if (0 <? length recent_transactions)%nat then
        let daily_spending :=
          Qsum (map amount recent_transactions) + amount transaction in
        let avg_daily_spending := mean (daily_sums user_transactions) in
        fire_if (xgt (XNum daily_spending) (xmul avg_daily_spending (XNum 3)))
                0.2 DailySpendingAboveAverage a
      else a
  end.

Fixpoint insert_Q (x : Q) (l : list Q) : list Q :=
  match l with
  | [] => [x]
  | y :: l' => if Qle_bool x y then x :: l else y :: insert_Q x l'
  end.

(** [Series.quantile(q)] with linear interpolation between the two
    neighbouring order statistics; NaN on an empty series. *)
Definition quantile (q : Q) (l : list Q) : xfloat :=
  match l with
  | [] => XNaN
  | _ =>
      let sorted := fold_right insert_Q [] l in
      let pos := q * Qof_nat (length l - 1) in
      let lo := Z.to_nat (Qfloor pos) in
      let hi := Z.to_nat (Qceiling pos) in
      let frac := pos - inject_Z (Qfloor pos) in
      XNum (nth lo sorted 0 + (nth hi sorted 0 - nth lo sorted 0) * frac)
  end.

Definition _analyze_amount_patterns (transaction : Transaction)
    (historical_data : list Transaction) : Analysis :=
  let amount_ := amount transaction in
  let population := map amount historical_data in
  let a := no_risk in
  let a :=
    if xgt (XNum amount_) (quantile 0.99 population)
    then fire 0.3 (TopOnePercent amount_) a
    else fire_if (xgt (XNum amount_) (quantile 0.95 population))
                 0.15 (TopFivePercent amount_) a in
  let a := fire_if (Qltb amount_ 1) 0.15 (MicroAmount amount_) a in
  let a :=
    if Qgeb amount_ 100 && Qdivisible amount_ 100
    then fire 0.1 (RoundAmount amount_) a
    else fire_if (Qgeb amount_ 10 && Qdivisible amount_ 10)
                 0.05 (RoundAmountTen amount_) a in
  if xgt (variance population) (XNum 0) then
    let z_sq := z_score_sq amount_ (mean population) (variance population) in
    fire_if (xgt z_sq (XNum 9)) 0.2 (StatisticalOutlier z_sq) a
  else a.

Definition _analyze_temporal_patterns (transaction : Transaction)
    (historical_data : list Transaction) : Analysis :=
  let t := timestamp transaction in
  let hour := Clock.hour t in
  let day_of_week := Clock.dayofweek t in
  let a := no_risk in
  let a := fire_if ((hour >=? 22)%Z || (hour <=? 6)%Z) 0.15 (OffHours hour) a in
  let a := fire_if (day_of_week >=? 5)%Z 0.05 WeekendTransaction a in
  let a :=
    fire_if (((Clock.month t =? 1)%Z && (Clock.day t =? 1)%Z)
             || ((Clock.month t =? 12)%Z && (Clock.day t =? 25)%Z))
            0.1 HolidayTransaction a in
  let hour_transactions :=
    List.filter (fun h => (Clock.hour (timestamp h) =? hour)%Z) historical_data in
  fire_if (Qltb (Qof_nat (length hour_transactions))
                (Qof_nat (length historical_data) * 0.01))
          0.1 (UnusualHour (length hour_transactions)) a.

(** [value_counts()] of a text column leaves the missing values out:
    [len(counts)] is positive exactly when some value is present. *)
Definition has_values (column : list (option string)) : bool :=
  existsb (fun x => match x with Some _ => true | None => false end) column.

(** [counts[v]] for a value of the column, and [0] where [v not in
    counts.index]; a missing [v] is never in the index. *)
Definition occurrences (column : list (option string)) (v : option string)
    : nat :=
  match v with
  | Some s => FraudDetector.count_value column s
  | None => 0
  end.

(** [any(keyword.lower() in text.lower() for keyword in keywords)];
    [text.lower()] raises on a missing value. *)
Definition any_keyword (keywords : list string) (text : option string)
    : option bool :=
  match text with
  | Some s => Some (existsb (fun k => contains (lower s) (lower k)) keywords)
  | None => None
  end.

Definition suspicious_location_keywords : list string :=
  ["test"; "temp"; "fake"; "unknown"; "null"; ""].

Definition _analyze_location_patterns (transaction : Transaction)
    (historical_data : list Transaction) : option Analysis :=
  let location_ := location transaction in
  let user_transactions := user_history historical_data (user_id transaction) in
  let user_locations := map location user_transactions in
  let a := no_risk in
  let a :=
    if has_values user_locations then
      if (occurrences user_locations location_ =? 0)%nat
      then fire 0.2 NewLocationForUser a
      else fire_if (occurrences user_locations location_ =? 1)%nat
                   0.1 RareLocationForUser a
    else a in
  let global_locations := map location historical_data in
  let a :=
    if (occurrences global_locations location_ =? 0)%nat
    then fire 0.15 NewLocationGlobally a
    else fire_if (occurrences global_locations location_ <? 5)%nat
                 0.1 RareLocationGlobally a in
  suspicious ← any_keyword suspicious_location_keywords location_;
  Some (fire_if suspicious 0.25 SuspiciousLocationName a).

Definition high_risk_categories : list string :=
  ["gambling"; "adult"; "cryptocurrency"; "cash advance"; "money transfer"].

Definition suspicious_merchant_keywords : list string :=
  ["test"; "temp"; "fake"; "unknown"; "null"].

Definition category_text (c : option string) : string :=
  match c with
  | Some s => s
  | None => ""
  end.

Definition _analyze_merchant_patterns (transaction : Transaction)
    (historical_data : list Transaction) : option Analysis :=
  let merchant_ := merchant transaction in
  let merchant_category_ := merchant_category transaction in
  let user_transactions := user_history historical_data (user_id transaction) in
  let user_merchants := map merchant user_transactions in
  let user_categories := map merchant_category user_transactions in
  let a := no_risk in
  let a :=
    if has_values user_merchants then
      let a := fire_if (occurrences user_merchants merchant_ =? 0)%nat
                       0.1 NewMerchantForUser a in
      fire_if (occurrences user_categories merchant_category_ =? 0)%nat
              0.15 NewCategoryForUser a
    else a in
  let global_merchants := map merchant historical_data in
  let a :=
    if (occurrences global_merchants merchant_ =? 0)%nat
    then fire 0.15 NewMerchantGlobally a
    else fire_if (occurrences global_merchants merchant_ <? 5)%nat
                 0.1 RareMerchant a in
  high_risk ← any_keyword high_risk_categories merchant_category_;
  let a := fire_if high_risk 0.2
                   (HighRiskCategory (category_text merchant_category_)) a in
  suspicious ← any_keyword suspicious_merchant_keywords merchant_;
  Some (fire_if suspicious 0.25 SuspiciousMerchantName a).

Definition _get_risk_level (risk_score : Q) : Level :=
  if Qgeb risk_score 0.7 then HIGH
  else if Qgeb risk_score 0.4 then MEDIUM
  else if Qgeb risk_score 0.2 then LOW
  else VERY_LOW.

Definition _get_recommendation (risk_score : Q) (risk_factors : list Factor)
    : Recommendation :=
  let '(action, confidence, reasoning) :=
    if Qgeb risk_score 0.8 then
      (BLOCK, HIGH, "Multiple high-risk indicators detected")
    else if Qgeb risk_score 0.6 then
      (REVIEW, MEDIUM, "Several risk factors present, manual review recommended")
    else if Qgeb risk_score 0.3 then
      (MONITOR, LOW, "Some risk factors present, continue monitoring")
    else
      (APPROVE, HIGH, "Low risk transaction") in
  {| action := action;
     confidence := confidence;
     reasoning := reasoning;
     risk_level := _get_risk_level risk_score;
     primary_concerns :=
       match risk_factors with
       | [] => []
       | _ => firstn 3 risk_factors
       end |}.

Definition analyze_single_transaction (transaction : Transaction)
    (historical_data : list Transaction) : option RiskAnalysisResult :=
  let risk_factors := [] in
  let risk_score := 0 in
  let user_analysis := _analyze_user_behavior transaction historical_data in
  let risk_score := risk_score + risk_contribution user_analysis in
  let risk_factors := risk_factors ++ factors user_analysis in
  let amount_analysis := _analyze_amount_patterns transaction historical_data in
  let risk_score := risk_score + risk_contribution amount_analysis in
  let risk_factors := risk_factors ++ factors amount_analysis in
  let temporal_analysis := _analyze_temporal_patterns transaction historical_data in
  let risk_score := risk_score + risk_contribution temporal_analysis in
  let risk_factors := risk_factors ++ factors temporal_analysis in
  location_analysis ← _analyze_location_patterns transaction historical_data;
  let risk_score := risk_score + risk_contribution location_analysis in
  let risk_factors := risk_factors ++ factors location_analysis in
  merchant_analysis ← _analyze_merchant_patterns transaction historical_data;
  let risk_score := risk_score + risk_contribution merchant_analysis in
  let risk_factors := risk_factors ++ factors merchant_analysis in
  let risk_score := Qmin risk_score 1 in
  Some {| risk_score := risk_score;
          risk_factors := risk_factors;
          user_analysis := user_analysis;
          amount_analysis := amount_analysis;
          temporal_analysis := temporal_analysis;
          location_analysis := location_analysis;
          merchant_analysis := merchant_analysis;
          recommendation := _get_recommendation risk_score risk_factors |}.

(** *** [generate_user_profile] *)

(** [Series.min()] of a non-empty series of timestamps. *)
Definition min_timestamp (first : Z) (rest : list Z) : Z :=
  fold_left Z.min rest first.

(** [(last - first).days]: the whole days of a difference that is not
    negative. *)
Definition days_between (first last : Z) : Z := ((last - first) / Clock.day_s)%Z.

(** A text column without its missing values. *)
Fixpoint dropna (column : list (option string)) : list string :=
  match column with
  | [] => []
  | Some s :: column' => s :: dropna column'
  | None :: column' => dropna column'
  end.

(** [Series.nunique()] *)
Definition nunique (column : list (option string)) : nat :=
  length (unique_by String.eqb (dropna column)).

(** [Series.value_counts().to_dict()]: every value that is present, with the
    number of rows that hold it. *)
Definition value_counts (column : list (option string)) : gmap string nat :=
  list_to_map
    (map (fun v => (v, FraudDetector.count_value column v))
         (unique_by String.eqb (dropna column))).

(** [Series.mode()] holds the most frequent values in ascending order, so
    [mode().iloc[0]] is the least of the most frequent values; [v] is a
    better candidate than [best] when it is more frequent, or as frequent and
    smaller. *)
Definition better_mode (column : list (option string)) (v best : string)
    : bool :=
  let cv := FraudDetector.count_value column v in
  let cb := FraudDetector.count_value column best in
  (cb <? cv)%nat || ((cv =? cb)%nat && String.ltb v best).

Definition pick_mode (column : list (option string)) (best : option string)
    (v : string) : option string :=
  match best with
  | None => Some v
  | Some b => if better_mode column v b then Some v else Some b
  end.

Definition mode_first (column : list (option string)) : option string :=
  fold_left (pick_mode column) (unique_by String.eqb (dropna column)) None.

(** [series.mode().iloc[0] if not series.mode().empty else 'Unknown'] *)
Definition most_common (column : list (option string)) : string :=
  match mode_first column with
  | Some v => v
  | None => "Unknown"
  end.

(** [groupby(key).size().to_dict()] for an integer key. *)
Definition group_sizes (key : Transaction -> Z) (txs : list Transaction)
    : gmap Z nat :=
  list_to_map
    (map (fun k => (k, length (List.filter (fun h => (key h =? k)%Z) txs)))
         (unique_by Z.eqb (map key txs))).

(** [Timestamp.day_name()] *)
Definition day_name (t : Z) : string :=
  nth (Z.to_nat (Clock.dayofweek t))
      ["Monday"; "Tuesday"; "Wednesday"; "Thursday"; "Friday"; "Saturday";
       "Sunday"] "".

Definition sizes_by_day (txs : list Transaction) : gmap string nat :=
  value_counts (map (fun h => Some (day_name (timestamp h))) txs).

Record DateRange : Type := mkDateRange {
  first_transaction : Z;
  last_transaction : Z;
  account_age_days : Z
}.

(** [std_amount_sq] is the square of the entry [std_amount] (see
    [variance]). *)
Record SpendingPatterns : Type := mkSpending {
  total_amount : Q;
  average_amount : xfloat;
  median_amount : xfloat;
  std_amount_sq : xfloat;
  min_amount : Q;
  max_amount : Q
}.

Record LocationPatterns : Type := mkLocationPatterns {
  unique_locations : nat;
  most_common_location : string;
  location_distribution : gmap string nat
}.

Record MerchantPatterns : Type := mkMerchantPatterns {
  unique_merchants : nat;
  unique_categories : nat;
  most_common_merchant : string;
  category_distribution : gmap string nat
}.

Record TemporalPatterns : Type := mkTemporalPatterns {
  transactions_by_hour : gmap Z nat;
  transactions_by_day : gmap string nat;
  average_transactions_per_day : Q
}.

Record UserProfile : Type := mkUserProfile {
  profile_user_id : string;
  total_transactions : nat;
  date_range : DateRange;
  spending_patterns : SpendingPatterns;
  location_patterns : LocationPatterns;
  merchant_patterns : MerchantPatterns;
  temporal_patterns : TemporalPatterns
}.

(** The dictionary that [generate_user_profile] returns: the profile, or
    [{'error': 'No transactions found for user'}]. *)
Inductive ProfileResult : Type :=
| NoTransactionsFound
| Profile (p : UserProfile).

Definition generate_user_profile (user : string)
    (historical_data : list Transaction) : ProfileResult :=
  let user_transactions := user_history historical_data user in
  match user_transactions with
  | [] => NoTransactionsFound
  | first :: rest =>
      let timestamps := map timestamp rest in
      let first_ := min_timestamp (timestamp first) timestamps in
      let last_ := max_timestamp (timestamp first) timestamps in
      let amounts_ := map amount user_transactions in
      Profile
        {| profile_user_id := user;
           total_transactions := length user_transactions;
           date_range :=
             {| first_transaction := first_;
                last_transaction := last_;
                account_age_days := days_between first_ last_ |};
           spending_patterns :=
             {| total_amount := Qsum amounts_;
                average_amount := mean amounts_;
                median_amount := quantile 0.5 amounts_;
                std_amount_sq := variance amounts_;
                min_amount := fold_left Qmin (map amount rest) (amount first);
                max_amount := fold_left Qmax (map amount rest) (amount first) |};
           location_patterns :=
             {| unique_locations := nunique (map location user_transactions);
                most_common_location :=
                  most_common (map location user_transactions);
                location_distribution :=
                  value_counts (map location user_transactions) |};
           merchant_patterns :=
             {| unique_merchants := nunique (map merchant user_transactions);
                unique_categories :=
                  nunique (map merchant_category user_transactions);
                most_common_merchant :=
                  most_common (map merchant user_transactions);
                category_distribution :=
                  value_counts (map merchant_category user_transactions) |};
           temporal_patterns :=
             {| transactions_by_hour :=
                  group_sizes (fun h => Clock.hour (timestamp h))
                              user_transactions;
                transactions_by_day := sizes_by_day user_transactions;
                average_transactions_per_day :=
                  Qof_nat (length user_transactions)
                  / inject_Z (Z.max 1 (days_between first_ last_)) |} |}
  end.
End TransactionAnalyzer.

(** ** Helpers of the pages: class [Utils] *)

Module Utils.

(** [get_risk_color]: the colour code of a score. *)
Definition get_risk_color (risk_score : Q) : string :=
  if Qgeb risk_score 0.7 then "#d62728"
  else if Qgeb risk_score 0.4 then "#ff9800"
  else if Qgeb risk_score 0.2 then "#ffc107"
  else "#2ca02c".

Record FraudMetrics : Type := mkMetrics {
  fraud_rate : Q;
  fraud_amount_rate : Q;
  total_transactions : nat;
  fraud_transactions : nat;
  normal_transactions : nat;
  total_amount : Q;
  fraud_amount : Q;
  normal_amount : Q;
  avg_fraud_amount : xfloat;
  avg_normal_amount : xfloat;
  fraud_to_normal_ratio : xfloat
}.

(** [calculate_fraud_metrics] on a frame that has the column [is_fraud]
    (every frame of [Row]s has it; on a frame without it the source raises
    [ValueError]). *)
Definition calculate_fraud_metrics (transactions_df : DataFrame)
    : FraudMetrics :=
  let total_transactions := length transactions_df in
  let fraud_transactions := length (List.filter is_fraud transactions_df) in
  let normal_transactions := (total_transactions - fraud_transactions)%nat in
  let fraud_rate :=
    if (0 <? total_transactions)%nat
    then Qof_nat fraud_transactions / Qof_nat total_transactions
    else 0 in
  let total_amount := Qsum (FraudDetector.amounts transactions_df) in
  let fraud_amount :=
    Qsum (FraudDetector.amounts (List.filter is_fraud transactions_df)) in
  let fraud_amount_rate :=
    if Qgtb total_amount 0 then fraud_amount / total_amount else 0 in
  let avg_fraud_amount :=
    if (0 <? fraud_transactions)%nat
    then mean (FraudDetector.amounts (List.filter is_fraud transactions_df))
    else XNum 0 in
  let avg_normal_amount :=
    if (0 <? normal_transactions)%nat
    then mean (FraudDetector.amounts
                 (List.filter (fun r => negb (is_fraud r)) transactions_df))
    else XNum 0 in
  {| fraud_rate := fraud_rate;
     fraud_amount_rate := fraud_amount_rate;
     total_transactions := total_transactions;
     fraud_transactions := fraud_transactions;
     normal_transactions := normal_transactions;
     total_amount := total_amount;
     fraud_amount := fraud_amount;
     normal_amount := total_amount - fraud_amount;
     avg_fraud_amount := avg_fraud_amount;
     avg_normal_amount := avg_normal_amount;
     fraud_to_normal_ratio :=
       if xgt avg_normal_amount (XNum 0)
       then xdiv avg_fraud_amount avg_normal_amount
       else XNum 0 |}.
End Utils.


(** ** The recommendation ladders, as the specification words them *)

(** score >= 0.8: BLOCK/HIGH; >= 0.6: REVIEW/MEDIUM; >= 0.3: MONITOR/LOW;
    else APPROVE/HIGH. *)
Definition recommendation_ladder (score : Q) (a : Action) (c : Level) : Prop :=
  (0.8 <= score -> a = BLOCK /\ c = HIGH)
  /\ (0.6 <= score /\ score < 0.8 -> a = REVIEW /\ c = MEDIUM)
  /\ (0.3 <= score /\ score < 0.6 -> a = MONITOR /\ c = LOW)
  /\ (score < 0.3 -> a = APPROVE /\ c = HIGH).

(** score >= 0.7: HIGH; >= 0.4: MEDIUM; >= 0.2: LOW; else VERY LOW. *)
Definition risk_level_ladder (score : Q) (l : Level) : Prop :=
  (0.7 <= score -> l = HIGH)
  /\ (0.4 <= score /\ score < 0.7 -> l = MEDIUM)
  /\ (0.2 <= score /\ score < 0.4 -> l = LOW)
  /\ (score < 0.2 -> l = VERY_LOW).

(** ** Well-formed settings updates, as the specification words them *)

(** A threshold is a number in [0,1]; an off-hours bound is a valid time of
    day.  An update is well formed when the fields of these kinds that it
    names are so. *)
Definition valid_threshold (v : SettingValue) : bool :=
  match v with
  | VNum q => Qle_bool 0 q && Qle_bool q 1
  | _ => false
  end.

Definition valid_time (v : SettingValue) : bool :=
  match v with
  | VTime h m => ((0 <=? h) && (h <? 24) && (0 <=? m) && (m <? 60))%Z
  | _ => false
  end.

Definition field_ok (check : SettingValue -> bool)
    (update : gmap string SettingValue) (key : string) : bool :=
  match update !! key with
  | Some v => check v
  | None => true
  end.

Definition well_formed_update (update : gmap string SettingValue) : bool :=
  field_ok valid_threshold update "high_risk_threshold"
  && field_ok valid_threshold update "medium_risk_threshold"
  && field_ok valid_time update "off_hours_start"
  && field_ok valid_time update "off_hours_end".

(** The claim that a malformed update changes nothing. *)
Definition rejects_malformed_updates : Prop :=
  forall settings update,
    well_formed_update update = false ->
    FraudDetector.update_settings settings update = settings.

(** ** The batch scorer without the extreme-amount rule *)

Definition other_amount_rules (settings : gmap string SettingValue)
    (df : DataFrame) : option DataFrame :=
  unusual ← FraudDetector.get_num settings "unusual_amount_threshold";
  micro ← FraudDetector.get_num settings "micro_transaction_threshold";
  Some (FraudDetector.flag_round_amounts
          (FraudDetector.flag_micro_amounts micro
             (FraudDetector.flag_large_amounts unusual df))).

Definition detect_fraud_without_extreme (settings : gmap string SettingValue)
    (transactions : list Transaction) : option DataFrame :=
  let df := FraudDetector.init_rows 0 transactions in
  df ← other_amount_rules settings df;
  df ← FraudDetector._check_time_patterns settings df;
  df ← FraudDetector._check_velocity_patterns settings df;
  let df := FraudDetector._check_location_patterns df in
  let df := FraudDetector._check_merchant_patterns df in
  FraudDetector._calculate_final_score settings df.

(** ** The off-hours window, as the specification words it *)


(** ** Scenario A, as the specification words it *)

(** A row has gained the rapid-transactions contribution. *)
Definition gains_rapid (r : Row) : Prop :=
  0.25 <= risk_score r
  /\ contains (fraud_reasons r) "Rapid consecutive transactions" = true.

(** Both rows of the velocity check of a batch gain it. *)
Definition velocity_flags_all (settings : gmap string SettingValue)
    (transactions : list Transaction) : Prop :=
  forall out,
    FraudDetector._check_velocity_patterns settings
      (FraudDetector.init_rows 0 transactions) = Some out ->
    Forall gains_rapid out.

(** [df.loc[...] += ...] on a row that may or may not be selected. *)
Definition maybe_bump (b : bool) (delta : Q) (label : string) (r : Row) : Row :=
  if b then bump delta label r else r.

(** ** Predicates of the proofs *)

(** [grows r r']: [r'] is the row [r] after some rules fired on it: the same
    transaction under the same label, a score that is no smaller, and the
    reasons of [r] followed by new labels. *)
Definition grows (r r' : Row) : Prop :=
  index r' = index r /\ tx r' = tx r /\ risk_score r <= risk_score r'
  /\ exists labels, fraud_reasons r' = fraud_reasons r +:+ labels.

(** [detect_fraud] returns whenever the settings hold the five thresholds as
    numbers and the two off-hours bounds as times of day. *)
Definition usable_settings (settings : gmap string SettingValue) : Prop :=
  (forall key, In key ["high_risk_threshold"; "unusual_amount_threshold";
                       "micro_transaction_threshold";
                       "max_transactions_per_hour"; "max_amount_per_day"] ->
               exists q, FraudDetector.get_num settings key = Some q)
  /\ (forall key, In key ["off_hours_start"; "off_hours_end"] ->
                  exists h, FraudDetector.get_hour settings key = Some h).

(** The contribution of a sub-analysis is not negative. *)
Definition nonneg (a : TransactionAnalyzer.Analysis) : Prop :=
  0 <= TransactionAnalyzer.risk_contribution a.

(** [recent a]: the analysis [a] lists the "very recent" factor and its
    contribution holds the 0.2 of that factor. *)
Definition recent (a : TransactionAnalyzer.Analysis) : Prop :=
  In VeryRecentTransaction (TransactionAnalyzer.factors a)
  /\ 0.2 <= TransactionAnalyzer.risk_contribution a.


(** ** Rows and labels, for the reason trail *)

(** The last character of a string. *)
Fixpoint last_char (s : string) : option ascii :=
  match s with
  | EmptyString => None
  | String c EmptyString => Some c
  | String _ s' => last_char s'
  end.

(** A label of the batch scorer: a text that does not end with a comma or a
    space, followed by the separator. *)
Definition rule_label (label : string) : Prop :=
  rstrip ", " label <> "" /\ label = rstrip ", " label +:+ ", ".

(** [fired r r']: the row [r'] is the row [r] after rules with positive
    weights and proper labels fired on it, any number of times. *)
Inductive fired : Row -> Row -> Prop :=
| fired_none (r : Row) : fired r r
| fired_bump (r r' : Row) (delta : Q) (label : string) :
    fired r r' -> 0 < delta -> rule_label label ->
    fired r (bump delta label r').

(** ** Settings that the detector cannot tell apart *)

(** The keys that [detect_fraud] looks up. *)
Definition rule_keys : list string :=
  ["unusual_amount_threshold"; "micro_transaction_threshold";
   "off_hours_start"; "off_hours_end";
   "max_transactions_per_hour"; "max_amount_per_day"].

Definition read_keys : list string := "high_risk_threshold" :: rule_keys.

(** The keys that every call looks up; the other two are the limits of the
    velocity check. *)
Definition always_read_keys : list string :=
  ["high_risk_threshold"; "unusual_amount_threshold";
   "micro_transaction_threshold"; "off_hours_start"; "off_hours_end"].

(** What the rules see of the settings: the five numbers and, of the two
    times, the hours. *)
Definition same_on (keys : list string) (s1 s2 : gmap string SettingValue)
    : Prop :=
  forall key, In key keys ->
    FraudDetector.get_num s1 key = FraudDetector.get_num s2 key
    /\ FraudDetector.get_hour s1 key = FraudDetector.get_hour s2 key.

Definition same_reads (s1 s2 : gmap string SettingValue) : Prop :=
  same_on read_keys s1 s2.

(** The part of [detect_fraud] before [_calculate_final_score]. *)
Definition apply_rules (settings : gmap string SettingValue)
    (transactions : list Transaction) : option DataFrame :=
  let df := FraudDetector.init_rows 0 transactions in
  df ← FraudDetector._check_amount_anomalies settings df;
  df ← FraudDetector._check_time_patterns settings df;
  df ← FraudDetector._check_velocity_patterns settings df;
  let df := FraudDetector._check_location_patterns df in
  Some (FraudDetector._check_merchant_patterns df).

(** Two results that differ in the fraud flags at most. *)
Definition same_scores (r1 r2 : Row) : Prop :=
  index r1 = index r2 /\ tx r1 = tx r2
  /\ risk_score r1 = risk_score r2 /\ fraud_reasons r1 = fraud_reasons r2.

(** ** The order of the most common values *)

(** [b] comes before [v] in the order of [mode().iloc[0]]: it is more
    frequent, or as frequent and not greater. *)
Definition mode_before (column : list (option string)) (b v : string) : Prop :=
  (FraudDetector.count_value column v < FraudDetector.count_value column b)%nat
  \/ (FraudDetector.count_value column v = FraudDetector.count_value column b
      /\ (b = v \/ String.ltb b v = true)).

(** ** The weights of the factors *)

(** The contribution that the source adds together with each factor. *)
Definition weight (f : Factor) : Q :=
  match f with
  | NewUser => 0.3
  | AmountHighlyUnusual _ => 0.25
  | AmountSomewhatUnusual _ => 0.15
  | VeryRecentTransaction => 0.2
  | DailySpendingAboveAverage => 0.2
  | TopOnePercent _ => 0.3
  | TopFivePercent _ => 0.15
  | MicroAmount _ => 0.15
  | RoundAmount _ => 0.1
  | RoundAmountTen _ => 0.05
  | StatisticalOutlier _ => 0.2
  | OffHours _ => 0.15
  | WeekendTransaction => 0.05
  | HolidayTransaction => 0.1
  | UnusualHour _ => 0.1
  | NewLocationForUser => 0.2
  | RareLocationForUser => 0.1
  | NewLocationGlobally => 0.15
  | RareLocationGlobally => 0.1
  | SuspiciousLocationName => 0.25
  | NewMerchantForUser => 0.1
  | NewCategoryForUser => 0.15
  | NewMerchantGlobally => 0.15
  | RareMerchant => 0.1
  | HighRiskCategory _ => 0.2
  | SuspiciousMerchantName => 0.25
  end.

(** [risk_contribution = 0.0] and then [risk_contribution += weight] for each
    factor, in the order in which the factors are appended. *)
Definition running_sum (fs : list Factor) : Q :=
  fold_left Qplus (map weight fs) 0.

(** The contribution of an analysis is the running sum of the weights of its
    factors: the same additions in the same order. *)
Definition accounted (a : TransactionAnalyzer.Analysis) : Prop :=
  TransactionAnalyzer.risk_contribution a
  = running_sum (TransactionAnalyzer.factors a).

(** ** The batch scorer as a program on a heap *)

(** The methods of [FraudDetector] once more, statement by statement, on a
    heap: a frame is an object that is created, copied and updated in place,
    and [self.settings] is a dictionary that the statements read.  Which
    frames a call writes to is what the statements say; nothing here states
    that a call leaves its argument alone. *)
Module Program.

(** The frames of the heap, by their addresses. *)
Record Heap : Type := mkHeap {
  settings : gmap string SettingValue;
  frames : gmap nat DataFrame
}.

(** A statement leaves a heap behind, and a value unless it raises. *)
Definition M (A : Type) : Type := Heap -> option A * Heap.

#[global] Instance M_ret : MRet M := fun A x h => (Some x, h).

#[global] Instance M_bind : MBind M := fun A B k m h =>
  match m h with
  | (Some x, h') => k x h'
  | (None, h') => (None, h')
  end.

(** A new frame object. *)
Definition new_frame (df : DataFrame) : M nat := fun h =>
  let r := fresh (dom (frames h)) in
  (Some r, {| settings := settings h; frames := <[r := df]> (frames h) |}).

Definition read (r : nat) : M DataFrame := fun h => (frames h !! r, h).

Definition write (r : nat) (df : DataFrame) : M unit := fun h =>
  match frames h !! r with
  | Some _ =>
      (Some tt, {| settings := settings h; frames := <[r := df]> (frames h) |})
  | None => (None, h)
  end.

(** [self.settings[key]] as a number, and [self.settings[key].hour]. *)
Definition setting_num (key : string) : M Q := fun h =>
  (FraudDetector.get_num (settings h) key, h).

Definition setting_hour (key : string) : M Z := fun h =>
  (FraudDetector.get_hour (settings h) key, h).

(** An update of the frame object [r] in place. *)
Definition update (g : DataFrame -> DataFrame) (r : nat) : M unit :=
  frame ← read r; write r (g frame).

(** [frame.copy()] *)
Definition copy (r : nat) : M nat := frame ← read r; new_frame frame.

(** [df[column] = values] for the three columns of the detector. *)
Definition set_risk_score (value : Row -> Q) (df : nat) : M unit :=
  update (map (fun r => {| index := index r; tx := tx r;
                           risk_score := value r; is_fraud := is_fraud r;
                           fraud_reasons := fraud_reasons r |})) df.

Definition set_is_fraud (value : Row -> bool) (df : nat) : M unit :=
  update (map (fun r => {| index := index r; tx := tx r;
                           risk_score := risk_score r; is_fraud := value r;
                           fraud_reasons := fraud_reasons r |})) df.

Definition set_fraud_reasons (value : Row -> string) (df : nat) : M unit :=
  update (map (fun r => {| index := index r; tx := tx r;
                           risk_score := risk_score r; is_fraud := is_fraud r;
                           fraud_reasons := value r |})) df.

(** [frame[column] = values] for a column that the rows of the embedding do
    not carry ([hour], [day_of_week], [time_diff], ...): the values are
    computed from the transaction where they are used, and the statement is
    a write to the frame that changes none of the columns carried. *)
Definition add_column (frame : nat) : M unit := update (fun rows => rows) frame.

(** [df.loc[mask, 'risk_score'] += delta; df.loc[mask, 'fraud_reasons'] += label] *)
Definition loc_add_at (df : nat) (mask : Row -> bool) (delta : Q)
    (label : string) : M unit :=
  update (loc_add mask delta label) df.

Fixpoint for_ {A : Type} (l : list A) (body : A -> M unit) : M unit :=
  match l with
  | [] => mret tt
  | x :: l' => _ ← body x; for_ l' body
  end.

Definition _check_amount_anomalies (df : nat) : M nat :=
  frame ← read df;
  let extreme_amounts := FraudDetector.extreme_amounts frame in
  _ ← loc_add_at df extreme_amounts 0.3 "Extreme amount, ";
  unusual ← setting_num "unusual_amount_threshold";
  _ ← loc_add_at df (fun r => Qgtb (amount (tx r)) unusual) 0.2 "Large amount, ";
  micro ← setting_num "micro_transaction_threshold";
  _ ← loc_add_at df (fun r => Qltb (amount (tx r)) micro)
                 0.1 "Micro transaction, ";
  _ ← loc_add_at df (fun r => Qdivisible (amount (tx r)) 100
                              && Qgtb (amount (tx r)) 100)
                 0.05 "Round amount, ";
  mret df.

Definition _check_time_patterns (df : nat) : M nat :=
  _ ← add_column df;
  _ ← add_column df;
  off_hours_start ← setting_hour "off_hours_start";
  off_hours_end ← setting_hour "off_hours_end";
  _ ← loc_add_at df (fun r => FraudDetector.off_hours off_hours_start off_hours_end
                                (Clock.hour (timestamp (tx r))))
                 0.15 "Off-hours transaction, ";
  _ ← loc_add_at df (fun r => FraudDetector.weekend
                                (Clock.dayofweek (timestamp (tx r))))
                 0.05 "Weekend transaction, ";
  mret df.

Definition velocity_user (df df_sorted : nat) (user : string) : M unit :=
  sorted ← read df_sorted;
  user_transactions ← new_frame (FraudDetector.user_rows sorted user);
  rows ← read user_transactions;
  if (1 <? length rows)%nat then
    _ ← add_column user_transactions;
    rows ← read user_transactions;
    _ ← loc_add_at df (in_labels (FraudDetector.rapid_indices rows))
                   0.25 "Rapid consecutive transactions, ";
    _ ← add_column user_transactions;
    rows ← read user_transactions;
    max_per_hour ← setting_num "max_transactions_per_hour";
    _ ← for_ (FraudDetector.excessive_hours max_per_hour rows)
             (fun hour =>
                loc_add_at df
                  (in_labels (map index
                                (FraudDetector.group FraudDetector.hour_group
                                                     rows hour)))
                  0.2 "High hourly velocity, ");
    _ ← add_column user_transactions;
    rows ← read user_transactions;
    max_per_day ← setting_num "max_amount_per_day";
    for_ (FraudDetector.excessive_dates max_per_day rows)
         (fun date =>
            loc_add_at df
              (in_labels (map index
                            (FraudDetector.group FraudDetector.date_group
                                                 rows date)))
              0.15 "High daily amount, ")
  else mret tt.

Definition _check_velocity_patterns (df : nat) : M nat :=
  frame ← read df;
  df_sorted ← new_frame (sort_values_timestamp frame);
  frame ← read df;
  _ ← for_ (FraudDetector.users frame) (velocity_user df df_sorted);
  mret df.

Definition location_user (df df_sorted : nat) (user : string) : M unit :=
  sorted ← read df_sorted;
  user_transactions ← new_frame (FraudDetector.user_rows sorted user);
  rows ← read user_transactions;
  if (1 <? length rows)%nat then
    _ ← add_column user_transactions;
    _ ← add_column user_transactions;
    rows ← read user_transactions;
    loc_add_at df (in_labels (FraudDetector.rapid_location_indices rows))
               0.3 "Rapid location change, "
  else mret tt.

Definition _check_location_patterns (df : nat) : M nat :=
  frame ← read df;
  df_sorted ← new_frame (sort_values_timestamp frame);
  frame ← read df;
  _ ← for_ (FraudDetector.users frame) (location_user df df_sorted);
  _ ← for_ FraudDetector.high_risk_keywords
           (fun keyword =>
              loc_add_at df
                (fun r => FraudDetector.str_contains (location (tx r)) keyword)
                0.1 "High-risk location, ");
  mret df.

Definition _check_merchant_patterns (df : nat) : M nat :=
  frame ← read df;
  let rare_merchant_mask := FraudDetector.rare_merchant frame in
  _ ← loc_add_at df rare_merchant_mask 0.1 "New/rare merchant, ";
  _ ← for_ FraudDetector.high_risk_categories
           (fun category =>
              loc_add_at df
                (fun r => FraudDetector.str_contains (merchant_category (tx r))
                                                     category)
                0.15 ("High-risk category (" ++ category ++ "), "));
  _ ← for_ FraudDetector.suspicious_keywords
           (fun keyword =>
              loc_add_at df
                (fun r => FraudDetector.str_contains (merchant (tx r)) keyword)
                0.2 "Suspicious merchant name, ");
  mret df.

(** [df.drop(columns=...)] at the end gives a new frame object. *)
Definition _calculate_final_score (df : nat) : M nat :=
  _ ← set_risk_score (fun r => Qmin (risk_score r) 1) df;
  high_risk_threshold ← setting_num "high_risk_threshold";
  _ ← set_is_fraud (fun r => Qgeb (risk_score r) high_risk_threshold) df;
  _ ← set_fraud_reasons (fun r => rstrip ", " (fraud_reasons r)) df;
  frame ← read df;
  new_frame frame.

Definition detect_fraud (transactions : nat) : M nat :=
  df ← copy transactions;
  _ ← set_risk_score (fun _ => 0) df;
  _ ← set_is_fraud (fun _ => false) df;
  _ ← set_fraud_reasons (fun _ => "") df;
  df ← _check_amount_anomalies df;
  df ← _check_time_patterns df;
  df ← _check_velocity_patterns df;
  df ← _check_location_patterns df;
  df ← _check_merchant_patterns df;
  _calculate_final_score df.
End Program.

(** ** What a call does to the heap *)

(** The three columns of the detector, set as [detect_fraud] sets them. *)
Definition reset (r : Row) : Row :=
  {| index := index r; tx := tx r; risk_score := 0; is_fraud := false;
     fraud_reasons := "" |}.

(** The frame that [detect_fraud] computes from the rows of a table. *)
Definition score_frame (settings : gmap string SettingValue)
    (table : DataFrame) : option DataFrame :=
  let df := map reset table in
  df ← FraudDetector._check_amount_anomalies settings df;
  df ← FraudDetector._check_time_patterns settings df;
  df ← FraudDetector._check_velocity_patterns settings df;
  let df := FraudDetector._check_location_patterns df in
  let df := FraudDetector._check_merchant_patterns df in
  FraudDetector._calculate_final_score settings df.

(** [h'] has the settings of [h] and every frame of [h] other than [df] as
    it was. *)
Definition keeps (df : nat) (h h' : Program.Heap) : Prop :=
  Program.settings h' = Program.settings h
  /\ forall r x, r <> df -> Program.frames h !! r = Some x ->
                 Program.frames h' !! r = Some x.

(** The statement [m], run under the settings [s] where frame [df] holds [d]
    and the frames of [known] are as given, writes to [df] and to frames of
    its own only, and does to [df] and returns what [result] says. *)
Definition works_on {A : Type} (known : gmap nat DataFrame)
    (m : Program.M A) (df : nat) (s : gmap string SettingValue)
    (d : DataFrame) (result : option (A * DataFrame)) : Prop :=
  forall h,
    Program.settings h = s -> Program.frames h !! df = Some d ->
    known !! df = None -> known ⊆ Program.frames h ->
    keeps df h (m h).2
    /\ match result with
       | Some (a, d') =>
           (m h).1 = Some a /\ Program.frames (m h).2 !! df = Some d'
       | None => (m h).1 = None
       end.

(** Two calls in a row on the same table. *)
Definition same_twice (h : Program.Heap) (transactions : nat)
    (table : DataFrame) : Prop :=
  let '(first, h1) := Program.detect_fraud transactions h in
  let '(second, h2) := Program.detect_fraud transactions h1 in
  Program.settings h1 = Program.settings h
  /\ Program.settings h2 = Program.settings h
  /\ Program.frames h1 !! transactions = Some table
  /\ Program.frames h2 !! transactions = Some table
  /\ match score_frame (Program.settings h) table with
     | Some out =>
         exists r1 r2,
           first = Some r1 /\ second = Some r2
           /\ Program.frames h !! r1 = None /\ Program.frames h1 !! r2 = None
           /\ Program.frames h1 !! r1 = Some out
           /\ Program.frames h2 !! r1 = Some out
           /\ Program.frames h2 !! r2 = Some out
     | None => first = None /\ second = None
     end.

(** ** Sample data *)

Module Samples.
(** 2023-11-14 (a Tuesday) 22:13:20 and thirty seconds later. *)
Definition u1_first : Transaction :=
  {| transaction_id := "T1"; amount := 50; merchant := Some "Corner Shop";
     location := Some "Paris"; timestamp := 1700000000; user_id := "U1";
     card_type := Some "Visa"; merchant_category := Some "Retail" |}.

Definition u1_second : Transaction :=
  {| transaction_id := "T2"; amount := 50; merchant := Some "Corner Shop";
     location := Some "Paris"; timestamp := 1700000030; user_id := "U1";
     card_type := Some "Visa"; merchant_category := Some "Retail" |}.

(** Scenario A of the specification. *)
Definition scenario_A : list Transaction := [u1_first; u1_second].

(** A transaction of the same user dated ten days before [u1_first]. *)
Definition u1_backdated : Transaction :=
  {| transaction_id := "T0"; amount := 50; merchant := Some "Corner Shop";
     location := Some "Paris"; timestamp := 1699136000; user_id := "U1";
     card_type := Some "Visa"; merchant_category := Some "Retail" |}.

(** A transaction of the same user dated twenty days before [u1_first]. *)
Definition u1_old : Transaction :=
  {| transaction_id := "T00"; amount := 50; merchant := Some "Corner Shop";
     location := Some "Paris"; timestamp := 1698272000; user_id := "U1";
     card_type := Some "Visa"; merchant_category := Some "Retail" |}.

(** An update with a threshold above 1 and a text in place of a time. *)
Definition malformed_update : gmap string SettingValue :=
  <["high_risk_threshold" := VNum 1.5]>
  (<["off_hours_start" := VStr "25:61"]> ∅).


(** A row without a location. *)
Definition no_location : Transaction :=
  {| transaction_id := "T9"; amount := 50; merchant := Some "Corner Shop";
     location := None; timestamp := 1700000000; user_id := "U2";
     card_type := Some "Visa"; merchant_category := Some "Retail" |}.

(** A heap with the default settings and the table of scenario A at
    address 0. *)
Definition scenario_A_heap : Program.Heap :=
  {| Program.settings := FraudDetector.default_settings;
     Program.frames := {[ 0%nat := FraudDetector.init_rows 0 scenario_A ]} |}.
End Samples.

(** * Properties *)

#[global] Arguments FraudDetector.get_num : simpl never.
#[global] Arguments FraudDetector.get_hour : simpl never.

(** ** Comparisons and sums of rationals *)

Lemma Qltb_lt (a b : Q) : Qltb a b = true <-> a < b.
Proof.
  unfold Qltb. rewrite negb_true_iff. split.
  - intros H. apply Qnot_le_lt. intros Hle.
    apply Qle_bool_iff in Hle. congruence.
  - intros H. destruct (Qle_bool b a) eqn:E; [|reflexivity].
    apply Qle_bool_iff in E. lra.
Qed.

Lemma Qgeb_ge (a b : Q) : Qgeb a b = true <-> b <= a.
Proof. unfold Qgeb. apply Qle_bool_iff. Qed.

Lemma Qgeb_false (a b : Q) : Qgeb a b = false <-> a < b.
Proof.
  unfold Qgeb. split.
  - intros H. apply Qnot_le_lt. intros Hle.
    apply Qle_bool_iff in Hle. congruence.
  - intros H. destruct (Qle_bool b a) eqn:E; [|reflexivity].
    apply Qle_bool_iff in E. lra.
Qed.

Lemma Qmin_unit (a : Q) : 0 <= a -> 0 <= Qmin a 1 /\ Qmin a 1 <= 1.
Proof.
  intros Ha. unfold Qmin. destruct (Qle_bool a 1) eqn:E.
  - apply Qle_bool_iff in E. lra.
  - lra.
Qed.

(** ** Every rule only adds to a row *)

Lemma string_app_cons (c : ascii) (s t : string) :
  String c s +:+ t = String c (s +:+ t).
Proof. reflexivity. Qed.

Lemma string_app_nil_r (s : string) : s +:+ "" = s.
Proof.
  induction s as [|c s IH]; [reflexivity|].
  rewrite string_app_cons. f_equal. exact IH.
Qed.

Lemma string_app_assoc (a b c : string) : (a +:+ b) +:+ c = a +:+ (b +:+ c).
Proof.
  induction a as [|x a IH]; [reflexivity|].
  rewrite !string_app_cons. f_equal. exact IH.
Qed.

Lemma grows_refl (r : Row) : grows r r.
Proof.
  repeat split; try lra. exists "". now rewrite string_app_nil_r.
Qed.

Lemma grows_trans (a b c : Row) : grows a b -> grows b c -> grows a c.
Proof.
  intros (Hi & Ht & Hs & l1 & Hl1) (Hi' & Ht' & Hs' & l2 & Hl2).
  repeat split; try congruence; try lra.
  exists (l1 +:+ l2). now rewrite Hl2, Hl1, string_app_assoc.
Qed.

Lemma grows_bump (delta : Q) (label : string) (r : Row) :
  0 <= delta -> grows r (bump delta label r).
Proof.
  intros Hd. repeat split; simpl; try lra. now exists label.
Qed.

Lemma Forall2_grows_refl (df : DataFrame) : Forall2 grows df df.
Proof. induction df; constructor; auto using grows_refl. Qed.

Lemma Forall2_grows_trans (a b c : DataFrame) :
  Forall2 grows a b -> Forall2 grows b c -> Forall2 grows a c.
Proof.
  intros Hab. revert c. induction Hab; intros c Hbc; inversion Hbc; subst;
    constructor; eauto using grows_trans.
Qed.

Lemma loc_add_grows (mask : Row -> bool) (delta : Q) (label : string)
    (df : DataFrame) :
  0 <= delta -> Forall2 grows df (loc_add mask delta label df).
Proof.
  intros Hd. unfold loc_add. induction df as [|r df IH]; simpl; constructor; auto.
  destruct (mask r); auto using grows_refl, grows_bump.
Qed.

Lemma fold_left_grows {A : Type} (step : DataFrame -> A -> DataFrame)
    (l : list A) (df : DataFrame) :
  (forall d x, Forall2 grows d (step d x)) ->
  Forall2 grows df (fold_left step l df).
Proof.
  intros Hstep. revert df. induction l as [|x l IH]; intros df; simpl.
  - apply Forall2_grows_refl.
  - eapply Forall2_grows_trans; [apply Hstep | apply IH].
Qed.

Lemma for_each_grows {A : Type} (body : DataFrame -> A -> option DataFrame)
    (l : list A) (df out : DataFrame) :
  (forall d x d', body d x = Some d' -> Forall2 grows d d') ->
  FraudDetector.for_each body l df = Some out -> Forall2 grows df out.
Proof.
  intros Hbody. revert df. induction l as [|x l IH]; intros df; simpl.
  - intros [= <-]. apply Forall2_grows_refl.
  - destruct (body df x) as [d'|] eqn:E; simpl; [|discriminate].
    intros H. eapply Forall2_grows_trans; eauto.
Qed.

Lemma Qpos_03 : 0 <= 0.3. Proof. lra. Qed.
Lemma Qpos_025 : 0 <= 0.25. Proof. lra. Qed.
Lemma Qpos_02 : 0 <= 0.2. Proof. lra. Qed.
Lemma Qpos_015 : 0 <= 0.15. Proof. lra. Qed.
Lemma Qpos_01 : 0 <= 0.1. Proof. lra. Qed.
Lemma Qpos_005 : 0 <= 0.05. Proof. lra. Qed.

Create HintDb rules discriminated.
#[local] Hint Resolve Qpos_03 Qpos_025 Qpos_02 Qpos_015 Qpos_01 Qpos_005 : rules.
#[local] Hint Resolve loc_add_grows Forall2_grows_refl : rules.

Lemma _check_amount_anomalies_grows settings df out :
  FraudDetector._check_amount_anomalies settings df = Some out ->
  Forall2 grows df out.
Proof.
  unfold FraudDetector._check_amount_anomalies.
  destruct (FraudDetector.get_num settings "unusual_amount_threshold") as [u|];
    simpl; [|discriminate].
  destruct (FraudDetector.get_num settings "micro_transaction_threshold") as [m|];
    simpl; [|discriminate].
  intros [= <-].
  unfold FraudDetector.flag_round_amounts, FraudDetector.flag_micro_amounts,
    FraudDetector.flag_large_amounts, FraudDetector.flag_extreme_amounts.
  repeat (eapply Forall2_grows_trans; [|apply loc_add_grows; auto with rules]).
  apply Forall2_grows_refl.
Qed.

Lemma _check_time_patterns_grows settings df out :
  FraudDetector._check_time_patterns settings df = Some out ->
  Forall2 grows df out.
Proof.
  unfold FraudDetector._check_time_patterns.
  destruct (FraudDetector.get_hour settings "off_hours_start") as [s|];
    simpl; [|discriminate].
  destruct (FraudDetector.get_hour settings "off_hours_end") as [e|];
    simpl; [|discriminate].
  intros [= <-].
  repeat (eapply Forall2_grows_trans; [|apply loc_add_grows; auto with rules]).
  apply Forall2_grows_refl.
Qed.

Lemma velocity_user_grows settings df_sorted df user out :
  FraudDetector.velocity_user settings df_sorted df user = Some out ->
  Forall2 grows df out.
Proof.
  unfold FraudDetector.velocity_user.
  destruct (1 <? length _)%nat; [|intros [= <-]; auto with rules].
  destruct (FraudDetector.get_num settings "max_transactions_per_hour") as [mh|];
    simpl; [|discriminate].
  destruct (FraudDetector.get_num settings "max_amount_per_day") as [md|];
    simpl; [|discriminate].
  intros [= <-].
  eapply Forall2_grows_trans; [|apply fold_left_grows; auto with rules].
  eapply Forall2_grows_trans; [|apply fold_left_grows; auto with rules].
  auto with rules.
Qed.

Lemma _check_velocity_patterns_grows settings df out :
  FraudDetector._check_velocity_patterns settings df = Some out ->
  Forall2 grows df out.
Proof.
  unfold FraudDetector._check_velocity_patterns.
  apply for_each_grows. intros d x d'. apply velocity_user_grows.
Qed.

Lemma _check_location_patterns_grows df :
  Forall2 grows df (FraudDetector._check_location_patterns df).
Proof.
  unfold FraudDetector._check_location_patterns.
  eapply Forall2_grows_trans; [|apply fold_left_grows].
  - apply fold_left_grows. intros d x. unfold FraudDetector.location_user.
    destruct (1 <? length _)%nat; auto with rules.
  - intros d x. unfold FraudDetector.flag_high_risk_location. auto with rules.
Qed.

Lemma _check_merchant_patterns_grows df :
  Forall2 grows df (FraudDetector._check_merchant_patterns df).
Proof.
  unfold FraudDetector._check_merchant_patterns.
  eapply Forall2_grows_trans; [|apply fold_left_grows].
  eapply Forall2_grows_trans; [|apply fold_left_grows].
  - auto with rules.
  - intros d x. unfold FraudDetector.flag_high_risk_category. auto with rules.
  - intros d x. unfold FraudDetector.flag_suspicious_merchant. auto with rules.
Qed.

(** ** The shape of a batch run *)

Lemma init_rows_nonneg (i : nat) (transactions : list Transaction) :
  Forall (fun r => 0 <= risk_score r) (FraudDetector.init_rows i transactions).
Proof.
  revert i. induction transactions as [|t ts IH]; intros i; simpl; constructor; auto.
  simpl. lra.
Qed.

Lemma grows_nonneg (df df' : DataFrame) :
  Forall2 grows df df' ->
  Forall (fun r => 0 <= risk_score r) df ->
  Forall (fun r => 0 <= risk_score r) df'.
Proof.
  induction 1 as [|r r' df df' (_ & _ & Hs & _) _ IH]; intros Hall;
    inversion Hall; subst; constructor; auto. lra.
Qed.

(** A run that returns went through the five rule families, which only
    added to the fresh rows, and then through the final step. *)
Lemma detect_fraud_inv settings transactions out :
  FraudDetector.detect_fraud settings transactions = Some out ->
  exists threshold df,
    FraudDetector.get_num settings "high_risk_threshold" = Some threshold
    /\ Forall2 grows (FraudDetector.init_rows 0 transactions) df
    /\ out = map (FraudDetector.finalize_row threshold) df.
Proof.
  unfold FraudDetector.detect_fraud. intros H.
  apply bind_Some in H as (d1 & E1 & H).
  apply bind_Some in H as (d2 & E2 & H).
  apply bind_Some in H as (d3 & E3 & H).
  unfold FraudDetector._calculate_final_score in H.
  apply bind_Some in H as (th & Hth & H).
  apply (inj Some) in H. subst out.
  exists th. eexists. split; [exact Hth|]. split; [|reflexivity].
  apply _check_amount_anomalies_grows in E1.
  apply _check_time_patterns_grows in E2.
  apply _check_velocity_patterns_grows in E3.
  eapply Forall2_grows_trans; [exact E1|].
  eapply Forall2_grows_trans; [exact E2|].
  eapply Forall2_grows_trans; [exact E3|].
  eapply Forall2_grows_trans; [apply _check_location_patterns_grows|].
  apply _check_merchant_patterns_grows.
Qed.

Lemma option_bind_Some {A B : Type} (x : A) (f : A -> option B) :
  (Some x ≫= f) = f x.
Proof. reflexivity. Qed.

Lemma for_each_total {A S : Type} (body : S -> A -> option S) (l : list A) (s : S) :
  (forall s x, exists s', body s x = Some s') ->
  exists s', FraudDetector.for_each body l s = Some s'.
Proof.
  intros Hbody. revert s. induction l as [|x l IH]; intros s; simpl; eauto.
  destruct (Hbody s x) as [s' ->]. rewrite option_bind_Some. apply IH.
Qed.

Lemma detect_fraud_total settings transactions :
  usable_settings settings ->
  exists out, FraudDetector.detect_fraud settings transactions = Some out.
Proof.
  intros [Hnum Hhour].
  destruct (Hnum "high_risk_threshold") as [th Hth]; [simpl; tauto|].
  destruct (Hnum "unusual_amount_threshold") as [u Hu]; [simpl; tauto|].
  destruct (Hnum "micro_transaction_threshold") as [m Hm]; [simpl; tauto|].
  destruct (Hnum "max_transactions_per_hour") as [mh Hmh]; [simpl; tauto|].
  destruct (Hnum "max_amount_per_day") as [md Hmd]; [simpl; tauto|].
  destruct (Hhour "off_hours_start") as [hs Hhs]; [simpl; tauto|].
  destruct (Hhour "off_hours_end") as [he Hhe]; [simpl; tauto|].
  assert (Hvel : forall df, exists out,
             FraudDetector._check_velocity_patterns settings df = Some out).
  { intros df. unfold FraudDetector._check_velocity_patterns.
    apply for_each_total. intros s x. unfold FraudDetector.velocity_user.
    destruct (1 <? length _)%nat; [|eauto].
    rewrite Hmh, option_bind_Some, Hmd, option_bind_Some. eauto. }
  unfold FraudDetector.detect_fraud, FraudDetector._check_amount_anomalies,
    FraudDetector._check_time_patterns, FraudDetector._calculate_final_score.
  rewrite Hu, option_bind_Some, Hm, !option_bind_Some.
  rewrite Hhs, option_bind_Some, Hhe, !option_bind_Some.
  match goal with
  | |- context [FraudDetector._check_velocity_patterns settings ?d] =>
      destruct (Hvel d) as [d3 ->]
  end.
  rewrite option_bind_Some, Hth, option_bind_Some. eauto.
Qed.

Lemma default_settings_usable : usable_settings FraudDetector.default_settings.
Proof.
  split; intros key Hin; simpl in Hin;
    repeat (destruct Hin as [<-|Hin]; [eexists; vm_compute; reflexivity|]);
    contradiction.
Qed.

(** ** The sub-analyses of the single mode only add *)

Lemma nonneg_no_risk : nonneg TransactionAnalyzer.no_risk.
Proof. unfold nonneg. simpl. lra. Qed.

Lemma nonneg_fire c f a :
  0 <= c -> nonneg a -> nonneg (TransactionAnalyzer.fire c f a).
Proof. unfold nonneg. simpl. lra. Qed.

Lemma nonneg_fire_if b c f a :
  0 <= c -> nonneg a -> nonneg (TransactionAnalyzer.fire_if b c f a).
Proof.
  intros Hc Ha. unfold TransactionAnalyzer.fire_if.
  destruct b; auto using nonneg_fire.
Qed.

#[local] Hint Resolve nonneg_no_risk nonneg_fire nonneg_fire_if : rules.

Ltac split_ifs :=
  repeat match goal with
         | |- context [if ?b then _ else _] => destruct b
         end.

Lemma _analyze_user_behavior_nonneg t h :
  nonneg (TransactionAnalyzer._analyze_user_behavior t h).
Proof.
  unfold TransactionAnalyzer._analyze_user_behavior.
  destruct (TransactionAnalyzer.user_history h (user_id t)) as [|first rest];
    [auto with rules|].
  cbv zeta. split_ifs; auto 10 with rules.
Qed.

Lemma _analyze_amount_patterns_nonneg t h :
  nonneg (TransactionAnalyzer._analyze_amount_patterns t h).
Proof.
  unfold TransactionAnalyzer._analyze_amount_patterns.
  cbv zeta. split_ifs; auto 10 with rules.
Qed.

Lemma _analyze_temporal_patterns_nonneg t h :
  nonneg (TransactionAnalyzer._analyze_temporal_patterns t h).
Proof.
  unfold TransactionAnalyzer._analyze_temporal_patterns.
  cbv zeta. auto 10 with rules.
Qed.

Lemma _analyze_location_patterns_nonneg t h a :
  TransactionAnalyzer._analyze_location_patterns t h = Some a -> nonneg a.
Proof.
  unfold TransactionAnalyzer._analyze_location_patterns. cbv zeta.
  destruct (TransactionAnalyzer.any_keyword _ _) as [b|]; simpl; [|discriminate].
  intros [= <-]. split_ifs; auto 10 with rules.
Qed.

Lemma _analyze_merchant_patterns_nonneg t h a :
  TransactionAnalyzer._analyze_merchant_patterns t h = Some a -> nonneg a.
Proof.
  unfold TransactionAnalyzer._analyze_merchant_patterns. cbv zeta.
  destruct (TransactionAnalyzer.any_keyword
              TransactionAnalyzer.high_risk_categories _) as [b|];
    simpl; [|discriminate].
  destruct (TransactionAnalyzer.any_keyword
              TransactionAnalyzer.suspicious_merchant_keywords _) as [b'|];
    simpl; [|discriminate].
  intros [= <-]. split_ifs; auto 10 with rules.
Qed.

(** A single analysis that returns is built from its five sub-analyses. *)
Lemma analyze_single_transaction_inv t h res :
  TransactionAnalyzer.analyze_single_transaction t h = Some res ->
  exists la ma,
    TransactionAnalyzer._analyze_location_patterns t h = Some la
    /\ TransactionAnalyzer._analyze_merchant_patterns t h = Some ma
    /\ let ua := TransactionAnalyzer._analyze_user_behavior t h in
       let aa := TransactionAnalyzer._analyze_amount_patterns t h in
       let ta := TransactionAnalyzer._analyze_temporal_patterns t h in
       let total :=
         0 + TransactionAnalyzer.risk_contribution ua
         + TransactionAnalyzer.risk_contribution aa
         + TransactionAnalyzer.risk_contribution ta
         + TransactionAnalyzer.risk_contribution la
         + TransactionAnalyzer.risk_contribution ma in
       let fs :=
         (((([] ++ TransactionAnalyzer.factors ua)
            ++ TransactionAnalyzer.factors aa)
           ++ TransactionAnalyzer.factors ta)
          ++ TransactionAnalyzer.factors la)
         ++ TransactionAnalyzer.factors ma in
       res = {| TransactionAnalyzer.risk_score := Qmin total 1;
                TransactionAnalyzer.risk_factors := fs;
                TransactionAnalyzer.user_analysis := ua;
                TransactionAnalyzer.amount_analysis := aa;
                TransactionAnalyzer.temporal_analysis := ta;
                TransactionAnalyzer.location_analysis := la;
                TransactionAnalyzer.merchant_analysis := ma;
                TransactionAnalyzer.recommendation :=
                  TransactionAnalyzer._get_recommendation (Qmin total 1) fs |}.
Proof.
  unfold TransactionAnalyzer.analyze_single_transaction. cbv zeta. intros H.
  apply bind_Some in H as (la & Hla & H).
  apply bind_Some in H as (ma & Hma & H).
  apply (inj Some) in H. subst res.
  exists la, ma. split; [exact Hla|]. split; [exact Hma|]. reflexivity.
Qed.

(** ** The score is a number between 0 and 1 *)

(** C1. Every row that the batch scorer returns and every result of the
    single-transaction analysis carries a risk score between 0 and 1: the
    rules only add non-negative amounts to a score that starts at 0, and the
    sum is cut at 1 (in the single mode it is the sum of the five
    contributions, cut at 1). *)
Theorem risk_score_in_unit_interval :
  (forall settings transactions out,
      FraudDetector.detect_fraud settings transactions = Some out ->
      Forall (fun r => 0 <= risk_score r /\ risk_score r <= 1) out)
  /\ (forall t h res,
         TransactionAnalyzer.analyze_single_transaction t h = Some res ->
         0 <= TransactionAnalyzer.risk_score res
         /\ TransactionAnalyzer.risk_score res <= 1
         /\ TransactionAnalyzer.risk_score res
            = Qmin (0
                    + TransactionAnalyzer.risk_contribution
                        (TransactionAnalyzer.user_analysis res)
                    + TransactionAnalyzer.risk_contribution
                        (TransactionAnalyzer.amount_analysis res)
                    + TransactionAnalyzer.risk_contribution
                        (TransactionAnalyzer.temporal_analysis res)
                    + TransactionAnalyzer.risk_contribution
                        (TransactionAnalyzer.location_analysis res)
                    + TransactionAnalyzer.risk_contribution
                        (TransactionAnalyzer.merchant_analysis res)) 1).
Proof.
  split.
  - intros settings transactions out H.
    apply detect_fraud_inv in H as (th & df & _ & Hgrow & ->).
    apply grows_nonneg in Hgrow; [|apply init_rows_nonneg].
    induction Hgrow as [|r df Hr _ IH]; simpl; constructor; auto.
    simpl. apply Qmin_unit. exact Hr.
  - intros t h res H.
    apply analyze_single_transaction_inv in H as (la & ma & Hla & Hma & ->).
    cbv zeta. simpl.
    pose proof (_analyze_user_behavior_nonneg t h) as Hu.
    pose proof (_analyze_amount_patterns_nonneg t h) as Ha.
    pose proof (_analyze_temporal_patterns_nonneg t h) as Ht.
    apply _analyze_location_patterns_nonneg in Hla.
    apply _analyze_merchant_patterns_nonneg in Hma.
    unfold nonneg in *.
    match goal with
    | |- 0 <= Qmin ?x 1 /\ _ => destruct (Qmin_unit x) as [H0 H1]; [lra|]
    end.
    repeat split; assumption.
Qed.

Lemma risk_score_in_unit_interval_witness :
  (exists out,
      FraudDetector.detect_fraud FraudDetector.default_settings
        Samples.scenario_A = Some out
      /\ Forall (fun r => 0 <= risk_score r /\ risk_score r <= 1) out)
  /\ (exists res,
         TransactionAnalyzer.analyze_single_transaction
           Samples.u1_second Samples.scenario_A = Some res
         /\ 0 <= TransactionAnalyzer.risk_score res
         /\ TransactionAnalyzer.risk_score res <= 1).
Proof.
  split.
  - eexists. split; [vm_compute; reflexivity|].
    apply (proj1 risk_score_in_unit_interval FraudDetector.default_settings
             Samples.scenario_A).
    vm_compute. reflexivity.
  - eexists. split; [vm_compute; reflexivity|].
    refine (let H := proj2 risk_score_in_unit_interval Samples.u1_second
                       Samples.scenario_A _ _ in
            conj (proj1 H) (proj1 (proj2 H))).
    vm_compute. reflexivity.
Defined.

(** ** The fraud flag *)

(** C2. In the output of a batch run every row is flagged as fraud exactly
    when its (final) risk score reaches the [high_risk_threshold] of the
    settings that the run used. *)
Theorem is_fraud_iff_threshold settings transactions out threshold :
  FraudDetector.get_num settings "high_risk_threshold" = Some threshold ->
  FraudDetector.detect_fraud settings transactions = Some out ->
  Forall (fun r => is_fraud r = true <-> threshold <= risk_score r) out.
Proof.
  intros Hth H.
  apply detect_fraud_inv in H as (th & df & Hth' & _ & ->).
  rewrite Hth in Hth'. apply (inj Some) in Hth'. subst th.
  induction df as [|r df IH]; simpl; constructor; auto.
  simpl. apply Qgeb_ge.
Qed.

Lemma is_fraud_iff_threshold_witness :
  exists out,
    FraudDetector.detect_fraud FraudDetector.default_settings
      Samples.scenario_A = Some out
    /\ Forall (fun r => is_fraud r = true <-> 0.7 <= risk_score r) out.
Proof.
  eexists. split; [vm_compute; reflexivity|].
  apply (is_fraud_iff_threshold FraudDetector.default_settings
           Samples.scenario_A).
  - vm_compute. reflexivity.
  - vm_compute. reflexivity.
Defined.

(** ** The recommendation *)

Lemma _get_risk_level_ladder (score : Q) :
  risk_level_ladder score (TransactionAnalyzer._get_risk_level score).
Proof.
  unfold risk_level_ladder, TransactionAnalyzer._get_risk_level.
  destruct (Qgeb score 0.7) eqn:E7;
    [apply Qgeb_ge in E7 | apply Qgeb_false in E7];
    [repeat split; intros; try reflexivity; lra|].
  destruct (Qgeb score 0.4) eqn:E4;
    [apply Qgeb_ge in E4 | apply Qgeb_false in E4];
    [repeat split; intros; try reflexivity; lra|].
  destruct (Qgeb score 0.2) eqn:E2;
    [apply Qgeb_ge in E2 | apply Qgeb_false in E2];
    repeat split; intros; try reflexivity; lra.
Qed.

Lemma _get_recommendation_ladder (score : Q) (fs : list Factor) :
  let r := TransactionAnalyzer._get_recommendation score fs in
  recommendation_ladder score (TransactionAnalyzer.action r)
                        (TransactionAnalyzer.confidence r).
Proof.
  unfold recommendation_ladder, TransactionAnalyzer._get_recommendation.
  destruct (Qgeb score 0.8) eqn:E8;
    [apply Qgeb_ge in E8 | apply Qgeb_false in E8];
    [simpl; repeat split; intros; try reflexivity; lra|].
  destruct (Qgeb score 0.6) eqn:E6;
    [apply Qgeb_ge in E6 | apply Qgeb_false in E6];
    [simpl; repeat split; intros; try reflexivity; lra|].
  destruct (Qgeb score 0.3) eqn:E3;
    [apply Qgeb_ge in E3 | apply Qgeb_false in E3];
    simpl; repeat split; intros; try reflexivity; lra.
Qed.

Lemma _get_recommendation_concerns (score : Q) (fs : list Factor) :
  TransactionAnalyzer.primary_concerns
    (TransactionAnalyzer._get_recommendation score fs) = firstn 3 fs.
Proof.
  unfold TransactionAnalyzer._get_recommendation.
  destruct (Qgeb score 0.8), (Qgeb score 0.6), (Qgeb score 0.3);
    destruct fs; reflexivity.
Qed.

Lemma _get_recommendation_level (score : Q) (fs : list Factor) :
  TransactionAnalyzer.risk_level
    (TransactionAnalyzer._get_recommendation score fs)
  = TransactionAnalyzer._get_risk_level score.
Proof.
  unfold TransactionAnalyzer._get_recommendation.
  destruct (Qgeb score 0.8), (Qgeb score 0.6), (Qgeb score 0.3); reflexivity.
Qed.

(** C6. In every single-transaction analysis the action and the confidence
    follow the 0.8 / 0.6 / 0.3 ladder and the risk level follows the
    0.7 / 0.4 / 0.2 ladder, both on the final (clipped) score, and the
    primary concerns are the first three of the fired factors in the order
    user, amount, temporal, location, merchant (none when nothing fired). *)
Theorem recommendation_follows_ladders t h res :
  TransactionAnalyzer.analyze_single_transaction t h = Some res ->
  let r := TransactionAnalyzer.recommendation res in
  recommendation_ladder (TransactionAnalyzer.risk_score res)
    (TransactionAnalyzer.action r) (TransactionAnalyzer.confidence r)
  /\ risk_level_ladder (TransactionAnalyzer.risk_score res)
       (TransactionAnalyzer.risk_level r)
  /\ TransactionAnalyzer.primary_concerns r
     = firstn 3
         (TransactionAnalyzer.factors (TransactionAnalyzer.user_analysis res)
          ++ TransactionAnalyzer.factors (TransactionAnalyzer.amount_analysis res)
          ++ TransactionAnalyzer.factors (TransactionAnalyzer.temporal_analysis res)
          ++ TransactionAnalyzer.factors (TransactionAnalyzer.location_analysis res)
          ++ TransactionAnalyzer.factors (TransactionAnalyzer.merchant_analysis res))
  /\ (TransactionAnalyzer.risk_factors res = [] ->
      TransactionAnalyzer.primary_concerns r = [])
  /\ TransactionAnalyzer.user_analysis res
     = TransactionAnalyzer._analyze_user_behavior t h
  /\ TransactionAnalyzer.amount_analysis res
     = TransactionAnalyzer._analyze_amount_patterns t h
  /\ TransactionAnalyzer.temporal_analysis res
     = TransactionAnalyzer._analyze_temporal_patterns t h
  /\ Some (TransactionAnalyzer.location_analysis res)
     = TransactionAnalyzer._analyze_location_patterns t h
  /\ Some (TransactionAnalyzer.merchant_analysis res)
     = TransactionAnalyzer._analyze_merchant_patterns t h.
Proof.
  intros H.
  apply analyze_single_transaction_inv in H as (la & ma & Hla & Hma & ->).
  cbv zeta. cbn [TransactionAnalyzer.recommendation
                   TransactionAnalyzer.risk_score
                   TransactionAnalyzer.risk_factors
                   TransactionAnalyzer.user_analysis
                   TransactionAnalyzer.amount_analysis
                   TransactionAnalyzer.temporal_analysis
                   TransactionAnalyzer.location_analysis
                   TransactionAnalyzer.merchant_analysis].
  split; [apply _get_recommendation_ladder|].
  split; [rewrite _get_recommendation_level; apply _get_risk_level_ladder|].
  rewrite _get_recommendation_concerns.
  split; [rewrite app_nil_l, <- !app_assoc; reflexivity|].
  split; [intros ->; reflexivity|].
  repeat split; auto.
Qed.

Lemma recommendation_follows_ladders_witness :
  exists res,
    TransactionAnalyzer.analyze_single_transaction
      Samples.u1_second Samples.scenario_A = Some res
    /\ recommendation_ladder (TransactionAnalyzer.risk_score res)
         (TransactionAnalyzer.action (TransactionAnalyzer.recommendation res))
         (TransactionAnalyzer.confidence (TransactionAnalyzer.recommendation res))
    /\ risk_level_ladder (TransactionAnalyzer.risk_score res)
         (TransactionAnalyzer.risk_level (TransactionAnalyzer.recommendation res))
    /\ TransactionAnalyzer.primary_concerns (TransactionAnalyzer.recommendation res)
       = firstn 3 (TransactionAnalyzer.risk_factors res).
Proof.
  eexists. split; [vm_compute; reflexivity|].
  pose proof (recommendation_follows_ladders Samples.u1_second
                Samples.scenario_A _ ltac:(vm_compute; reflexivity)) as H.
  cbv zeta in H. destruct H as (H1 & H2 & H3 & _).
  split; [exact H1|]. split; [exact H2|]. exact H3.
Defined.

(** ** Determinism of the batch scorer *)

(** *** The heap after a statement *)

Lemma keeps_refl df h : keeps df h h.
Proof. split; auto. Qed.

Lemma keeps_trans df h1 h2 h3 : keeps df h1 h2 -> keeps df h2 h3 -> keeps df h1 h3.
Proof.
  intros [S1 F1] [S2 F2]. split; [congruence|]. intros r x Hr Hx. auto.
Qed.

Lemma keeps_known df h h' (known : gmap nat DataFrame) :
  keeps df h h' -> known !! df = None -> known ⊆ Program.frames h ->
  known ⊆ Program.frames h'.
Proof.
  intros [_ F] Hdf Hsub. apply map_subseteq_spec. intros r x Hx.
  apply F; [intros ->; congruence|].
  eapply lookup_weaken; eauto.
Qed.

Lemma run_bind {A B : Type} (m : Program.M A) (k : A -> Program.M B) h :
  (m ≫= k) h = match m h with
               | (Some x, h') => k x h'
               | (None, h') => (None, h')
               end.
Proof. reflexivity. Qed.

Lemma run_update (g : DataFrame -> DataFrame) (r : nat) h x :
  Program.frames h !! r = Some x ->
  Program.update g r h
  = (Some tt, {| Program.settings := Program.settings h;
                 Program.frames := <[r := g x]> (Program.frames h) |}).
Proof.
  intros H. unfold Program.update. rewrite run_bind. unfold Program.read.
  rewrite H. unfold Program.write. rewrite H. reflexivity.
Qed.

Lemma keeps_write df h x :
  keeps df h {| Program.settings := Program.settings h;
                Program.frames := <[df := x]> (Program.frames h) |}.
Proof.
  split; [reflexivity|]. intros r y Hr Hy. cbn.
  rewrite lookup_insert_ne by congruence. exact Hy.
Qed.

Section Rules.
Context {A B : Type} (known : gmap nat DataFrame)
        (df : nat) (s : gmap string SettingValue).

Lemma works_on_call (m : Program.M A) (k : A -> Program.M B) d R1 R :
  works_on known m df s d R1 ->
  (forall a d', R1 = Some (a, d') -> works_on known (k a) df s d' R) ->
  (R1 = None -> R = None) ->
  works_on known (m ≫= k) df s d R.
Proof.
  intros Hm Hk Hnone h Hs Hd Hkn Hsub. rewrite run_bind.
  destruct (Hm h Hs Hd Hkn Hsub) as [Hkeep Hres].
  destruct (m h) as [res h1]. cbn [fst snd] in *.
  destruct R1 as [[a d']|].
  - destruct Hres as [-> Hd1].
    destruct (Hk a d' eq_refl h1) as [Hkeep2 Hres2];
      [destruct Hkeep; congruence | exact Hd1 | exact Hkn
       | eapply keeps_known; eauto |].
    split; [eapply keeps_trans; eauto | exact Hres2].
  - rewrite Hres, (Hnone eq_refl). cbn [fst snd]. split; [exact Hkeep | reflexivity].
Qed.

Lemma works_on_ret (a : A) d R :
  R = Some (a, d) -> works_on known (mret a) df s d R.
Proof.
  intros -> h Hs Hd _ _. split; [apply keeps_refl|]. split; [reflexivity | exact Hd].
Qed.

Lemma works_on_read (k : DataFrame -> Program.M B) d R :
  works_on known (k d) df s d R ->
  works_on known (Program.read df ≫= k) df s d R.
Proof.
  intros Hk h Hs Hd Hkn Hsub. rewrite run_bind. unfold Program.read. rewrite Hd.
  apply Hk; assumption.
Qed.

Lemma works_on_read_known (r : nat) (x : DataFrame)
    (k : DataFrame -> Program.M B) d R :
  known !! r = Some x ->
  works_on known (k x) df s d R ->
  works_on known (Program.read r ≫= k) df s d R.
Proof.
  intros Hr Hk h Hs Hd Hkn Hsub. rewrite run_bind. unfold Program.read.
  rewrite (lookup_weaken _ _ _ _ Hr Hsub). apply Hk; assumption.
Qed.

Lemma works_on_update (g : DataFrame -> DataFrame) (k : unit -> Program.M B)
    d R :
  works_on known (k tt) df s (g d) R ->
  works_on known (Program.update g df ≫= k) df s d R.
Proof.
  intros Hk h Hs Hd Hkn Hsub. rewrite run_bind, (run_update g df h d Hd).
  set (h1 := {| Program.settings := Program.settings h;
                Program.frames := <[df := g d]> (Program.frames h) |}).
  assert (Hkeep : keeps df h h1) by apply keeps_write.
  destruct (Hk h1) as [Hkeep2 Hres];
    [exact Hs | apply lookup_insert_eq | exact Hkn
     | eapply keeps_known; eauto |].
  split; [eapply keeps_trans; eauto | exact Hres].
Qed.

Lemma works_on_add_column_known (r : nat) (x : DataFrame)
    (k : unit -> Program.M B) d R :
  known !! r = Some x ->
  works_on known (k tt) df s d R ->
  works_on known (Program.add_column r ≫= k) df s d R.
Proof.
  intros Hr Hk h Hs Hd Hkn Hsub. rewrite run_bind. unfold Program.add_column.
  rewrite (run_update _ r h x (lookup_weaken _ _ _ _ Hr Hsub)).
  rewrite insert_id by (eapply lookup_weaken; eauto).
  replace {| Program.settings := Program.settings h;
             Program.frames := Program.frames h |} with h by (destruct h; reflexivity).
  apply Hk; assumption.
Qed.

Lemma works_on_setting_num (key : string) (k : Q -> Program.M B) d R :
  (forall q, FraudDetector.get_num s key = Some q -> works_on known (k q) df s d R) ->
  (FraudDetector.get_num s key = None -> R = None) ->
  works_on known (Program.setting_num key ≫= k) df s d R.
Proof.
  intros Hk Hnone h Hs Hd Hkn Hsub. rewrite run_bind. unfold Program.setting_num.
  rewrite Hs. destruct (FraudDetector.get_num s key) as [q|] eqn:E.
  - apply Hk; auto.
  - rewrite (Hnone eq_refl). cbn [fst snd]. split; [apply keeps_refl | reflexivity].
Qed.

Lemma works_on_setting_hour (key : string) (k : Z -> Program.M B) d R :
  (forall q, FraudDetector.get_hour s key = Some q -> works_on known (k q) df s d R) ->
  (FraudDetector.get_hour s key = None -> R = None) ->
  works_on known (Program.setting_hour key ≫= k) df s d R.
Proof.
  intros Hk Hnone h Hs Hd Hkn Hsub. rewrite run_bind. unfold Program.setting_hour.
  rewrite Hs. destruct (FraudDetector.get_hour s key) as [q|] eqn:E.
  - apply Hk; auto.
  - rewrite (Hnone eq_refl). cbn [fst snd]. split; [apply keeps_refl | reflexivity].
Qed.

Lemma works_on_new_frame (x : DataFrame) (k : nat -> Program.M B) d R :
  (forall r, r <> df -> known !! r = None ->
             works_on (<[r := x]> known) (k r) df s d R) ->
  works_on known (Program.new_frame x ≫= k) df s d R.
Proof.
  intros Hk h Hs Hd Hkn Hsub. rewrite run_bind. unfold Program.new_frame.
  set (r := fresh (dom (Program.frames h))).
  assert (Hfresh : Program.frames h !! r = None)
    by (apply not_elem_of_dom, is_fresh).
  assert (Hne : r <> df) by (intros ->; congruence).
  assert (Hknr : known !! r = None).
  { destruct (known !! r) as [y|] eqn:E; [|reflexivity].
    rewrite (lookup_weaken _ _ _ _ E Hsub) in Hfresh. discriminate Hfresh. }
  set (h1 := {| Program.settings := Program.settings h;
                Program.frames := <[r := x]> (Program.frames h) |}).
  destruct (Hk r Hne Hknr h1) as [Hkeep Hres].
  - exact Hs.
  - cbn. rewrite lookup_insert_ne by exact Hne. exact Hd.
  - rewrite lookup_insert_ne by exact Hne. exact Hkn.
  - cbn. apply insert_mono. exact Hsub.
  - split; [|exact Hres].
    eapply keeps_trans; [|exact Hkeep].
    split; [reflexivity|]. intros r0 y Hr0 Hy. cbn.
    rewrite lookup_insert_ne by (intros ->; congruence). exact Hy.
Qed.
End Rules.

Lemma works_on_last {A : Type} known (m : Program.M A) df s d R :
  works_on known (m ≫= mret) df s d R -> works_on known m df s d R.
Proof.
  intros H h Hs Hd Hkn Hsub. specialize (H h Hs Hd Hkn Hsub).
  rewrite run_bind in H. destruct (m h) as [[a|] h']; exact H.
Qed.

Lemma run_assoc {A B C : Type} (m : Program.M A) (k1 : A -> Program.M B)
    (k2 : B -> Program.M C) h :
  ((m ≫= k1) ≫= k2) h = (m ≫= fun x => k1 x ≫= k2) h.
Proof.
  rewrite !run_bind. destruct (m h) as [[x|] h1]; [|reflexivity].
  rewrite run_bind. reflexivity.
Qed.

Lemma works_on_pointwise {A : Type} known (m m' : Program.M A) df s d R :
  (forall h, m h = m' h) -> works_on known m' df s d R -> works_on known m df s d R.
Proof. intros E H h. rewrite E. apply H. Qed.

Lemma works_on_for {A B : Type} known df s (l : list A)
    (body : A -> Program.M unit) (step : DataFrame -> A -> option DataFrame)
    (k : unit -> Program.M B) d R :
  (forall x d0, works_on known (body x) df s d0
                  (option_map (pair tt) (step d0 x))) ->
  (forall d', FraudDetector.for_each step l d = Some d' ->
              works_on known (k tt) df s d' R) ->
  (FraudDetector.for_each step l d = None -> R = None) ->
  works_on known (Program.for_ l body ≫= k) df s d R.
Proof.
  intros Hbody. revert d. induction l as [|x l IH]; intros d Hk Hnone.
  - cbn [Program.for_]. intros h Hs Hd Hkn Hsub. rewrite run_bind.
    change ((mret tt : Program.M unit) h) with (Some tt, h). cbv beta iota.
    apply (Hk d eq_refl h); assumption.
  - cbn [Program.for_].
    apply (works_on_pointwise known _
             (body x ≫= fun _ => Program.for_ l body ≫= k));
      [intros h; apply run_assoc|].
    eapply works_on_call; [apply Hbody| |].
    + intros [] d' Hstep. destruct (step d x) as [d1|] eqn:E; [|discriminate].
      injection Hstep as <-. apply IH.
      * intros d2 H2. apply Hk. cbn [FraudDetector.for_each].
        rewrite E, option_bind_Some. exact H2.
      * intros H2. apply Hnone. cbn [FraudDetector.for_each].
        rewrite E, option_bind_Some. exact H2.
    + intros Hstep. destruct (step d x) as [d1|] eqn:E; [discriminate|].
      apply Hnone. cbn [FraudDetector.for_each]. rewrite E. reflexivity.
Qed.

(** *** The rules, statement by statement *)

Lemma for_each_Some {A S : Type} (g : S -> A -> S) (l : list A) (s : S) :
  FraudDetector.for_each (fun s x => Some (g s x)) l s = Some (fold_left g l s).
Proof.
  revert s. induction l as [|x l IH]; intros s; [reflexivity|].
  cbn [FraudDetector.for_each fold_left]. rewrite option_bind_Some. apply IH.
Qed.

(** A statement that is an update of [df] and nothing else. *)
Lemma works_on_update_only known df s (g : DataFrame -> DataFrame) d :
  works_on known (Program.update g df) df s d (Some (tt, g d)).
Proof.
  apply works_on_last, works_on_update, works_on_ret. reflexivity.
Qed.

(** A loop of updates of [df]. *)
Lemma works_on_for_updates {A B : Type} known df s (l : list A)
    (g : DataFrame -> A -> DataFrame) (k : unit -> Program.M B) d R :
  works_on known (k tt) df s (fold_left g l d) R ->
  works_on known
    (Program.for_ l (fun x => Program.update (fun rows => g rows x) df) ≫= k)
    df s d R.
Proof.
  intros Hk.
  apply (works_on_for known df s l _ (fun rows x => Some (g rows x))).
  - intros x d0. apply works_on_update_only.
  - intros d'. rewrite for_each_Some. intros [= <-]. exact Hk.
  - rewrite for_each_Some. discriminate.
Qed.

Lemma _check_amount_anomalies_works known df s d :
  works_on known (Program._check_amount_anomalies df) df s d
    (option_map (pair df) (FraudDetector._check_amount_anomalies s d)).
Proof.
  unfold Program._check_amount_anomalies, Program.loc_add_at,
    FraudDetector._check_amount_anomalies.
  apply works_on_read. cbv zeta. apply works_on_update.
  apply works_on_setting_num; [intros u Hu | intros ->; reflexivity].
  rewrite Hu, option_bind_Some. apply works_on_update.
  apply works_on_setting_num; [intros m Hm | intros ->; reflexivity].
  rewrite Hm, option_bind_Some. do 2 apply works_on_update.
  apply works_on_ret. reflexivity.
Qed.

Lemma _check_time_patterns_works known df s d :
  works_on known (Program._check_time_patterns df) df s d
    (option_map (pair df) (FraudDetector._check_time_patterns s d)).
Proof.
  unfold Program._check_time_patterns, Program.loc_add_at, Program.add_column,
    FraudDetector._check_time_patterns.
  do 2 apply works_on_update.
  apply works_on_setting_hour; [intros hs Hs | intros ->; reflexivity].
  rewrite Hs, option_bind_Some.
  apply works_on_setting_hour; [intros he He | intros ->; reflexivity].
  rewrite He, option_bind_Some. do 2 apply works_on_update.
  apply works_on_ret. reflexivity.
Qed.

Lemma velocity_user_works known df df_sorted sorted s user d :
  known !! df_sorted = Some sorted ->
  works_on known (Program.velocity_user df df_sorted user) df s d
    (option_map (pair tt) (FraudDetector.velocity_user s sorted d user)).
Proof.
  intros Hsorted.
  unfold Program.velocity_user, Program.loc_add_at, FraudDetector.velocity_user.
  apply (works_on_read_known _ _ _ df_sorted sorted); [exact Hsorted|].
  apply works_on_new_frame. intros r Hr Hkr.
  set (rows := FraudDetector.user_rows sorted user).
  assert (Hrows : <[r := rows]> known !! r = Some rows) by apply lookup_insert_eq.
  apply (works_on_read_known _ _ _ r rows); [exact Hrows|].
  cbv zeta. destruct (1 <? length rows)%nat; [|apply works_on_ret; reflexivity].
  apply (works_on_add_column_known _ _ _ r rows); [exact Hrows|].
  apply (works_on_read_known _ _ _ r rows); [exact Hrows|].
  apply works_on_update.
  apply (works_on_add_column_known _ _ _ r rows); [exact Hrows|].
  apply (works_on_read_known _ _ _ r rows); [exact Hrows|].
  apply works_on_setting_num; [intros mh Hmh | intros ->; reflexivity].
  rewrite Hmh, option_bind_Some.
  apply (works_on_for_updates _ _ _ _
           (fun rows0 hour =>
              loc_add (in_labels (map index
                         (FraudDetector.group FraudDetector.hour_group rows hour)))
                      0.2 "High hourly velocity, " rows0)).
  apply (works_on_add_column_known _ _ _ r rows); [exact Hrows|].
  apply (works_on_read_known _ _ _ r rows); [exact Hrows|].
  apply works_on_setting_num; [intros md Hmd | intros ->; reflexivity].
  rewrite Hmd, option_bind_Some.
  apply works_on_last.
  apply (works_on_for_updates _ _ _ _
           (fun rows0 date =>
              loc_add (in_labels (map index
                         (FraudDetector.group FraudDetector.date_group rows date)))
                      0.15 "High daily amount, " rows0)).
  apply works_on_ret. reflexivity.
Qed.

Lemma _check_velocity_patterns_works known df s d :
  works_on known (Program._check_velocity_patterns df) df s d
    (option_map (pair df) (FraudDetector._check_velocity_patterns s d)).
Proof.
  unfold Program._check_velocity_patterns, FraudDetector._check_velocity_patterns.
  apply works_on_read, works_on_new_frame. intros r Hr Hkr.
  apply works_on_read. cbv zeta.
  apply (works_on_for _ _ _ _ _
           (FraudDetector.velocity_user s (sort_values_timestamp d))).
  - intros user d0. apply velocity_user_works. apply lookup_insert_eq.
  - intros d' ->. apply works_on_ret. reflexivity.
  - intros ->. reflexivity.
Qed.

Lemma location_user_works known df df_sorted sorted s user d :
  known !! df_sorted = Some sorted ->
  works_on known (Program.location_user df df_sorted user) df s d
    (Some (tt, FraudDetector.location_user sorted d user)).
Proof.
  intros Hsorted.
  unfold Program.location_user, Program.loc_add_at, FraudDetector.location_user.
  apply (works_on_read_known _ _ _ df_sorted sorted); [exact Hsorted|].
  apply works_on_new_frame. intros r Hr Hkr.
  set (rows := FraudDetector.user_rows sorted user).
  assert (Hrows : <[r := rows]> known !! r = Some rows) by apply lookup_insert_eq.
  apply (works_on_read_known _ _ _ r rows); [exact Hrows|].
  cbv zeta. destruct (1 <? length rows)%nat; [|apply works_on_ret; reflexivity].
  do 2 (apply (works_on_add_column_known _ _ _ r rows); [exact Hrows|]).
  apply (works_on_read_known _ _ _ r rows); [exact Hrows|].
  apply works_on_update_only.
Qed.

Lemma _check_location_patterns_works known df s d :
  works_on known (Program._check_location_patterns df) df s d
    (Some (df, FraudDetector._check_location_patterns d)).
Proof.
  unfold Program._check_location_patterns, FraudDetector._check_location_patterns,
    Program.loc_add_at.
  apply works_on_read, works_on_new_frame. intros r Hr Hkr.
  apply works_on_read. cbv zeta.
  apply (works_on_for _ _ _ _ _
           (fun rows user =>
              Some (FraudDetector.location_user (sort_values_timestamp d)
                                                rows user))).
  - intros user d0. apply location_user_works. apply lookup_insert_eq.
  - intros d'. rewrite for_each_Some. intros [= <-].
    apply (works_on_for_updates _ _ _ _ FraudDetector.flag_high_risk_location).
    apply works_on_ret. reflexivity.
  - rewrite for_each_Some. discriminate.
Qed.

Lemma _check_merchant_patterns_works known df s d :
  works_on known (Program._check_merchant_patterns df) df s d
    (Some (df, FraudDetector._check_merchant_patterns d)).
Proof.
  unfold Program._check_merchant_patterns, FraudDetector._check_merchant_patterns,
    Program.loc_add_at.
  apply works_on_read. cbv zeta. apply works_on_update.
  apply (works_on_for_updates _ _ _ _ FraudDetector.flag_high_risk_category).
  apply (works_on_for_updates _ _ _ _ FraudDetector.flag_suspicious_merchant).
  apply works_on_ret. reflexivity.
Qed.

(** *** The whole call *)

Lemma run_call {A B : Type} (m : Program.M A) (k : A -> Program.M B) df s d R h :
  works_on ∅ m df s d R ->
  Program.settings h = s -> Program.frames h !! df = Some d ->
  exists h',
    keeps df h h'
    /\ match R with
       | Some (a, d') =>
           (m ≫= k) h = k a h' /\ Program.frames h' !! df = Some d'
       | None => (m ≫= k) h = (None, h')
       end.
Proof.
  intros Hm Hs Hd.
  destruct (Hm h Hs Hd (lookup_empty _) (map_empty_subseteq _)) as [Hkeep Hres].
  rewrite run_bind. destruct (m h) as [res h']. cbn [fst snd] in *.
  exists h'. split; [exact Hkeep|].
  destruct R as [[a d']|].
  - destruct Hres as [-> Hd']. split; [reflexivity | exact Hd'].
  - rewrite Hres. reflexivity.
Qed.

Lemma run_setting_num (key : string) h :
  Program.setting_num key h
  = (FraudDetector.get_num (Program.settings h) key, h).
Proof. reflexivity. Qed.

Lemma run_read (r : nat) h : Program.read r h = (Program.frames h !! r, h).
Proof. reflexivity. Qed.

Lemma run_new_frame (x : DataFrame) h :
  Program.new_frame x h
  = (Some (fresh (dom (Program.frames h))),
     {| Program.settings := Program.settings h;
        Program.frames :=
          <[fresh (dom (Program.frames h)) := x]> (Program.frames h) |}).
Proof. reflexivity. Qed.

Lemma keeps_fresh df h h' r :
  keeps df h h' -> is_Some (Program.frames h' !! df) ->
  Program.frames h' !! r = None -> Program.frames h !! r = None.
Proof.
  intros [_ F] [y Hy] Hr. destruct (Program.frames h !! r) as [x|] eqn:E;
    [|reflexivity].
  assert (r <> df) by (intros ->; congruence).
  rewrite (F r x) in Hr by assumption. discriminate Hr.
Qed.

Lemma _calculate_final_score_run df h d :
  Program.frames h !! df = Some d ->
  keeps df h (Program._calculate_final_score df h).2
  /\ match FraudDetector._calculate_final_score (Program.settings h) d with
     | Some out =>
         exists r,
           (Program._calculate_final_score df h).1 = Some r
           /\ Program.frames h !! r = None
           /\ Program.frames (Program._calculate_final_score df h).2 !! r
              = Some out
     | None => (Program._calculate_final_score df h).1 = None
     end.
Proof.
  intros Hd.
  unfold Program._calculate_final_score, Program.set_risk_score,
    Program.set_is_fraud, Program.set_fraud_reasons,
    FraudDetector._calculate_final_score.
  rewrite run_bind, (run_update _ df h d Hd).
  set (h1 := {| Program.settings := _; Program.frames := <[df := _]> _ |}).
  assert (K1 : keeps df h h1) by apply keeps_write.
  rewrite run_bind, run_setting_num.
  change (Program.settings h1) with (Program.settings h).
  destruct (FraudDetector.get_num (Program.settings h) "high_risk_threshold")
    as [th|]; cbv beta iota; [|split; [exact K1 | reflexivity]].
  rewrite option_bind_Some.
  rewrite run_bind, (run_update _ df h1 _ (lookup_insert_eq _ _ _)).
  set (h2 := {| Program.settings := _; Program.frames := <[df := _]> _ |}).
  assert (K2 : keeps df h1 h2) by apply keeps_write.
  rewrite run_bind, (run_update _ df h2 _ (lookup_insert_eq _ _ _)).
  set (h3 := {| Program.settings := _; Program.frames := <[df := _]> _ |}).
  assert (K3 : keeps df h2 h3) by apply keeps_write.
  assert (K : keeps df h h3) by eauto using keeps_trans.
  rewrite run_bind, run_read.
  assert (Hd3 : (Program.frames h3 !! df : option DataFrame)
                = Some (map (FraudDetector.finalize_row th) d)).
  { subst h3. cbn [Program.frames]. rewrite lookup_insert_eq.
    rewrite !List.map_map. reflexivity. }
  rewrite Hd3. cbv beta iota. rewrite run_new_frame. cbn [fst snd].
  set (r := fresh (dom (Program.frames h3))).
  assert (Hfresh : Program.frames h3 !! r = None)
    by (apply not_elem_of_dom, is_fresh).
  split.
  - eapply keeps_trans; [exact K|]. split; [reflexivity|].
    intros r0 x Hr0 Hx. cbn [Program.frames].
    rewrite lookup_insert_ne by (intros ->; congruence). exact Hx.
  - exists r. split; [reflexivity|].
    split; [eapply keeps_fresh; eauto|].
    cbn [Program.frames]. apply lookup_insert_eq.
Qed.

Lemma map_reset (table : DataFrame) :
  map (fun r => {| index := index r; tx := tx r; risk_score := risk_score r;
                   is_fraud := is_fraud r; fraud_reasons := "" |})
    (map (fun r => {| index := index r; tx := tx r; risk_score := risk_score r;
                      is_fraud := false; fraud_reasons := fraud_reasons r |})
       (map (fun r => {| index := index r; tx := tx r; risk_score := 0;
                         is_fraud := is_fraud r;
                         fraud_reasons := fraud_reasons r |}) table))
  = map reset table.
Proof. rewrite !List.map_map. reflexivity. Qed.

(** One call of [detect_fraud]. *)
Lemma detect_fraud_run h transactions table :
  Program.frames h !! transactions = Some table ->
  Program.settings (Program.detect_fraud transactions h).2 = Program.settings h
  /\ (forall r x, Program.frames h !! r = Some x ->
                  Program.frames (Program.detect_fraud transactions h).2 !! r
                  = Some x)
  /\ match score_frame (Program.settings h) table with
     | Some out =>
         exists r,
           (Program.detect_fraud transactions h).1 = Some r
           /\ Program.frames h !! r = None
           /\ Program.frames (Program.detect_fraud transactions h).2 !! r
              = Some out
     | None => (Program.detect_fraud transactions h).1 = None
     end.
Proof.
  intros Ht.
  remember (Program.detect_fraud transactions h) as run eqn:Erun. revert Erun.
  unfold Program.detect_fraud, score_frame.
  set (s := Program.settings h).
  (* the copy *)
  rewrite run_bind. unfold Program.copy at 1.
  rewrite run_bind, run_read, Ht. cbv beta iota. rewrite run_new_frame.
  cbv beta iota.
  set (df := fresh (dom (Program.frames h))).
  assert (Hfresh : Program.frames h !! df = None)
    by (apply not_elem_of_dom, is_fresh).
  set (h0 := {| Program.settings := _; Program.frames := <[df := table]> _ |}).
  assert (K0 : forall r x, Program.frames h !! r = Some x ->
                 r <> df /\ Program.frames h0 !! r = Some x).
  { intros r x Hx. assert (r <> df) by (intros ->; congruence).
    split; [assumption|]. subst h0. cbn [Program.frames].
    rewrite lookup_insert_ne by congruence. exact Hx. }
  (* the three new columns *)
  unfold Program.set_risk_score, Program.set_is_fraud, Program.set_fraud_reasons.
  rewrite run_bind, (run_update _ df h0 table (lookup_insert_eq _ _ _)).
  set (h1 := {| Program.settings := _; Program.frames := <[df := _]> _ |}).
  rewrite run_bind, (run_update _ df h1 _ (lookup_insert_eq _ _ _)).
  set (h2 := {| Program.settings := _; Program.frames := <[df := _]> _ |}).
  rewrite run_bind, (run_update _ df h2 _ (lookup_insert_eq _ _ _)).
  set (h3 := {| Program.settings := _; Program.frames := <[df := _]> _ |}).
  assert (K3 : keeps df h0 h3).
  { eapply keeps_trans; [apply keeps_write|].
    eapply keeps_trans; apply keeps_write. }
  assert (Hd3 : (Program.frames h3 !! df : option DataFrame)
                = Some (map reset table)).
  { subst h3. cbn [Program.frames]. rewrite lookup_insert_eq, map_reset.
    reflexivity. }
  assert (Hs3 : Program.settings h3 = s) by reflexivity.
  clearbody h3. clear h1 h2.
  (* what is left to show, for every heap that keeps the frames of [h0] *)
  assert (Hend : forall A (out : option A * Program.Heap),
             keeps df h0 out.2 ->
             Program.settings out.2 = Program.settings h
             /\ forall r x, Program.frames h !! r = Some x ->
                            Program.frames out.2 !! r = Some x).
  { intros A out [Hset Hfr]. split; [exact Hset|].
    intros r x Hx. destruct (K0 r x Hx) as [Hne Hx0]. auto. }
  (* the rules *)
  match goal with
  | |- context [(Program._check_amount_anomalies df ≫= ?k) h3] =>
      pose proof (run_call (Program._check_amount_anomalies df) k df s _ _ h3
                    (_check_amount_anomalies_works ∅ df s (map reset table))
              Hs3 Hd3) as (h4 & K4 & Hrun)
  end.
  destruct (FraudDetector._check_amount_anomalies s (map reset table))
    as [d4|]; cbn [option_map] in Hrun;
    [destruct Hrun as [Hrun Hd4]; rewrite Hrun; clear Hrun
    |rewrite Hrun; intros ->; destruct (Hend _ (@None nat, h4)) as [E1 E2];
     [eauto using keeps_trans | split; [exact E1 | split; [exact E2 | reflexivity]]]].
  rewrite option_bind_Some.
  assert (Hs4 : Program.settings h4 = s) by (destruct K4; congruence).
  match goal with
  | |- context [(Program._check_time_patterns df ≫= ?k) h4] =>
      pose proof (run_call (Program._check_time_patterns df) k df s _ _ h4
                    (_check_time_patterns_works ∅ df s d4) Hs4 Hd4)
    as (h5 & K5 & Hrun)
  end.
  destruct (FraudDetector._check_time_patterns s d4)
    as [d5|]; cbn [option_map] in Hrun;
    [destruct Hrun as [Hrun Hd5]; rewrite Hrun; clear Hrun
    |rewrite Hrun; intros ->; destruct (Hend _ (@None nat, h5)) as [E1 E2];
     [eauto using keeps_trans | split; [exact E1 | split; [exact E2 | reflexivity]]]].
  rewrite option_bind_Some.
  assert (Hs5 : Program.settings h5 = s) by (destruct K5; congruence).
  match goal with
  | |- context [(Program._check_velocity_patterns df ≫= ?k) h5] =>
      pose proof (run_call (Program._check_velocity_patterns df) k df s _ _ h5
                    (_check_velocity_patterns_works ∅ df s d5) Hs5 Hd5)
    as (h6 & K6 & Hrun)
  end.
  destruct (FraudDetector._check_velocity_patterns s d5)
    as [d6|]; cbn [option_map] in Hrun;
    [destruct Hrun as [Hrun Hd6]; rewrite Hrun; clear Hrun
    |rewrite Hrun; intros ->; destruct (Hend _ (@None nat, h6)) as [E1 E2];
     [eauto 6 using keeps_trans | split; [exact E1 | split; [exact E2 | reflexivity]]]].
  rewrite option_bind_Some.
  assert (Hs6 : Program.settings h6 = s) by (destruct K6; congruence).
  match goal with
  | |- context [(Program._check_location_patterns df ≫= ?k) h6] =>
      pose proof (run_call (Program._check_location_patterns df) k df s _ _ h6
                    (_check_location_patterns_works ∅ df s d6) Hs6 Hd6)
    as (h7 & K7 & Hrun & Hd7)
  end.
  rewrite Hrun. clear Hrun.
  assert (Hs7 : Program.settings h7 = s) by (destruct K7; congruence).
  match goal with
  | |- context [(Program._check_merchant_patterns df ≫= ?k) h7] =>
      pose proof (run_call (Program._check_merchant_patterns df) k df s _ _ h7
                    (_check_merchant_patterns_works ∅ df s _) Hs7 Hd7)
    as (h8 & K8 & Hrun & Hd8)
  end.
  rewrite Hrun. clear Hrun.
  assert (Hs8 : Program.settings h8 = s) by (destruct K8; congruence).
  assert (K : keeps df h0 h8) by eauto 8 using keeps_trans.
  intros ->.
  (* the final score *)
  destruct (_calculate_final_score_run df h8 _ Hd8) as [K9 Hres].
  rewrite Hs8 in Hres.
  destruct (Hend _ (Program._calculate_final_score df h8)) as [E1 E2];
    [eauto using keeps_trans|].
  split; [exact E1|]. split; [exact E2|].
  destruct (FraudDetector._calculate_final_score s _) as [out|]; [|exact Hres].
  destruct Hres as (r & Hr & Hnew & Hout). exists r.
  split; [exact Hr|]. split; [|exact Hout].
  assert (H0 : Program.frames h0 !! r = None)
    by (eapply keeps_fresh; [exact K | eauto | exact Hnew]).
  destruct (Program.frames h !! r) as [x|] eqn:E; [|reflexivity].
  destruct (K0 r x E) as [_ Hx]. congruence.
Qed.

(** The frame computed from a table with fresh columns and the default
    index is the frame of the functional [detect_fraud]. *)
Lemma map_reset_init_rows i (transactions : list Transaction) :
  map reset (FraudDetector.init_rows i transactions)
  = FraudDetector.init_rows i transactions.
Proof.
  revert i. induction transactions as [|t ts IH]; intros i; [reflexivity|].
  cbn [FraudDetector.init_rows map]. rewrite IH. reflexivity.
Qed.

Lemma score_frame_init_rows s (transactions : list Transaction) :
  score_frame s (FraudDetector.init_rows 0 transactions)
  = FraudDetector.detect_fraud s transactions.
Proof.
  unfold score_frame, FraudDetector.detect_fraud.
  rewrite map_reset_init_rows. reflexivity.
Qed.

(** C8. Two calls of [detect_fraud] in a row on the same table object, on
    any heap that holds the table: neither call writes to the settings or to
    the caller's table (each works on its own copy), so the second call
    finds the settings and the table that the first one found; either both
    calls raise, or each returns a frame object of its own, new on the heap,
    and the two frames hold the same rows, the rows that [score_frame]
    computes from the settings and the table: the same risk scores, flags
    and reasons row by row. *)
Theorem detect_fraud_twice_same h transactions table :
  Program.frames h !! transactions = Some table ->
  same_twice h transactions table.
Proof.
  intros Ht. unfold same_twice.
  destruct (detect_fraud_run h transactions table Ht) as (S1 & F1 & R1).
  destruct (Program.detect_fraud transactions h) as [first h1].
  cbn [fst snd] in *.
  assert (Ht1 := F1 _ _ Ht).
  destruct (detect_fraud_run h1 transactions table Ht1) as (S2 & F2 & R2).
  destruct (Program.detect_fraud transactions h1) as [second h2].
  cbn [fst snd] in *. rewrite S1 in R2.
  split; [exact S1|]. split; [congruence|]. split; [exact Ht1|].
  split; [apply F2; exact Ht1|].
  destruct (score_frame (Program.settings h) table) as [out|]; [|auto].
  destruct R1 as (r1 & -> & N1 & O1). destruct R2 as (r2 & -> & N2 & O2).
  exists r1, r2. repeat split; auto.
Qed.

Lemma detect_fraud_twice_same_witness :
  Program.frames Samples.scenario_A_heap !! 0%nat
  = Some (FraudDetector.init_rows 0 Samples.scenario_A)
  /\ same_twice Samples.scenario_A_heap 0
       (FraudDetector.init_rows 0 Samples.scenario_A).
Proof.
  split; [reflexivity|].
  apply (detect_fraud_twice_same Samples.scenario_A_heap 0
           (FraudDetector.init_rows 0 Samples.scenario_A)).
  reflexivity.
Defined.

(** ** The empty keyword *)

Lemma contains_empty (s : string) : contains s "" = true.
Proof. destruct s; reflexivity. Qed.

Lemma str_contains_empty (l : string) :
  FraudDetector.str_contains (Some l) "" = true.
Proof. unfold FraudDetector.str_contains. apply contains_empty. Qed.

Lemma any_keyword_empty (keywords : list string) (l : string) :
  In "" keywords ->
  TransactionAnalyzer.any_keyword keywords (Some l) = Some true.
Proof.
  intros Hin. unfold TransactionAnalyzer.any_keyword. f_equal.
  apply existsb_exists. exists "". split; [exact Hin|].
  change (lower "") with "". apply contains_empty.
Qed.

(** What the last keyword does to a row that went through the earlier
    location rules. *)
Lemma flag_empty_keyword (df before : DataFrame) :
  Forall2 grows df before ->
  Forall2 (fun r r' =>
             tx r' = tx r
             /\ forall l, location (tx r) = Some l ->
                  risk_score r + 0.1 <= risk_score r'
                  /\ exists reasons,
                       fraud_reasons r' = reasons +:+ "High-risk location, ")
          df (FraudDetector.flag_high_risk_location before "").
Proof.
  unfold FraudDetector.flag_high_risk_location, loc_add.
  induction 1 as [|r b df before (Hi & Ht & Hs & labels & Hl) _ IH];
    simpl; constructor; auto.
  rewrite Ht. destruct (location (tx r)) as [l|] eqn:El.
  - rewrite str_contains_empty. simpl. split; [exact Ht|].
    intros l' _. split; [lra|]. eauto.
  - simpl. split; [exact Ht|]. intros l' Hl'. discriminate.
Qed.

Lemma _check_location_patterns_empty_keyword (df : DataFrame) :
  Forall2 (fun r r' =>
             tx r' = tx r
             /\ forall l, location (tx r) = Some l ->
                  risk_score r + 0.1 <= risk_score r'
                  /\ exists reasons,
                       fraud_reasons r' = reasons +:+ "High-risk location, ")
          df (FraudDetector._check_location_patterns df).
Proof.
  unfold FraudDetector._check_location_patterns.
  unfold FraudDetector.high_risk_keywords. cbn [fold_left].
  apply flag_empty_keyword.
  repeat (eapply Forall2_grows_trans;
          [|unfold FraudDetector.flag_high_risk_location;
            apply loc_add_grows; auto with rules]).
  apply fold_left_grows. intros d x. unfold FraudDetector.location_user.
  destruct (1 <? length _)%nat; auto with rules.
Qed.

Lemma _analyze_location_patterns_suspicious t h l :
  location t = Some l ->
  exists a,
    TransactionAnalyzer._analyze_location_patterns t h
    = Some (TransactionAnalyzer.fire 0.25 SuspiciousLocationName a)
    /\ 0 <= TransactionAnalyzer.risk_contribution a.
Proof.
  intros Hl. unfold TransactionAnalyzer._analyze_location_patterns.
  cbv zeta. rewrite Hl, any_keyword_empty by (simpl; tauto).
  rewrite option_bind_Some. unfold TransactionAnalyzer.fire_if at 1.
  eexists. split; [reflexivity|].
  match goal with
  | |- 0 <= TransactionAnalyzer.risk_contribution ?a => change (nonneg a)
  end.
  split_ifs; auto 10 with rules.
Qed.

Lemma _analyze_location_patterns_needs_location t h a :
  TransactionAnalyzer._analyze_location_patterns t h = Some a ->
  exists l, location t = Some l.
Proof.
  unfold TransactionAnalyzer._analyze_location_patterns.
  destruct (location t) as [l|]; [eauto | discriminate].
Qed.

(** C9. The empty string is among the location keywords of both scorers and
    is contained in every string.  So the batch location check leaves every
    row that has a location with a score at least 0.10 higher and with
    "High-risk location" as its last reason; the single-transaction location
    analysis of every transaction that has a location ends by firing
    "Suspicious location name" with +0.25, and every result of a
    single-transaction analysis lists that factor. *)
Theorem empty_keyword_always_fires :
  In "" FraudDetector.high_risk_keywords
  /\ In "" TransactionAnalyzer.suspicious_location_keywords
  /\ (forall s, contains s "" = true)
  /\ (forall df,
         Forall2 (fun r r' =>
                    tx r' = tx r
                    /\ forall l, location (tx r) = Some l ->
                         risk_score r + 0.1 <= risk_score r'
                         /\ exists reasons,
                              fraud_reasons r'
                              = reasons +:+ "High-risk location, ")
                 df (FraudDetector._check_location_patterns df))
  /\ (forall t h l,
         location t = Some l ->
         exists a,
           TransactionAnalyzer._analyze_location_patterns t h
           = Some (TransactionAnalyzer.fire 0.25 SuspiciousLocationName a)
           /\ 0 <= TransactionAnalyzer.risk_contribution a)
  /\ (forall t h res,
         TransactionAnalyzer.analyze_single_transaction t h = Some res ->
         In SuspiciousLocationName (TransactionAnalyzer.risk_factors res)
         /\ 0.25 <= TransactionAnalyzer.risk_contribution
                      (TransactionAnalyzer.location_analysis res)).
Proof.
  split; [simpl; tauto|]. split; [simpl; tauto|].
  split; [exact contains_empty|].
  split; [exact _check_location_patterns_empty_keyword|].
  split; [exact _analyze_location_patterns_suspicious|].
  intros t h res H.
  apply analyze_single_transaction_inv in H as (la & ma & Hla & Hma & ->).
  cbv zeta. simpl.
  destruct (_analyze_location_patterns_needs_location t h la Hla) as [l El].
  destruct (_analyze_location_patterns_suspicious t h l El) as (a & Ha & Hpos).
  rewrite Ha in Hla. apply (inj Some) in Hla. subst la.
  split; [|simpl; lra].
  apply in_or_app. left. apply in_or_app. right.
  simpl. apply in_or_app. right. simpl. tauto.
Qed.

Lemma empty_keyword_always_fires_witness :
  (exists a,
      TransactionAnalyzer._analyze_location_patterns
        Samples.u1_second Samples.scenario_A
      = Some (TransactionAnalyzer.fire 0.25 SuspiciousLocationName a)
      /\ 0 <= TransactionAnalyzer.risk_contribution a)
  /\ TransactionAnalyzer._analyze_location_patterns
       Samples.no_location Samples.scenario_A = None.
Proof.
  split; [|vm_compute; reflexivity].
  apply (proj1 (proj2 (proj2 (proj2 (proj2 empty_keyword_always_fires))))
           Samples.u1_second Samples.scenario_A "Paris").
  reflexivity.
Defined.

(** ** The "very recent transaction" check *)

Lemma recent_fire_self a :
  nonneg a -> recent (TransactionAnalyzer.fire 0.2 VeryRecentTransaction a).
Proof.
  unfold nonneg, recent. simpl. intros Ha. split; [|lra].
  apply in_or_app. right. simpl. tauto.
Qed.

Lemma recent_fire_if b c f a :
  0 <= c -> recent a -> recent (TransactionAnalyzer.fire_if b c f a).
Proof.
  unfold recent, TransactionAnalyzer.fire_if. intros Hc [Hin Hs].
  destruct b; simpl; [|tauto]. split; [|lra].
  apply in_or_app. left. exact Hin.
Qed.

Lemma max_timestamp_ge (first : Z) (rest : list Z) :
  (first <= TransactionAnalyzer.max_timestamp first rest)%Z
  /\ Forall (fun x => (x <= TransactionAnalyzer.max_timestamp first rest)%Z) rest.
Proof.
  unfold TransactionAnalyzer.max_timestamp. revert first.
  induction rest as [|x rest IH]; intros first; simpl.
  - split; [lia | constructor].
  - destruct (IH (Z.max first x)) as [H1 H2]. split; [lia|].
    constructor; [lia | exact H2].
Qed.

(** C10. The "very recent transaction" check of the user analysis takes the
    difference between the timestamp of the analysed transaction and the
    latest timestamp in the history of the user (which is at least every
    timestamp of that history).  So whenever the analysed transaction is
    dated before the latest one, the difference is negative, the factor is
    listed and its 0.2 is in the contribution -- whatever the other
    timestamps of the history are. *)
Theorem very_recent_fires_on_earlier_timestamp t h first rest :
  TransactionAnalyzer.user_history h (user_id t) = first :: rest ->
  let last_transaction :=
    TransactionAnalyzer.max_timestamp (timestamp first) (map timestamp rest) in
  (timestamp t < last_transaction)%Z ->
  Forall (fun x => (timestamp x <= last_transaction)%Z) (first :: rest)
  /\ (timestamp t - last_transaction < 0)%Z
  /\ In VeryRecentTransaction
        (TransactionAnalyzer.factors
           (TransactionAnalyzer._analyze_user_behavior t h))
  /\ 0.2 <= TransactionAnalyzer.risk_contribution
              (TransactionAnalyzer._analyze_user_behavior t h).
Proof.
  intros Hhist last_transaction Hlt.
  destruct (max_timestamp_ge (timestamp first) (map timestamp rest)) as [H1 H2].
  split.
  { constructor; [exact H1|].
    apply (proj1 (Forall_map timestamp
                    (fun x : Z => (x <= last_transaction)%Z) rest)).
    exact H2. }
  split; [lia|].
  change (recent (TransactionAnalyzer._analyze_user_behavior t h)).
  unfold TransactionAnalyzer._analyze_user_behavior. rewrite Hhist. cbv zeta.
  fold last_transaction.
  assert (Hfire : (timestamp t - last_transaction <? 5 * Clock.minute_s)%Z = true).
  { apply Z.ltb_lt. unfold Clock.minute_s. lia. }
  rewrite Hfire. unfold TransactionAnalyzer.fire_if at 2 3.
  split_ifs; try apply recent_fire_if; try apply recent_fire_self;
    auto 10 with rules.
Qed.

(** The analysed transaction lies ten days after the previous one of the
    user and ten days before the latest one. *)
Lemma very_recent_fires_on_earlier_timestamp_witness :
  In VeryRecentTransaction
     (TransactionAnalyzer.factors
        (TransactionAnalyzer._analyze_user_behavior Samples.u1_backdated
           [Samples.u1_old; Samples.u1_first]))
  /\ (timestamp Samples.u1_backdated - timestamp Samples.u1_old
      = 10 * Clock.day_s)%Z.
Proof.
  split; [|reflexivity].
  apply (very_recent_fires_on_earlier_timestamp Samples.u1_backdated
           [Samples.u1_old; Samples.u1_first] Samples.u1_old [Samples.u1_first]).
  - reflexivity.
  - vm_compute. reflexivity.
Defined.

(** ** Updating the settings *)

(** What [update_settings] does to every key. *)
Lemma update_settings_lookup settings update key :
  FraudDetector.update_settings settings update !! key
  = match update !! key with
    | Some v => Some v
    | None => settings !! key
    end.
Proof.
  unfold FraudDetector.update_settings. rewrite lookup_union.
  destruct (update !! key), (settings !! key); reflexivity.
Qed.

(** C7, as stated, fails: [update_settings] checks nothing, and the
    malformed sample update is written into the default settings. *)
Lemma update_settings_accepts_malformed :
  well_formed_update Samples.malformed_update = false
  /\ FraudDetector.update_settings FraudDetector.default_settings
       Samples.malformed_update !! "high_risk_threshold" = Some (VNum 1.5)
  /\ FraudDetector.update_settings FraudDetector.default_settings
       Samples.malformed_update !! "off_hours_start" = Some (VStr "25:61")
  /\ ~ rejects_malformed_updates.
Proof.
  split; [vm_compute; reflexivity|].
  split; [vm_compute; reflexivity|].
  split; [vm_compute; reflexivity|].
  intros H.
  specialize (H FraudDetector.default_settings Samples.malformed_update).
  assert (Hbad : well_formed_update Samples.malformed_update = false)
    by (vm_compute; reflexivity).
  apply H in Hbad.
  apply (f_equal (fun m => m !! "high_risk_threshold")) in Hbad.
  vm_compute in Hbad. discriminate Hbad.
Qed.

(** C7, amended. [update_settings] merges every update, well formed or
    not: each field that the update names takes the value of the update, and
    each field that it does not name keeps its value. *)
Theorem update_settings_merges_named_fields :
  forall settings update key,
    (forall v, update !! key = Some v ->
               FraudDetector.update_settings settings update !! key = Some v)
    /\ (update !! key = None ->
        FraudDetector.update_settings settings update !! key
        = settings !! key).
Proof.
  intros settings update key. rewrite update_settings_lookup.
  split; [intros v -> | intros ->]; reflexivity.
Qed.

Lemma update_settings_merges_named_fields_witness :
  FraudDetector.update_settings FraudDetector.default_settings
    Samples.malformed_update !! "high_risk_threshold" = Some (VNum 1.5)
  /\ FraudDetector.update_settings FraudDetector.default_settings
       Samples.malformed_update !! "max_amount_per_day"
     = FraudDetector.default_settings !! "max_amount_per_day".
Proof.
  split.
  - apply (proj1 (update_settings_merges_named_fields
                    FraudDetector.default_settings Samples.malformed_update
                    "high_risk_threshold")).
    vm_compute. reflexivity.
  - apply (proj2 (update_settings_merges_named_fields
                    FraudDetector.default_settings Samples.malformed_update
                    "max_amount_per_day")).
    vm_compute. reflexivity.
Defined.

(** ** The off-hours window *)






(** ** A population of identical amounts *)

Lemma Qof_nat_S (n : nat) : Qof_nat (S n) == Qof_nat n + 1.
Proof.
  unfold Qof_nat. rewrite Nat2Z.inj_succ, <- Z.add_1_r, inject_Z_plus.
  reflexivity.
Qed.

Lemma Qof_nat_pos (n : nat) : 0 < Qof_nat (S n).
Proof.
  unfold Qof_nat. change 0 with (inject_Z 0). rewrite <- Zlt_Qlt. lia.
Qed.

Lemma Qsum_constant (a : Q) (l : list Q) :
  Forall (fun x => x == a) l -> Qsum l == a * Qof_nat (length l).
Proof.
  induction 1 as [|x l Hx _ IH]; simpl Qsum; simpl length.
  - unfold Qof_nat. simpl. ring.
  - rewrite Qof_nat_S, IH, Hx. ring.
Qed.

Lemma Qsum_squares_constant (a m : Q) (l : list Q) :
  m == a -> Forall (fun x => x == a) l ->
  Qsum (map (fun x => (x - m) * (x - m)) l) == 0.
Proof.
  intros Hm. induction 1 as [|x l Hx _ IH]; simpl.
  - reflexivity.
  - rewrite IH, Hx, Hm. ring.
Qed.

(** The z-score test is false for every value of a population whose values
    are all the same: the deviation and the standard deviation are both
    zero (or the latter is missing, with fewer than two values), so the
    quotient is NaN and compares false. *)
Lemma no_extreme_in_constant_population (a x : Q) (l : list Q) :
  Forall (fun y => y == a) l -> x == a ->
  xgt (z_score_sq x (mean l) (variance l)) (XNum 9) = false.
Proof.
  intros Hall Hx. destruct l as [|y l]; [reflexivity|].
  assert (Hmean : Qsum (y :: l) / Qof_nat (length (y :: l)) == a).
  { rewrite (Qsum_constant a) by exact Hall. simpl length.
    field. intros H0. pose proof (Qof_nat_pos (length l)) as Hp.
    rewrite H0 in Hp. apply (Qlt_irrefl 0). exact Hp. }
  set (m := Qsum (y :: l) / Qof_nat (length (y :: l))) in *.
  assert (Hv : Qeq_bool
                 (Qsum (map (fun x0 => (x0 - m) * (x0 - m)) (y :: l))
                  / Qof_nat (length (y :: l) - 1)) 0 = true).
  { apply Qeq_bool_iff.
    rewrite (Qsum_squares_constant a m) by assumption.
    unfold Qdiv. ring. }
  assert (Hd : Qeq_bool ((x - m) * (x - m)) 0 = true).
  { apply Qeq_bool_iff. rewrite Hx, Hmean. ring. }
  unfold variance. change (mean (y :: l)) with (XNum m). cbv beta iota.
  destruct (length (y :: l) <=? 1)%nat; [reflexivity|].
  cbv beta iota zeta delta [z_score_sq xsub xmul xdiv].
  rewrite Hv, Hd. reflexivity.
Qed.

Lemma loc_add_nowhere (mask : Row -> bool) (delta : Q) (label : string)
    (df : DataFrame) :
  Forall (fun r => mask r = false) df -> loc_add mask delta label df = df.
Proof.
  unfold loc_add. induction 1 as [|r df Hr _ IH]; simpl; [reflexivity|].
  rewrite Hr, IH. reflexivity.
Qed.

Lemma flag_extreme_amounts_constant (a : Q) (df : DataFrame) :
  Forall (fun r => amount (tx r) == a) df ->
  Forall (fun r => FraudDetector.extreme_amounts df r = false) df
  /\ FraudDetector.flag_extreme_amounts df = df.
Proof.
  intros Hall.
  assert (Hmask : Forall (fun r => FraudDetector.extreme_amounts df r = false) df).
  { assert (Hl : Forall (fun y => y == a) (FraudDetector.amounts df)).
    { unfold FraudDetector.amounts. apply Forall_map. exact Hall. }
    unfold FraudDetector.extreme_amounts.
    eapply Forall_impl; [exact Hall|]. intros r Hr. simpl in Hr.
    apply (no_extreme_in_constant_population a); assumption. }
  split; [exact Hmask|].
  unfold FraudDetector.flag_extreme_amounts. apply loc_add_nowhere. exact Hmask.
Qed.

(** C4. When all the amounts of a batch are the same, the extreme-amount
    test is false on every row, so no row takes the +0.30 or the "Extreme
    amount" reason; the amount rules and the whole run are those of the
    scorer without that rule, and with usable settings the run returns,
    every score being a number between 0 and 1. *)
Theorem zero_variance_skips_extreme_amount settings transactions a :
  Forall (fun t => amount t == a) transactions ->
  let df := FraudDetector.init_rows 0 transactions in
  Forall (fun r => FraudDetector.extreme_amounts df r = false) df
  /\ FraudDetector.flag_extreme_amounts df = df
  /\ FraudDetector._check_amount_anomalies settings df
     = other_amount_rules settings df
  /\ FraudDetector.detect_fraud settings transactions
     = detect_fraud_without_extreme settings transactions
  /\ (usable_settings settings ->
      exists out,
        FraudDetector.detect_fraud settings transactions = Some out
        /\ Forall (fun r => 0 <= risk_score r /\ risk_score r <= 1) out).
Proof.
  intros Hall df.
  assert (Hrows : Forall (fun r => amount (tx r) == a) df).
  { unfold df. generalize 0%nat.
    induction Hall as [|t ts Ht _ IH]; intros i; simpl; constructor; auto. }
  destruct (flag_extreme_amounts_constant a df Hrows) as [Hmask Hskip].
  assert (Hamount : FraudDetector._check_amount_anomalies settings df
                    = other_amount_rules settings df).
  { unfold FraudDetector._check_amount_anomalies, other_amount_rules.
    rewrite Hskip. reflexivity. }
  split; [exact Hmask|]. split; [exact Hskip|]. split; [exact Hamount|].
  split.
  - unfold FraudDetector.detect_fraud, detect_fraud_without_extreme.
    fold df. rewrite Hamount. reflexivity.
  - intros Husable.
    destruct (detect_fraud_total settings transactions Husable) as [out Hout].
    exists out. split; [exact Hout|].
    apply detect_fraud_inv in Hout as (th & d & _ & Hgrow & ->).
    apply grows_nonneg in Hgrow; [|apply init_rows_nonneg].
    induction Hgrow as [|r d Hr _ IH]; simpl; constructor; auto.
    simpl. apply Qmin_unit. exact Hr.
Qed.

Lemma zero_variance_skips_extreme_amount_witness :
  FraudDetector.flag_extreme_amounts
    (FraudDetector.init_rows 0 Samples.scenario_A)
  = FraudDetector.init_rows 0 Samples.scenario_A
  /\ FraudDetector.detect_fraud FraudDetector.default_settings Samples.scenario_A
     = detect_fraud_without_extreme FraudDetector.default_settings
         Samples.scenario_A.
Proof.
  pose proof (zero_variance_skips_extreme_amount FraudDetector.default_settings
                Samples.scenario_A 50) as H.
  cbv zeta in H.
  assert (Hall : Forall (fun t => amount t == 50) Samples.scenario_A).
  { repeat constructor. }
  destruct (H Hall) as (_ & H2 & _ & H4 & _).
  split; [exact H2 | exact H4].
Defined.

(** ** Two transactions thirty seconds apart *)

Lemma tx_fresh_row (i : nat) (t : Transaction) :
  tx (FraudDetector.fresh_row i t) = t.
Proof. reflexivity. Qed.

Lemma users_pair (a b : Transaction) :
  user_id a = "U1" -> user_id b = "U1" ->
  FraudDetector.users
    [FraudDetector.fresh_row 0 a; FraudDetector.fresh_row 1 b] = ["U1"].
Proof.
  intros Ha Hb. unfold FraudDetector.users. cbn [map].
  rewrite !tx_fresh_row, Ha, Hb. reflexivity.
Qed.

(** The rows of the user in time order, for both orders of the table. *)
Lemma user_rows_in_order (earlier later : Transaction) :
  user_id earlier = "U1" -> user_id later = "U1" ->
  (timestamp later = timestamp earlier + 30)%Z ->
  FraudDetector.user_rows
    (sort_values_timestamp
       [FraudDetector.fresh_row 0 earlier; FraudDetector.fresh_row 1 later])
    "U1"
  = [FraudDetector.fresh_row 0 earlier; FraudDetector.fresh_row 1 later]
  /\ FraudDetector.user_rows
       (sort_values_timestamp
          [FraudDetector.fresh_row 0 later; FraudDetector.fresh_row 1 earlier])
       "U1"
     = [FraudDetector.fresh_row 1 earlier; FraudDetector.fresh_row 0 later].
Proof.
  intros He Hl Ht. unfold sort_values_timestamp.
  cbn [fold_right insert_by_timestamp]. rewrite !tx_fresh_row.
  assert (H1 : (timestamp earlier <? timestamp later)%Z = true)
    by (apply Z.ltb_lt; lia).
  assert (H2 : (timestamp later <? timestamp earlier)%Z = false)
    by (apply Z.ltb_ge; lia).
  rewrite H1, H2. unfold FraudDetector.user_rows. cbn [List.filter].
  rewrite !tx_fresh_row, He, Hl. split; reflexivity.
Qed.

(** Only the second row of the pair follows another one by less than a
    minute. *)
Lemma rapid_indices_pair (earlier later : Transaction) (i j : nat) :
  (timestamp later = timestamp earlier + 30)%Z ->
  FraudDetector.rapid_indices
    [FraudDetector.fresh_row i earlier; FraudDetector.fresh_row j later] = [j].
Proof.
  intros Ht. unfold FraudDetector.rapid_indices, diff. cbn [map diff_from].
  rewrite !tx_fresh_row.
  replace (timestamp later - timestamp earlier)%Z with 30%Z by lia. reflexivity.
Qed.

Ltac has_label row label :=
  lazymatch row with
  | context [label] => constr:(true)
  | _ => constr:(false)
  end.

(** Reads off a two-row result which of the hourly and daily rules fired on
    each row. *)
Ltac pick_bumps :=
  lazymatch goal with
  | |- exists b1 b2 b3 b4, Some [?x; ?y] = _ =>
      let b1 := has_label x "High hourly velocity, " in
      let b2 := has_label x "High daily amount, " in
      let b3 := has_label y "High hourly velocity, " in
      let b4 := has_label y "High daily amount, " in
      exists b1, b2, b3, b4; reflexivity
  end.

(** Runs the hourly and daily rules of [velocity_user] on the two rows of
    the user, by cases on whether they share the hour and the date and on
    the two limits. *)
Ltac velocity_cases Hmh Hmd :=
  rewrite Hmh, Hmd; cbn [mbind option_bind];
  unfold FraudDetector.excessive_hours, FraudDetector.excessive_dates,
    FraudDetector.group_keys, FraudDetector.group;
  cbn [map unique_by List.filter];
  unfold FraudDetector.hour_group, FraudDetector.date_group;
  rewrite !tx_fresh_row;
  match goal with
  | |- context [Clock.floor_hour (timestamp ?e)] =>
      match goal with
      | |- context [Clock.floor_hour (timestamp ?l)] =>
          tryif constr_eq e l then fail else
            generalize (Clock.floor_hour (timestamp e))
                       (Clock.floor_hour (timestamp l))
                       (Clock.date (timestamp e)) (Clock.date (timestamp l))
      end
  end;
  let he := fresh "he" in let hl := fresh "hl" in
  let de := fresh "de" in let dl := fresh "dl" in
  let Eh := fresh "Eh" in let Ed := fresh "Ed" in
  let Eh' := fresh "Eh'" in let Ed' := fresh "Ed'" in
  intros he hl de dl;
  destruct (he =? hl)%Z eqn:Eh, (de =? dl)%Z eqn:Ed;
  pose proof Eh as Eh'; pose proof Ed as Ed';
  rewrite Z.eqb_sym in Eh'; rewrite Z.eqb_sym in Ed';
  repeat (cbn [negb List.filter length fold_left map];
          rewrite ?Z.eqb_refl, ?Eh, ?Ed, ?Eh', ?Ed');
  repeat match goal with
         | |- context [Qgtb ?a ?b] => destruct (Qgtb a b)
         end;
  repeat (cbn [negb List.filter length fold_left map];
          rewrite ?Z.eqb_refl, ?Eh, ?Ed, ?Eh', ?Ed');
  cbn [loc_add in_labels existsb map index bump FraudDetector.fresh_row
       Nat.eqb orb];
  unfold maybe_bump;
  pick_bumps.

Lemma _check_velocity_patterns_pair settings earlier later mh md :
  user_id earlier = "U1" -> user_id later = "U1" ->
  (timestamp later = timestamp earlier + 30)%Z ->
  FraudDetector.get_num settings "max_transactions_per_hour" = Some mh ->
  FraudDetector.get_num settings "max_amount_per_day" = Some md ->
  exists hourly1 daily1 hourly2 daily2,
    FraudDetector._check_velocity_patterns settings
      (FraudDetector.init_rows 0 [earlier; later])
    = Some [maybe_bump daily1 0.15 "High daily amount, "
              (maybe_bump hourly1 0.2 "High hourly velocity, "
                 (FraudDetector.fresh_row 0 earlier));
            maybe_bump daily2 0.15 "High daily amount, "
              (maybe_bump hourly2 0.2 "High hourly velocity, "
                 (bump 0.25 "Rapid consecutive transactions, "
                    (FraudDetector.fresh_row 1 later)))].
Proof.
  intros He Hl Ht Hmh Hmd.
  unfold FraudDetector._check_velocity_patterns. cbn [FraudDetector.init_rows].
  rewrite users_pair by assumption. cbn [FraudDetector.for_each].
  unfold FraudDetector.velocity_user.
  rewrite (proj1 (user_rows_in_order earlier later He Hl Ht)).
  cbn [length Nat.ltb Nat.leb]. rewrite rapid_indices_pair by assumption.
  velocity_cases Hmh Hmd.
Qed.

Lemma _check_velocity_patterns_pair_reversed settings earlier later mh md :
  user_id earlier = "U1" -> user_id later = "U1" ->
  (timestamp later = timestamp earlier + 30)%Z ->
  FraudDetector.get_num settings "max_transactions_per_hour" = Some mh ->
  FraudDetector.get_num settings "max_amount_per_day" = Some md ->
  exists hourly1 daily1 hourly2 daily2,
    FraudDetector._check_velocity_patterns settings
      (FraudDetector.init_rows 0 [later; earlier])
    = Some [maybe_bump daily1 0.15 "High daily amount, "
              (maybe_bump hourly1 0.2 "High hourly velocity, "
                 (bump 0.25 "Rapid consecutive transactions, "
                    (FraudDetector.fresh_row 0 later)));
            maybe_bump daily2 0.15 "High daily amount, "
              (maybe_bump hourly2 0.2 "High hourly velocity, "
                 (FraudDetector.fresh_row 1 earlier))].
Proof.
  intros He Hl Ht Hmh Hmd.
  unfold FraudDetector._check_velocity_patterns. cbn [FraudDetector.init_rows].
  rewrite users_pair by assumption. cbn [FraudDetector.for_each].
  unfold FraudDetector.velocity_user.
  rewrite (proj2 (user_rows_in_order earlier later He Hl Ht)).
  cbn [length Nat.ltb Nat.leb]. rewrite rapid_indices_pair by assumption.
  velocity_cases Hmh Hmd.
Qed.

Lemma without_rapid_bump (hourly daily : bool) (i : nat) (t : Transaction) :
  let r := maybe_bump daily 0.15 "High daily amount, "
             (maybe_bump hourly 0.2 "High hourly velocity, "
                (FraudDetector.fresh_row i t)) in
  tx r = t
  /\ contains (fraud_reasons r) "Rapid consecutive transactions" = false.
Proof. destruct hourly, daily; split; reflexivity. Qed.

Lemma with_rapid_bump (hourly daily : bool) (i : nat) (t : Transaction) :
  let r := maybe_bump daily 0.15 "High daily amount, "
             (maybe_bump hourly 0.2 "High hourly velocity, "
                (bump 0.25 "Rapid consecutive transactions, "
                   (FraudDetector.fresh_row i t))) in
  tx r = t /\ gains_rapid r.
Proof.
  unfold gains_rapid.
  destruct hourly, daily; (split; [reflexivity|]);
    (split; [cbn; lra | reflexivity]).
Qed.

(** C3, as stated, fails on scenario A itself: under the default settings
    the velocity check leaves the earlier of the two transactions as it was
    and adds the contribution to the later one only. *)
Lemma velocity_scenario_A_earlier_untouched :
  FraudDetector._check_velocity_patterns FraudDetector.default_settings
    (FraudDetector.init_rows 0 Samples.scenario_A)
  = Some [FraudDetector.fresh_row 0 Samples.u1_first;
          bump 0.25 "Rapid consecutive transactions, "
            (FraudDetector.fresh_row 1 Samples.u1_second)]
  /\ ~ velocity_flags_all FraudDetector.default_settings Samples.scenario_A.
Proof.
  assert (Hrun : FraudDetector._check_velocity_patterns
                   FraudDetector.default_settings
                   (FraudDetector.init_rows 0 Samples.scenario_A)
                 = Some [FraudDetector.fresh_row 0 Samples.u1_first;
                         bump 0.25 "Rapid consecutive transactions, "
                           (FraudDetector.fresh_row 1 Samples.u1_second)])
    by (vm_compute; reflexivity).
  split; [exact Hrun|].
  intros Hall. specialize (Hall _ Hrun).
  inversion Hall as [|r rest [_ Hgain] _]; subst.
  vm_compute in Hgain. discriminate Hgain.
Qed.

(** C3, amended. For a batch of exactly two transactions of user "U1" with
    timestamps thirty seconds apart, in either order in the table, the
    velocity check adds the +0.25 "Rapid consecutive transactions"
    contribution to the later transaction and not to the earlier one. *)
Theorem rapid_rule_flags_later_only settings earlier later mh md :
  user_id earlier = "U1" -> user_id later = "U1" ->
  (timestamp later = timestamp earlier + 30)%Z ->
  FraudDetector.get_num settings "max_transactions_per_hour" = Some mh ->
  FraudDetector.get_num settings "max_amount_per_day" = Some md ->
  (exists r_earlier r_later,
      FraudDetector._check_velocity_patterns settings
        (FraudDetector.init_rows 0 [earlier; later])
      = Some [r_earlier; r_later]
      /\ tx r_earlier = earlier /\ tx r_later = later
      /\ gains_rapid r_later
      /\ contains (fraud_reasons r_earlier) "Rapid consecutive transactions"
         = false)
  /\ (exists r_later r_earlier,
         FraudDetector._check_velocity_patterns settings
           (FraudDetector.init_rows 0 [later; earlier])
         = Some [r_later; r_earlier]
         /\ tx r_earlier = earlier /\ tx r_later = later
         /\ gains_rapid r_later
         /\ contains (fraud_reasons r_earlier) "Rapid consecutive transactions"
            = false).
Proof.
  intros He Hl Ht Hmh Hmd. split.
  - destruct (_check_velocity_patterns_pair settings earlier later mh md
                He Hl Ht Hmh Hmd) as (h1 & d1 & h2 & d2 & Hrun).
    eexists _, _. split; [exact Hrun|].
    destruct (without_rapid_bump h1 d1 0 earlier) as [Htx Hno].
    destruct (with_rapid_bump h2 d2 1 later) as [Htx' Hyes].
    auto.
  - destruct (_check_velocity_patterns_pair_reversed settings earlier later
                mh md He Hl Ht Hmh Hmd) as (h1 & d1 & h2 & d2 & Hrun).
    eexists _, _. split; [exact Hrun|].
    destruct (with_rapid_bump h1 d1 0 later) as [Htx' Hyes].
    destruct (without_rapid_bump h2 d2 1 earlier) as [Htx Hno].
    auto.
Qed.

Lemma rapid_rule_flags_later_only_witness :
  exists r_earlier r_later,
    FraudDetector._check_velocity_patterns FraudDetector.default_settings
      (FraudDetector.init_rows 0 [Samples.u1_first; Samples.u1_second])
    = Some [r_earlier; r_later]
    /\ tx r_earlier = Samples.u1_first /\ tx r_later = Samples.u1_second
    /\ gains_rapid r_later
    /\ contains (fraud_reasons r_earlier) "Rapid consecutive transactions"
       = false.
Proof.
  apply (proj1 (rapid_rule_flags_later_only FraudDetector.default_settings
                  Samples.u1_first Samples.u1_second 10 50000
                  eq_refl eq_refl eq_refl
                  ltac:(vm_compute; reflexivity)
                  ltac:(vm_compute; reflexivity))).
Defined.

(** * More properties of the batch scorer *)

(** ** The rows of the result *)

Lemma init_rows_shape (i : nat) (transactions : list Transaction) :
  map tx (FraudDetector.init_rows i transactions) = transactions
  /\ map index (FraudDetector.init_rows i transactions)
     = seq i (length transactions).
Proof.
  revert i. induction transactions as [|t ts IH]; intros i; simpl.
  - split; reflexivity.
  - destruct (IH (S i)) as [H1 H2]. rewrite H1, H2. split; reflexivity.
Qed.

Lemma grows_shape (df df' : DataFrame) :
  Forall2 grows df df' ->
  map tx df' = map tx df /\ map index df' = map index df.
Proof.
  induction 1 as [|r r' df df' (Hi & Ht & _) _ [IH1 IH2]]; simpl.
  - split; reflexivity.
  - rewrite Hi, Ht, IH1, IH2. split; reflexivity.
Qed.

Lemma finalize_shape (threshold : Q) (df : DataFrame) :
  map tx (map (FraudDetector.finalize_row threshold) df) = map tx df
  /\ map index (map (FraudDetector.finalize_row threshold) df) = map index df.
Proof.
  induction df as [|r df [IH1 IH2]]; simpl.
  - split; reflexivity.
  - rewrite IH1, IH2. split; reflexivity.
Qed.



(** ** The reason trail *)

Lemma rstrip_idempotent (chars s : string) :
  rstrip chars (rstrip chars s) = rstrip chars s.
Proof.
  induction s as [|c s IH]; [reflexivity|]. simpl.
  destruct (rstrip chars s) as [|d r] eqn:E.
  - destruct (mem_ascii c chars) eqn:Ec; simpl; [reflexivity|].
    rewrite Ec. reflexivity.
  - simpl. simpl in IH. rewrite IH. reflexivity.
Qed.

(** Stripping looks at the end only. *)
Lemma rstrip_app_keep (chars s t : string) :
  rstrip chars t <> "" -> rstrip chars (s +:+ t) = s +:+ rstrip chars t.
Proof.
  intros Ht. induction s as [|c s IH]; [reflexivity|].
  rewrite !string_app_cons. simpl. rewrite IH.
  destruct (s +:+ rstrip chars t) as [|d r] eqn:E; [|reflexivity].
  destruct s; [|discriminate E]. simpl in E. contradiction.
Qed.

Lemma rstrip_separator (chars body sep : string) :
  rstrip chars sep = "" -> body <> "" -> rstrip chars body = body ->
  rstrip chars (body +:+ sep) = body.
Proof.
  intros Hsep. induction body as [|c b IH]; [contradiction|]. intros _ Hb.
  rewrite string_app_cons. cbn [rstrip] in *.
  destruct b as [|d b'].
  - change ("" +:+ sep) with sep. rewrite Hsep. exact Hb.
  - destruct (rstrip chars (String d b')) as [|e r] eqn:E.
    + destruct (mem_ascii c chars); discriminate Hb.
    + assert (Hr : String e r = String d b') by congruence.
      rewrite IH; [reflexivity | discriminate | exact Hr].
Qed.

Lemma rstrip_last (chars s : string) (c : ascii) :
  last_char (rstrip chars s) = Some c -> mem_ascii c chars = false.
Proof.
  induction s as [|d s IH]; [discriminate|]. simpl.
  destruct (rstrip chars s) as [|e r] eqn:E.
  - destruct (mem_ascii d chars) eqn:Ed; simpl; [discriminate|].
    intros [= <-]. exact Ed.
  - simpl. exact IH.
Qed.

(** What a row that went through the rules looks like. *)
Lemma fired_shape (r r' : Row) :
  fired r r' ->
  index r' = index r /\ tx r' = tx r
  /\ (r' = r
      \/ (risk_score r < risk_score r'
          /\ exists trail,
               trail <> "" /\ rstrip ", " trail = trail
               /\ fraud_reasons r' = fraud_reasons r +:+ (trail +:+ ", "))).
Proof.
  induction 1 as [r|r r' delta label _ (Hi & Ht & IH) Hd [Hne Hlabel]].
  - auto.
  - split; [exact Hi|]. split; [exact Ht|]. right. simpl.
    assert (Hbody : rstrip ", " (rstrip ", " label) = rstrip ", " label)
      by apply rstrip_idempotent.
    destruct IH as [-> | (Hlt & trail & Hne' & Htrail & Hreasons)].
    + split; [lra|]. exists (rstrip ", " label).
      split; [exact Hne|]. split; [exact Hbody|]. rewrite <- Hlabel. reflexivity.
    + split; [lra|]. exists ((trail +:+ ", ") +:+ rstrip ", " label).
      split; [destruct trail; [contradiction | discriminate]|].
      split; [rewrite rstrip_app_keep, Hbody by (rewrite Hbody; exact Hne);
              reflexivity|].
      rewrite Hreasons, Hlabel at 1. rewrite !string_app_assoc. reflexivity.
Qed.

Lemma fired_trans (a b c : Row) : fired a b -> fired b c -> fired a c.
Proof.
  intros Hab Hbc. induction Hbc as [|b c delta label _ IH Hd Hl]; [exact Hab|].
  apply fired_bump; auto.
Qed.

Lemma Forall2_fired_refl (df : DataFrame) : Forall2 fired df df.
Proof. induction df; constructor; auto using fired_none. Qed.

Lemma Forall2_fired_trans (a b c : DataFrame) :
  Forall2 fired a b -> Forall2 fired b c -> Forall2 fired a c.
Proof.
  intros Hab. revert c. induction Hab; intros c Hbc; inversion Hbc; subst;
    constructor; eauto using fired_trans.
Qed.

Lemma loc_add_fired (mask : Row -> bool) (delta : Q) (label : string)
    (df : DataFrame) :
  0 < delta -> rule_label label ->
  Forall2 fired df (loc_add mask delta label df).
Proof.
  intros Hd Hl. unfold loc_add.
  induction df as [|r df IH]; simpl; constructor; auto.
  destruct (mask r); [apply fired_bump; auto|]; apply fired_none.
Qed.

Lemma fold_left_fired {A : Type} (step : DataFrame -> A -> DataFrame)
    (l : list A) (df : DataFrame) :
  (forall d x, Forall2 fired d (step d x)) ->
  Forall2 fired df (fold_left step l df).
Proof.
  intros Hstep. revert df. induction l as [|x l IH]; intros df; simpl.
  - apply Forall2_fired_refl.
  - eapply Forall2_fired_trans; [apply Hstep | apply IH].
Qed.

Lemma for_each_fired {A : Type} (body : DataFrame -> A -> option DataFrame)
    (l : list A) (df out : DataFrame) :
  (forall d x d', body d x = Some d' -> Forall2 fired d d') ->
  FraudDetector.for_each body l df = Some out -> Forall2 fired df out.
Proof.
  intros Hbody. revert df. induction l as [|x l IH]; intros df; simpl.
  - intros H. apply (inj Some) in H. subst. apply Forall2_fired_refl.
  - intros H. apply bind_Some in H as (d' & E & H).
    eapply Forall2_fired_trans; eauto.
Qed.

(** Closes the goals [0 < delta] and [rule_label label] of a rule with a
    given weight and label. *)
Ltac rule_fires :=
  apply loc_add_fired;
  [reflexivity | split; [vm_compute; discriminate | reflexivity]].

Lemma _check_amount_anomalies_fired settings df out :
  FraudDetector._check_amount_anomalies settings df = Some out ->
  Forall2 fired df out.
Proof.
  unfold FraudDetector._check_amount_anomalies. intros E.
  apply bind_Some in E as (u & _ & E).
  apply bind_Some in E as (m & _ & E).
  apply (inj Some) in E. subst out.
  unfold FraudDetector.flag_round_amounts, FraudDetector.flag_micro_amounts,
    FraudDetector.flag_large_amounts, FraudDetector.flag_extreme_amounts.
  repeat (eapply Forall2_fired_trans; [|rule_fires]).
  apply Forall2_fired_refl.
Qed.

Lemma _check_time_patterns_fired settings df out :
  FraudDetector._check_time_patterns settings df = Some out ->
  Forall2 fired df out.
Proof.
  unfold FraudDetector._check_time_patterns. intros E.
  apply bind_Some in E as (hs & _ & E).
  apply bind_Some in E as (he & _ & E).
  apply (inj Some) in E. subst out.
  repeat (eapply Forall2_fired_trans; [|rule_fires]).
  apply Forall2_fired_refl.
Qed.

Lemma _check_velocity_patterns_fired settings df out :
  FraudDetector._check_velocity_patterns settings df = Some out ->
  Forall2 fired df out.
Proof.
  unfold FraudDetector._check_velocity_patterns. intros E.
  eapply for_each_fired; [|exact E].
  intros d x d'. unfold FraudDetector.velocity_user.
  destruct (1 <? length _)%nat;
    [|intros H; apply (inj Some) in H; subst; apply Forall2_fired_refl].
  intros H. apply bind_Some in H as (mh & _ & H).
  apply bind_Some in H as (md & _ & H). apply (inj Some) in H. subst d'.
  eapply Forall2_fired_trans;
    [|apply fold_left_fired; intros; rule_fires].
  eapply Forall2_fired_trans;
    [|apply fold_left_fired; intros; rule_fires].
  rule_fires.
Qed.

Lemma _check_location_patterns_fired df :
  Forall2 fired df (FraudDetector._check_location_patterns df).
Proof.
  unfold FraudDetector._check_location_patterns.
  eapply Forall2_fired_trans; [|apply fold_left_fired].
  - apply fold_left_fired. intros d x. unfold FraudDetector.location_user.
    destruct (1 <? length _)%nat; [rule_fires | apply Forall2_fired_refl].
  - intros d x. unfold FraudDetector.flag_high_risk_location. rule_fires.
Qed.

Lemma _check_merchant_patterns_fired df :
  Forall2 fired df (FraudDetector._check_merchant_patterns df).
Proof.
  unfold FraudDetector._check_merchant_patterns.
  unfold FraudDetector.high_risk_categories, FraudDetector.suspicious_keywords.
  cbn [fold_left]. unfold FraudDetector.flag_high_risk_category,
    FraudDetector.flag_suspicious_merchant.
  repeat (eapply Forall2_fired_trans; [|rule_fires]).
  apply Forall2_fired_refl.
Qed.

Lemma detect_fraud_fired settings transactions out :
  FraudDetector.detect_fraud settings transactions = Some out ->
  exists threshold df,
    FraudDetector.get_num settings "high_risk_threshold" = Some threshold
    /\ Forall2 fired (FraudDetector.init_rows 0 transactions) df
    /\ out = map (FraudDetector.finalize_row threshold) df.
Proof.
  unfold FraudDetector.detect_fraud. intros H.
  apply bind_Some in H as (d1 & E1 & H).
  apply bind_Some in H as (d2 & E2 & H).
  apply bind_Some in H as (d3 & E3 & H).
  unfold FraudDetector._calculate_final_score in H.
  apply bind_Some in H as (th & Hth & H).
  apply (inj Some) in H. subst out.
  exists th. eexists. split; [exact Hth|]. split; [|reflexivity].
  apply (Forall2_fired_trans _ d1); [eauto using _check_amount_anomalies_fired|].
  apply (Forall2_fired_trans _ d2); [eauto using _check_time_patterns_fired|].
  apply (Forall2_fired_trans _ d3); [eauto using _check_velocity_patterns_fired|].
  eapply Forall2_fired_trans;
    [apply _check_location_patterns_fired | apply _check_merchant_patterns_fired].
Qed.

Lemma init_rows_fresh (i : nat) (transactions : list Transaction) :
  Forall (fun r => risk_score r == 0 /\ fraud_reasons r = "")
    (FraudDetector.init_rows i transactions).
Proof.
  revert i. induction transactions as [|t ts IH]; intros i; simpl;
    constructor; auto.
  simpl. split; reflexivity.
Qed.

Lemma finalize_fired (threshold : Q) (r r' : Row) :
  risk_score r == 0 -> fraud_reasons r = "" -> fired r r' ->
  let final := FraudDetector.finalize_row threshold r' in
  (fraud_reasons final = "" <-> risk_score final == 0)
  /\ 0 <= risk_score final <= 1
  /\ is_fraud final = Qgeb (risk_score final) threshold.
Proof.
  intros Hs Hr Hf. apply fired_shape in Hf as (_ & _ & Hf). simpl.
  destruct Hf as [-> | (Hlt & trail & Hne & Htrail & Hreasons)].
  - rewrite Hr. split; [|split; [apply Qmin_unit; lra | reflexivity]].
    split; [intros _|reflexivity].
    unfold Qmin.
    assert (E : Qle_bool (risk_score r) 1 = true) by (apply Qle_bool_iff; lra).
    rewrite E. exact Hs.
  - rewrite Hreasons, Hr. change ("" +:+ (trail +:+ ", ")) with (trail +:+ ", ").
    rewrite rstrip_separator by (reflexivity || assumption).
    split; [|split; [apply Qmin_unit; lra | reflexivity]].
    split; [contradiction|]. intros H. exfalso.
    unfold Qmin in H. destruct (Qle_bool (risk_score r') 1); lra.
Qed.

Lemma detect_fraud_rows settings transactions out :
  FraudDetector.detect_fraud settings transactions = Some out ->
  exists threshold,
    FraudDetector.get_num settings "high_risk_threshold" = Some threshold
    /\ Forall (fun r => (fraud_reasons r = "" <-> risk_score r == 0)
                        /\ 0 <= risk_score r <= 1
                        /\ is_fraud r = Qgeb (risk_score r) threshold
                        /\ forall c, last_char (fraud_reasons r) = Some c ->
                                     mem_ascii c ", " = false) out.
Proof.
  intros H. apply detect_fraud_fired in H as (th & df & Hth & Hf & ->).
  exists th. split; [exact Hth|].
  assert (Hfresh := init_rows_fresh 0 transactions).
  induction Hf as [|r r' l l' Hr _ IH]; simpl; constructor.
  - inversion Hfresh as [|? ? [Hs Hreasons] _]; subst.
    destruct (finalize_fired th r r' Hs Hreasons Hr) as (H1 & H2 & H3).
    split; [exact H1|]. split; [exact H2|]. split; [exact H3|].
    intros c. simpl. apply rstrip_last.
  - apply IH. inversion Hfresh; assumption.
Qed.

(** X2. In the result of the batch scorer a row has an empty reason text
    exactly when its score is zero, and a reason text never ends in a comma
    or a space. *)
Theorem reasons_match_score settings transactions out :
  FraudDetector.detect_fraud settings transactions = Some out ->
  Forall (fun r => (fraud_reasons r = "" <-> risk_score r == 0)
                   /\ forall c, last_char (fraud_reasons r) = Some c ->
                                c <> ","%char /\ c <> " "%char) out.
Proof.
  intros H. apply detect_fraud_rows in H as (th & _ & H).
  eapply Forall_impl; [exact H|]. simpl.
  intros r (H1 & _ & _ & H2). split; [exact H1|].
  intros c Hc. apply H2 in Hc. split; intros ->; discriminate Hc.
Qed.

Lemma reasons_match_score_witness :
  exists out,
    FraudDetector.detect_fraud FraudDetector.default_settings Samples.scenario_A
    = Some out
    /\ Forall (fun r => (fraud_reasons r = "" <-> risk_score r == 0)
                        /\ forall c, last_char (fraud_reasons r) = Some c ->
                                     c <> ","%char /\ c <> " "%char) out.
Proof.
  destruct (FraudDetector.detect_fraud FraudDetector.default_settings
              Samples.scenario_A) as [out|] eqn:E; [|vm_compute in E; discriminate E].
  exists out. split; [reflexivity|].
  exact (reasons_match_score _ _ _ E).
Defined.

(** X3. With a positive [high_risk_threshold] every row that the batch scorer
    flags as fraud carries at least one reason; with a threshold of zero or
    less every row is flagged, whatever its reasons. *)
Theorem flagged_rows_have_reasons settings transactions out threshold :
  FraudDetector.detect_fraud settings transactions = Some out ->
  FraudDetector.get_num settings "high_risk_threshold" = Some threshold ->
  (0 < threshold ->
   Forall (fun r => is_fraud r = true -> fraud_reasons r <> "") out)
  /\ (threshold <= 0 -> Forall (fun r => is_fraud r = true) out).
Proof.
  intros H Hth. apply detect_fraud_rows in H as (th & Hth' & H).
  rewrite Hth in Hth'. apply (inj Some) in Hth'. subst th.
  split; intros Hpos; (eapply Forall_impl; [exact H|]); simpl;
    intros r (H1 & H2 & H3 & _).
  - rewrite H3. intros Hf%Qgeb_ge Hr%H1. lra.
  - rewrite H3. apply Qgeb_ge. lra.
Qed.

Lemma flagged_rows_have_reasons_witness :
  exists out,
    FraudDetector.detect_fraud FraudDetector.default_settings Samples.scenario_A
    = Some out
    /\ Forall (fun r => is_fraud r = true -> fraud_reasons r <> "") out.
Proof.
  destruct (FraudDetector.detect_fraud FraudDetector.default_settings
              Samples.scenario_A) as [out|] eqn:E; [|vm_compute in E; discriminate E].
  exists out. split; [reflexivity|].
  apply (flagged_rows_have_reasons _ _ _ (7 # 10) E); reflexivity.
Defined.

(** ** What the scorer reads of the settings *)

Lemma detect_fraud_apply_rules settings transactions :
  FraudDetector.detect_fraud settings transactions
  = (df ← apply_rules settings transactions;
     FraudDetector._calculate_final_score settings df).
Proof.
  unfold FraudDetector.detect_fraud, apply_rules. cbv zeta.
  destruct (FraudDetector._check_amount_anomalies _ _) as [d1|]; [|reflexivity].
  rewrite !option_bind_Some.
  destruct (FraudDetector._check_time_patterns _ _) as [d2|]; [|reflexivity].
  rewrite !option_bind_Some.
  destruct (FraudDetector._check_velocity_patterns _ _) as [d3|]; [|reflexivity].
  rewrite !option_bind_Some. reflexivity.
Qed.

Lemma for_each_ext {A S : Type} (f g : S -> A -> option S) (l : list A) (s : S) :
  (forall s x, In x l -> f s x = g s x) ->
  FraudDetector.for_each f l s = FraudDetector.for_each g l s.
Proof.
  revert s. induction l as [|x l IH]; intros s H; [reflexivity|].
  cbn [FraudDetector.for_each]. rewrite H by (left; reflexivity).
  destruct (g s x) as [s'|]; [|reflexivity].
  rewrite !option_bind_Some. apply IH. intros. apply H. right. assumption.
Qed.

Lemma apply_rules_same_on s1 s2 transactions :
  same_on rule_keys s1 s2 ->
  apply_rules s1 transactions = apply_rules s2 transactions.
Proof.
  intros H. unfold apply_rules, FraudDetector._check_amount_anomalies,
    FraudDetector._check_time_patterns, FraudDetector._check_velocity_patterns.
  cbv zeta.
  rewrite (proj1 (H "unusual_amount_threshold" ltac:(simpl; tauto))).
  rewrite (proj1 (H "micro_transaction_threshold" ltac:(simpl; tauto))).
  rewrite (proj2 (H "off_hours_start" ltac:(simpl; tauto))).
  rewrite (proj2 (H "off_hours_end" ltac:(simpl; tauto))).
  assert (Hv : forall sorted d u,
             FraudDetector.velocity_user s1 sorted d u
             = FraudDetector.velocity_user s2 sorted d u).
  { intros. unfold FraudDetector.velocity_user. cbv zeta.
    rewrite (proj1 (H "max_transactions_per_hour" ltac:(simpl; tauto))).
    rewrite (proj1 (H "max_amount_per_day" ltac:(simpl; tauto))).
    reflexivity. }
  destruct (FraudDetector.get_num s2 "unusual_amount_threshold"); [|reflexivity].
  rewrite !option_bind_Some.
  destruct (FraudDetector.get_num s2 "micro_transaction_threshold"); [|reflexivity].
  rewrite !option_bind_Some.
  destruct (FraudDetector.get_hour s2 "off_hours_start"); [|reflexivity].
  rewrite !option_bind_Some.
  destruct (FraudDetector.get_hour s2 "off_hours_end"); [|reflexivity].
  rewrite !option_bind_Some.
  erewrite for_each_ext; [reflexivity|]. intros. apply Hv.
Qed.

Lemma detect_fraud_same_reads s1 s2 transactions :
  same_reads s1 s2 ->
  FraudDetector.detect_fraud s1 transactions
  = FraudDetector.detect_fraud s2 transactions.
Proof.
  intros H. rewrite !detect_fraud_apply_rules.
  rewrite (apply_rules_same_on s1 s2)
    by (intros k Hk; apply H; right; exact Hk).
  unfold FraudDetector._calculate_final_score.
  rewrite (proj1 (H "high_risk_threshold" ltac:(left; reflexivity))).
  reflexivity.
Qed.

Lemma get_num_insert_ne settings key key' v :
  key <> key' ->
  FraudDetector.get_num (<[key := v]> settings) key'
  = FraudDetector.get_num settings key'.
Proof.
  intros H. unfold FraudDetector.get_num. rewrite lookup_insert_ne by exact H.
  reflexivity.
Qed.

Lemma get_hour_insert_ne settings key key' v :
  key <> key' ->
  FraudDetector.get_hour (<[key := v]> settings) key'
  = FraudDetector.get_hour settings key'.
Proof.
  intros H. unfold FraudDetector.get_hour. rewrite lookup_insert_ne by exact H.
  reflexivity.
Qed.

Lemma same_on_insert keys settings key v :
  ~ In key keys -> same_on keys (<[key := v]> settings) settings.
Proof.
  intros Hk k Hin. assert (key <> k) by (intros ->; contradiction).
  split; [apply get_num_insert_ne | apply get_hour_insert_ne]; assumption.
Qed.

(** X4. A setting that is not one of the seven keys above is never looked
    up: writing it, whatever the value, leaves the result of the batch scorer
    as it was.  [medium_risk_threshold] is such a key. *)
Theorem unread_setting_changes_nothing settings key value transactions :
  ~ In key read_keys ->
  FraudDetector.detect_fraud
    (FraudDetector.update_settings settings {[key := value]}) transactions
  = FraudDetector.detect_fraud settings transactions.
Proof.
  intros Hk. apply detect_fraud_same_reads.
  unfold FraudDetector.update_settings. rewrite <- insert_union_singleton_l.
  apply same_on_insert. exact Hk.
Qed.

Lemma unread_setting_changes_nothing_witness :
  FraudDetector.detect_fraud
    (FraudDetector.update_settings FraudDetector.default_settings
       {["medium_risk_threshold" := VNum 0.9]}) Samples.scenario_A
  = FraudDetector.detect_fraud FraudDetector.default_settings Samples.scenario_A.
Proof.
  apply unread_setting_changes_nothing.
  unfold read_keys, rule_keys. simpl. intros H.
  repeat (destruct H as [H|H]; [discriminate H|]). exact H.
Defined.

Lemma update_settings_singleton settings key v :
  FraudDetector.update_settings settings {[key := v]} = <[key := v]> settings.
Proof.
  unfold FraudDetector.update_settings. symmetry. apply insert_union_singleton_l.
Qed.

Lemma get_num_insert settings key v :
  FraudDetector.get_num (<[key := v]> settings) key
  = match v with VNum q => Some q | _ => None end.
Proof. unfold FraudDetector.get_num. rewrite lookup_insert_eq. reflexivity. Qed.

Lemma get_hour_insert settings key v :
  FraudDetector.get_hour (<[key := v]> settings) key
  = match v with VTime h _ => Some h | _ => None end.
Proof. unfold FraudDetector.get_hour. rewrite lookup_insert_eq. reflexivity. Qed.

(** X5. Of a time of day in the settings the batch scorer uses the hour
    only: two settings that differ in the minutes of a time give the same
    result. *)
Theorem minutes_of_times_ignored settings key h m m' transactions :
  FraudDetector.detect_fraud
    (FraudDetector.update_settings settings {[key := VTime h m]}) transactions
  = FraudDetector.detect_fraud
      (FraudDetector.update_settings settings {[key := VTime h m']}) transactions.
Proof.
  apply detect_fraud_same_reads. rewrite !update_settings_singleton.
  intros k _. destruct (decide (key = k)) as [->|Hne].
  - rewrite !get_num_insert, !get_hour_insert. split; reflexivity.
  - rewrite !get_num_insert_ne, !get_hour_insert_ne by exact Hne.
    split; reflexivity.
Qed.

Lemma finalize_thresholds (t1 t2 : Q) (df : DataFrame) :
  t1 <= t2 ->
  Forall2 (fun r1 r2 => same_scores r1 r2
                        /\ (is_fraud r2 = true -> is_fraud r1 = true))
    (map (FraudDetector.finalize_row t1) df)
    (map (FraudDetector.finalize_row t2) df).
Proof.
  intros Ht. induction df as [|r df IH]; simpl; constructor; [|exact IH].
  split; [repeat split|]. simpl. rewrite !Qgeb_ge. lra.
Qed.

(** X6. [high_risk_threshold] decides the fraud flags and nothing else: under
    two thresholds the rows, scores and reasons are the same, and every row
    flagged under the higher threshold is flagged under the lower one. *)
Theorem threshold_changes_flags_only settings t1 t2 transactions out1 out2 :
  FraudDetector.detect_fraud
    (FraudDetector.update_settings settings
       {["high_risk_threshold" := VNum t1]}) transactions = Some out1 ->
  FraudDetector.detect_fraud
    (FraudDetector.update_settings settings
       {["high_risk_threshold" := VNum t2]}) transactions = Some out2 ->
  t1 <= t2 ->
  Forall2 (fun r1 r2 => same_scores r1 r2
                        /\ (is_fraud r2 = true -> is_fraud r1 = true))
    out1 out2.
Proof.
  rewrite !update_settings_singleton, !detect_fraud_apply_rules.
  assert (Hk : ~ In "high_risk_threshold" rule_keys).
  { unfold rule_keys. simpl. intros H.
    repeat (destruct H as [H|H]; [discriminate H|]). exact H. }
  rewrite !(apply_rules_same_on (<[_ := _]> settings) settings)
    by (apply same_on_insert; exact Hk).
  destruct (apply_rules settings transactions) as [df|]; [|discriminate].
  rewrite !option_bind_Some. unfold FraudDetector._calculate_final_score.
  rewrite !get_num_insert, !option_bind_Some.
  intros H1 H2 Ht. apply (inj Some) in H1, H2. subst.
  apply finalize_thresholds. exact Ht.
Qed.

Lemma threshold_changes_flags_only_witness :
  exists out1 out2,
    FraudDetector.detect_fraud
      (FraudDetector.update_settings FraudDetector.default_settings
         {["high_risk_threshold" := VNum 0.2]}) Samples.scenario_A = Some out1
    /\ FraudDetector.detect_fraud
         (FraudDetector.update_settings FraudDetector.default_settings
            {["high_risk_threshold" := VNum 0.9]}) Samples.scenario_A = Some out2
    /\ Forall2 (fun r1 r2 => same_scores r1 r2
                             /\ (is_fraud r2 = true -> is_fraud r1 = true))
         out1 out2.
Proof.
  destruct (FraudDetector.detect_fraud
              (FraudDetector.update_settings FraudDetector.default_settings
                 {["high_risk_threshold" := VNum 0.2]}) Samples.scenario_A)
    as [out1|] eqn:E1; [|vm_compute in E1; discriminate E1].
  destruct (FraudDetector.detect_fraud
              (FraudDetector.update_settings FraudDetector.default_settings
                 {["high_risk_threshold" := VNum 0.9]}) Samples.scenario_A)
    as [out2|] eqn:E2; [|vm_compute in E2; discriminate E2].
  exists out1, out2. split; [reflexivity|]. split; [reflexivity|].
  apply (threshold_changes_flags_only _ _ _ _ _ _ E1 E2). lra.
Defined.

(** X7. Two updates in a row are one update with the two dictionaries
    merged, the later one winning; repeating an update and updating with an
    empty dictionary change nothing. *)
Theorem update_settings_composes (a b : gmap string SettingValue)
    (st : FraudDetector.Store) :
  FraudDetector.call_update_settings b (FraudDetector.call_update_settings a st)
  = FraudDetector.call_update_settings (FraudDetector.update_settings a b) st
  /\ FraudDetector.call_update_settings a (FraudDetector.call_update_settings a st)
     = FraudDetector.call_update_settings a st
  /\ FraudDetector.call_update_settings ∅ st = st.
Proof.
  unfold FraudDetector.call_update_settings, FraudDetector.update_settings.
  destruct st as [s t]. simpl. repeat split; f_equal.
  - apply (assoc_L (∪)).
  - rewrite (assoc_L (∪)), (idemp_L (∪)). reflexivity.
  - apply (left_id_L ∅ (∪)).
Qed.

(** X8. Without one of the five keys that every call looks up the batch
    scorer raises, whatever the table, the empty one included. *)
Theorem missing_setting_raises settings key transactions :
  In key ["unusual_amount_threshold"; "micro_transaction_threshold";
          "off_hours_start"; "off_hours_end"; "high_risk_threshold"] ->
  settings !! key = None ->
  FraudDetector.detect_fraud settings transactions = None.
Proof.
  intros Hk Hmiss.
  assert (Hn : FraudDetector.get_num settings key = None)
    by (unfold FraudDetector.get_num; rewrite Hmiss; reflexivity).
  assert (Hh : FraudDetector.get_hour settings key = None)
    by (unfold FraudDetector.get_hour; rewrite Hmiss; reflexivity).
  destruct (FraudDetector.detect_fraud settings transactions) as [out|] eqn:E;
    [|reflexivity].
  exfalso. unfold FraudDetector.detect_fraud in E.
  apply bind_Some in E as (d1 & E1 & E).
  apply bind_Some in E as (d2 & E2 & E).
  apply bind_Some in E as (d3 & E3 & E).
  unfold FraudDetector._calculate_final_score in E.
  apply bind_Some in E as (th & Hth & _).
  unfold FraudDetector._check_amount_anomalies in E1.
  apply bind_Some in E1 as (u & Hu & E1).
  apply bind_Some in E1 as (mi & Hmi & _).
  unfold FraudDetector._check_time_patterns in E2.
  apply bind_Some in E2 as (hs & Hhs & E2).
  apply bind_Some in E2 as (he & Hhe & _).
  simpl in Hk.
  destruct Hk as [<-|[<-|[<-|[<-|[<-|[]]]]]]; congruence.
Qed.

Lemma missing_setting_raises_witness :
  FraudDetector.detect_fraud
    (delete "off_hours_end" FraudDetector.default_settings) Samples.scenario_A
  = None.
Proof.
  apply (missing_setting_raises _ "off_hours_end").
  - simpl. tauto.
  - apply lookup_delete_eq.
Defined.

(** ** The velocity limits are read on demand *)

Lemma length_filter_insert (f : Row -> bool) (r : Row) (l : list Row) :
  length (List.filter f (insert_by_timestamp r l))
  = length (List.filter f (r :: l)).
Proof.
  induction l as [|r' l IH]; [reflexivity|].
  cbn [insert_by_timestamp].
  destruct (timestamp (tx r) <? timestamp (tx r'))%Z; [reflexivity|].
  cbn [List.filter] in *. destruct (f r'), (f r); cbn [length] in *; lia.
Qed.

Lemma length_filter_sort (f : Row -> bool) (df : DataFrame) :
  length (List.filter f (sort_values_timestamp df)) = length (List.filter f df).
Proof.
  unfold sort_values_timestamp. induction df as [|r df IH]; [reflexivity|].
  cbn [fold_right]. rewrite length_filter_insert. cbn [List.filter].
  destruct (f r); cbn [length]; lia.
Qed.

Lemma in_unique_by (u : string) (l : list string) :
  In u (unique_by String.eqb l) <-> In u l.
Proof.
  induction l as [|x l IH]; [reflexivity|].
  cbn [unique_by]. split.
  - intros [->|H]; [left; reflexivity|].
    apply List.filter_In in H as [H _]. right. apply IH. exact H.
  - intros [->|H]; [left; reflexivity|].
    destruct (String.eqb x u) eqn:E.
    + apply String.eqb_eq in E. left. exact E.
    + right. apply List.filter_In. split; [apply IH; exact H|].
      rewrite E. reflexivity.
Qed.

(** The number of rows of a user. *)
Lemma user_rows_length (df : DataFrame) (user : string) :
  length (FraudDetector.user_rows (sort_values_timestamp df) user)
  = length (List.filter (fun t => String.eqb (user_id t) user) (map tx df)).
Proof.
  unfold FraudDetector.user_rows. rewrite length_filter_sort.
  induction df as [|r df IH]; [reflexivity|].
  cbn [map List.filter]. destruct (String.eqb (user_id (tx r)) user);
    cbn [length]; lia.
Qed.

Lemma users_map_tx (df : DataFrame) :
  FraudDetector.users df = unique_by String.eqb (map user_id (map tx df)).
Proof. unfold FraudDetector.users. rewrite List.map_map. reflexivity. Qed.

Lemma count_absent (u : string) (l : list Transaction) :
  ~ In u (map user_id l) ->
  List.filter (fun t => String.eqb (user_id t) u) l = [].
Proof.
  induction l as [|t l IH]; [reflexivity|]. cbn [map List.filter]. intros H.
  destruct (String.eqb (user_id t) u) eqn:E.
  - apply String.eqb_eq in E. exfalso. apply H. left. exact E.
  - apply IH. intros Hin. apply H. right. exact Hin.
Qed.

Lemma count_present (u : string) (l : list Transaction) :
  In u (map user_id l) ->
  (1 <= length (List.filter (fun t => String.eqb (user_id t) u) l))%nat.
Proof.
  induction l as [|t l IH]; [contradiction|]. cbn [map List.filter].
  intros [H|H].
  - rewrite H, String.eqb_refl. cbn [length]. lia.
  - destruct (String.eqb (user_id t) u); cbn [length]; [lia | auto].
Qed.

Lemma NoDup_count (l : list Transaction) :
  List.NoDup (map user_id l) <->
  forall u, (length (List.filter (fun t => String.eqb (user_id t) u) l) <= 1)%nat.
Proof.
  induction l as [|t l IH]; cbn [map].
  - split; [intros _ u; simpl; lia | intros _; apply List.NoDup_nil].
  - split.
    + intros H u. inversion H as [|? ? Hnotin Hnodup]; subst.
      cbn [List.filter]. destruct (String.eqb (user_id t) u) eqn:E.
      * apply String.eqb_eq in E. subst u.
        rewrite count_absent by exact Hnotin. simpl. lia.
      * apply IH. exact Hnodup.
    + intros H. apply List.NoDup_cons.
      * intros Hin. apply count_present in Hin.
        specialize (H (user_id t)). cbn [List.filter] in H.
        rewrite String.eqb_refl in H. cbn [length] in H. lia.
      * apply IH. intros u. specialize (H u). cbn [List.filter] in H.
        destruct (String.eqb (user_id t) u); cbn [length] in H; lia.
Qed.

Lemma repeated_user (l : list Transaction) :
  ~ List.NoDup (map user_id l) ->
  exists u, In u (map user_id l)
            /\ (1 < length (List.filter (fun t => String.eqb (user_id t) u) l))%nat.
Proof.
  intros H.
  destruct (existsb
              (fun u => (1 <? length (List.filter
                                        (fun t => String.eqb (user_id t) u) l))%nat)
              (map user_id l)) eqn:E.
  - apply existsb_exists in E as (u & Hin & Hu). exists u.
    split; [exact Hin|]. apply Nat.ltb_lt. exact Hu.
  - exfalso. apply H. apply NoDup_count. intros u.
    destruct (in_dec String.string_dec u (map user_id l)) as [Hin|Hout].
    + destruct (1 <? length (List.filter (fun t => String.eqb (user_id t) u) l))%nat
        eqn:E'.
      * assert (E2 : existsb
              (fun u => (1 <? length (List.filter
                                        (fun t => String.eqb (user_id t) u) l))%nat)
              (map user_id l) = true)
          by (apply existsb_exists; exists u; split; assumption).
        congruence.
      * apply Nat.ltb_ge in E'. exact E'.
    + rewrite count_absent by exact Hout. simpl. lia.
Qed.

Lemma for_each_reaches {A S : Type} (body : S -> A -> option S) (l : list A)
    (s out : S) (x : A) :
  FraudDetector.for_each body l s = Some out -> In x l ->
  exists s0 s1, body s0 x = Some s1.
Proof.
  revert s. induction l as [|y l IH]; intros s; [contradiction|].
  cbn [FraudDetector.for_each]. intros H Hin.
  apply bind_Some in H as (s' & Hs' & H).
  destruct Hin as [->|Hin]; [eauto | eapply IH; eauto].
Qed.

Lemma rules_keep_transactions settings transactions d1 d2 :
  FraudDetector._check_amount_anomalies settings
    (FraudDetector.init_rows 0 transactions) = Some d1 ->
  FraudDetector._check_time_patterns settings d1 = Some d2 ->
  map tx d2 = transactions.
Proof.
  intros E1 E2.
  apply _check_amount_anomalies_grows, grows_shape in E1 as [E1 _].
  apply _check_time_patterns_grows, grows_shape in E2 as [E2 _].
  rewrite E2, E1. apply init_rows_shape.
Qed.

(** X9. When no user has more than one transaction in the table, the
    velocity check looks up neither of its limits: settings that agree on the
    other five keys give the same result, also when the limits are missing. *)
Theorem velocity_limits_unread_for_distinct_users s1 s2 transactions :
  List.NoDup (map user_id transactions) ->
  same_on always_read_keys s1 s2 ->
  FraudDetector.detect_fraud s1 transactions
  = FraudDetector.detect_fraud s2 transactions.
Proof.
  intros Hnodup H.
  unfold FraudDetector.detect_fraud. cbv zeta.
  unfold FraudDetector._check_amount_anomalies.
  unfold FraudDetector._check_time_patterns, FraudDetector._calculate_final_score.
  cbv zeta.
  rewrite (proj1 (H "unusual_amount_threshold" ltac:(simpl; tauto))).
  rewrite (proj1 (H "micro_transaction_threshold" ltac:(simpl; tauto))).
  rewrite (proj2 (H "off_hours_start" ltac:(simpl; tauto))).
  rewrite (proj2 (H "off_hours_end" ltac:(simpl; tauto))).
  rewrite (proj1 (H "high_risk_threshold" ltac:(simpl; tauto))).
  destruct (FraudDetector.get_num s2 "unusual_amount_threshold") as [u|] eqn:Eu;
    [|reflexivity].
  rewrite !option_bind_Some.
  destruct (FraudDetector.get_num s2 "micro_transaction_threshold") as [mi|] eqn:Em;
    [|reflexivity].
  rewrite !option_bind_Some.
  destruct (FraudDetector.get_hour s2 "off_hours_start") as [hs|] eqn:Ehs;
    [|reflexivity].
  rewrite !option_bind_Some.
  destruct (FraudDetector.get_hour s2 "off_hours_end") as [he|] eqn:Ehe;
    [|reflexivity].
  rewrite !option_bind_Some.
  match goal with
  | |- context [FraudDetector._check_velocity_patterns s1 ?d] =>
      set (d2 := d)
  end.
  assert (Htx : map tx d2 = transactions).
  { apply (rules_keep_transactions s2 transactions
             (FraudDetector.flag_round_amounts
                (FraudDetector.flag_micro_amounts mi
                   (FraudDetector.flag_large_amounts u
                      (FraudDetector.flag_extreme_amounts
                         (FraudDetector.init_rows 0 transactions)))))).
    - unfold FraudDetector._check_amount_anomalies. cbv zeta.
      rewrite Eu, option_bind_Some, Em, option_bind_Some. reflexivity.
    - unfold FraudDetector._check_time_patterns.
      rewrite Ehs, option_bind_Some, Ehe, option_bind_Some. reflexivity. }
  assert (Hv : forall s, FraudDetector._check_velocity_patterns s d2 = Some d2).
  { intros s.
    assert (Hstep : forall d x,
               FraudDetector.velocity_user s (sort_values_timestamp d2) d x
               = Some d).
    { intros d x. unfold FraudDetector.velocity_user. cbv zeta.
      rewrite user_rows_length, Htx.
      assert (Hle := proj1 (NoDup_count transactions) Hnodup x).
      apply Nat.ltb_ge in Hle. rewrite Hle. reflexivity. }
    unfold FraudDetector._check_velocity_patterns. cbv zeta.
    generalize d2 at 3 4 as d. generalize (FraudDetector.users d2) as us.
    induction us as [|x us IH]; intros d; [reflexivity|].
    cbn [FraudDetector.for_each]. rewrite Hstep, option_bind_Some. apply IH. }
  rewrite !Hv. reflexivity.
Qed.

Lemma velocity_limits_unread_for_distinct_users_witness :
  FraudDetector.detect_fraud
    (delete "max_transactions_per_hour"
       (delete "max_amount_per_day" FraudDetector.default_settings))
    [Samples.u1_first]
  = FraudDetector.detect_fraud FraudDetector.default_settings [Samples.u1_first].
Proof.
  apply velocity_limits_unread_for_distinct_users.
  - simpl. apply List.NoDup_cons; [intros [] | apply List.NoDup_nil].
  - intros key Hkey. simpl in Hkey.
    destruct Hkey as [<-|[<-|[<-|[<-|[<-|[]]]]]]; split; vm_compute; reflexivity.
Defined.

(** X10. When some user has two transactions in the table, the velocity check
    looks up both of its limits, and the batch scorer raises if one of them
    is missing. *)
Theorem velocity_limits_needed_for_repeated_user settings key transactions :
  ~ List.NoDup (map user_id transactions) ->
  In key ["max_transactions_per_hour"; "max_amount_per_day"] ->
  settings !! key = None ->
  FraudDetector.detect_fraud settings transactions = None.
Proof.
  intros Hdup Hkey Hmiss.
  assert (Hn : FraudDetector.get_num settings key = None)
    by (unfold FraudDetector.get_num; rewrite Hmiss; reflexivity).
  destruct (FraudDetector.detect_fraud settings transactions) as [out|] eqn:E;
    [|reflexivity].
  exfalso. unfold FraudDetector.detect_fraud in E.
  apply bind_Some in E as (d1 & E1 & E).
  apply bind_Some in E as (d2 & E2 & E).
  apply bind_Some in E as (d3 & E3 & _).
  assert (Htx := rules_keep_transactions _ _ _ _ E1 E2).
  apply repeated_user in Hdup as (u & Hin & Hu).
  unfold FraudDetector._check_velocity_patterns in E3.
  assert (Hin' : In u (FraudDetector.users d2))
    by (rewrite users_map_tx, Htx; apply in_unique_by; exact Hin).
  destruct (for_each_reaches _ _ _ _ u E3 Hin') as (s0 & s1 & Hbody).
  unfold FraudDetector.velocity_user in Hbody.
  rewrite user_rows_length, Htx in Hbody.
  apply Nat.ltb_lt in Hu. rewrite Hu in Hbody.
  apply bind_Some in Hbody as (mh & Hmh & Hbody).
  apply bind_Some in Hbody as (md & Hmd & _).
  simpl in Hkey. destruct Hkey as [<-|[<-|[]]]; congruence.
Qed.

Lemma velocity_limits_needed_for_repeated_user_witness :
  FraudDetector.detect_fraud
    (delete "max_amount_per_day" FraudDetector.default_settings)
    Samples.scenario_A
  = None.
Proof.
  apply (velocity_limits_needed_for_repeated_user _ "max_amount_per_day").
  - simpl. intros H. inversion H as [|? ? Hnotin _]; subst.
    apply Hnotin. left. reflexivity.
  - simpl. tauto.
  - apply lookup_delete_eq.
Defined.

(** * The statistics *)

Lemma filter_length_bound {A : Type} (f : A -> bool) (l : list A) :
  (length (List.filter f l) <= length l)%nat.
Proof.
  induction l as [|x l IH]; [reflexivity|]. cbn [List.filter].
  destruct (f x); cbn [length]; lia.
Qed.

Lemma filter_length_disjoint {A : Type} (f g : A -> bool) (l : list A) :
  (forall x, f x && g x = false) ->
  (length (List.filter f l) + length (List.filter g l) <= length l)%nat.
Proof.
  intros H. induction l as [|x l IH]; [reflexivity|]. cbn [List.filter].
  specialize (H x). destruct (f x), (g x); cbn [length]; try discriminate H; lia.
Qed.

Lemma filter_length_mono {A : Type} (f g : A -> bool) (l : list A) :
  Forall (fun x => f x = true -> g x = true) l ->
  (length (List.filter f l) <= length (List.filter g l))%nat.
Proof.
  induction 1 as [|x l Hx _ IH]; [reflexivity|]. cbn [List.filter].
  destruct (f x); [rewrite Hx by reflexivity|destruct (g x)]; cbn [length]; lia.
Qed.

Lemma filter_length_split {A : Type} (f : A -> bool) (l : list A) :
  (length (List.filter f l) + length (List.filter (fun x => negb (f x)) l)
   = length l)%nat.
Proof.
  induction l as [|x l IH]; [reflexivity|]. cbn [List.filter].
  destruct (f x); cbn [negb length]; lia.
Qed.

Lemma Qof_nat_le (n m : nat) : (n <= m)%nat -> Qof_nat n <= Qof_nat m.
Proof. intros H. unfold Qof_nat. rewrite <- Zle_Qle. lia. Qed.

Lemma Qof_nat_0 : Qof_nat 0 == 0.
Proof. reflexivity. Qed.

Lemma Qof_nat_positive (n : nat) : (0 < n)%nat -> 0 < Qof_nat n.
Proof.
  intros H. unfold Qof_nat. change 0 with (inject_Z 0). rewrite <- Zlt_Qlt. lia.
Qed.

Lemma Qdiv_unit (a b : Q) : 0 <= a -> a <= b -> 0 < b -> 0 <= a / b /\ a / b <= 1.
Proof.
  intros Ha Hab Hb. split.
  - apply Qle_shift_div_l; [exact Hb | lra].
  - apply Qle_shift_div_r; [exact Hb | lra].
Qed.

Lemma Qsum_unit (l : list Q) :
  Forall (fun x => 0 <= x /\ x <= 1) l ->
  0 <= Qsum l /\ Qsum l <= Qof_nat (length l).
Proof.
  induction 1 as [|x l [H0 H1] _ [IH0 IH1]]; cbn [Qsum length].
  - rewrite Qof_nat_0. lra.
  - rewrite Qof_nat_S. lra.
Qed.


Lemma detect_fraud_tx settings transactions out :
  FraudDetector.detect_fraud settings transactions = Some out ->
  map tx out = transactions.
Proof.
  intros H. apply detect_fraud_inv in H as (th & df & _ & Hg & ->).
  apply grows_shape in Hg as [Htx _].
  rewrite (proj1 (finalize_shape th df)), Htx. apply init_rows_shape.
Qed.



(** X11. The statistics count every transaction of the table; the fraud count
    does not exceed the total, the high-risk and the medium-risk rows are
    disjoint, the fraud rate is the quotient of the fraud count by the total
    and lies in [0,1], and the average score lies in [0,1]; on an empty table
    the average is NaN and the rate is 0. *)
Theorem statistics_consistent settings transactions st :
  FraudDetector.get_fraud_statistics settings transactions = Some st ->
  FraudDetector.total_transactions st = length transactions
  /\ (FraudDetector.fraud_transactions st
      <= FraudDetector.total_transactions st)%nat
  /\ (FraudDetector.high_risk_transactions st
      + FraudDetector.medium_risk_transactions st
      <= FraudDetector.total_transactions st)%nat
  /\ 0 <= FraudDetector.fraud_rate st <= 1
  /\ ((0 < FraudDetector.total_transactions st)%nat ->
      FraudDetector.fraud_rate st
      = Qof_nat (FraudDetector.fraud_transactions st)
        / Qof_nat (FraudDetector.total_transactions st))
  /\ match FraudDetector.average_risk_score st with
     | XNum a => transactions <> [] /\ 0 <= a <= 1
     | XNaN => transactions = [] /\ FraudDetector.fraud_rate st == 0
     | XInf _ => False
     end.
Proof.
  unfold FraudDetector.get_fraud_statistics. intros H.
  apply bind_Some in H as (out & Hout & H). apply (inj Some) in H. subst st.
  cbn [FraudDetector.total_transactions FraudDetector.fraud_transactions
       FraudDetector.high_risk_transactions
       FraudDetector.medium_risk_transactions FraudDetector.fraud_rate
       FraudDetector.average_risk_score].
  assert (Hlen : length out = length transactions).
  { rewrite <- (detect_fraud_tx _ _ _ Hout). symmetry. apply length_map. }
  assert (Hfraud := filter_length_bound is_fraud out).
  apply detect_fraud_rows in Hout as (th & _ & Hrows).
  split; [exact Hlen|]. split; [exact Hfraud|].
  split.
  { apply filter_length_disjoint. intros r.
    unfold Qgtb, Qltb. destruct (Qle_bool (risk_score r) 0.7);
      [reflexivity | apply andb_false_r]. }
  assert (Hrate :
    0 <= (if (0 <? length out)%nat
          then Qof_nat (length (List.filter is_fraud out)) / Qof_nat (length out)
          else 0) <= 1
    /\ ((0 < length out)%nat ->
        (if (0 <? length out)%nat
         then Qof_nat (length (List.filter is_fraud out)) / Qof_nat (length out)
         else 0)
        = Qof_nat (length (List.filter is_fraud out)) / Qof_nat (length out))).
  { destruct (0 <? length out)%nat eqn:E.
    - apply Nat.ltb_lt in E. split; [|reflexivity].
      apply Qof_nat_positive in E.
      apply Qdiv_unit; [|apply Qof_nat_le; exact Hfraud | exact E].
      apply (Qof_nat_le 0). lia.
    - apply Nat.ltb_ge in E. split; [lra | lia]. }
  split; [exact (proj1 Hrate)|]. split; [exact (proj2 Hrate)|].
  destruct out as [|r out'].
  - split; [destruct transactions; [reflexivity | discriminate Hlen]|].
    reflexivity.
  - unfold mean. cbn [map].
    set (scores := risk_score r :: map risk_score out').
    split; [destruct transactions; [discriminate Hlen | discriminate]|].
    assert (Hs : Forall (fun x => 0 <= x /\ x <= 1) scores).
    { subst scores. change (Forall (fun x => 0 <= x /\ x <= 1)
                              (map risk_score (r :: out'))).
      clear -Hrows. induction Hrows as [|x l (_ & Hx & _) _ IH]; cbn [map];
        constructor; [lra | exact IH]. }
    apply Qsum_unit in Hs as [H0 H1].
    apply Qdiv_unit; [exact H0 | exact H1 |].
    apply Qof_nat_positive. subst scores. cbn [length]. lia.
Qed.

Lemma statistics_consistent_witness :
  exists st,
    FraudDetector.get_fraud_statistics FraudDetector.default_settings
      Samples.scenario_A = Some st
    /\ FraudDetector.total_transactions st = 2%nat
    /\ 0 <= FraudDetector.fraud_rate st <= 1.
Proof.
  destruct (FraudDetector.get_fraud_statistics FraudDetector.default_settings
              Samples.scenario_A) as [st|] eqn:E;
    [|vm_compute in E; discriminate E].
  exists st. split; [reflexivity|].
  destruct (statistics_consistent _ _ _ E) as (H1 & _ & _ & H2 & _).
  split; [exact H1 | exact H2].
Defined.



(** X13. How the fraud count compares with the fixed 0.7 and 0.4 bands of the
    statistics: with a threshold of at most 0.7 every high-risk row is a fraud
    row; above 0.7 every fraud row is a high-risk row; above 0.4 every fraud
    row is a high-risk or a medium-risk row. *)
Theorem statistics_threshold settings transactions st threshold :
  FraudDetector.get_fraud_statistics settings transactions = Some st ->
  FraudDetector.get_num settings "high_risk_threshold" = Some threshold ->
  (threshold <= 0.7 ->
   (FraudDetector.high_risk_transactions st
    <= FraudDetector.fraud_transactions st)%nat)
  /\ (0.7 < threshold ->
      (FraudDetector.fraud_transactions st
       <= FraudDetector.high_risk_transactions st)%nat)
  /\ (0.4 < threshold ->
      (FraudDetector.fraud_transactions st
       <= FraudDetector.high_risk_transactions st
          + FraudDetector.medium_risk_transactions st)%nat).
Proof.
  unfold FraudDetector.get_fraud_statistics. intros H Hth.
  apply bind_Some in H as (out & Hout & H). apply (inj Some) in H. subst st.
  cbn [FraudDetector.fraud_transactions FraudDetector.high_risk_transactions
       FraudDetector.medium_risk_transactions].
  apply detect_fraud_rows in Hout as (th & Hth' & Hrows).
  rewrite Hth in Hth'. apply (inj Some) in Hth'. subst th.
  assert (Hflag : Forall (fun r => is_fraud r = true <-> threshold <= risk_score r)
                    out).
  { eapply Forall_impl; [exact Hrows|]. simpl. intros r (_ & _ & -> & _).
    apply Qgeb_ge. }
  clear Hrows. split; [|split]; intros Hcmp.
  - apply filter_length_mono. eapply Forall_impl; [exact Hflag|]. simpl.
    intros r Hr H. apply Hr. apply Qltb_lt in H. lra.
  - apply filter_length_mono. eapply Forall_impl; [exact Hflag|]. simpl.
    intros r Hr H. apply Qltb_lt. apply Hr in H. lra.
  - induction Hflag as [|r l Hr _ IH]; [reflexivity|]. cbn [List.filter].
    destruct (is_fraud r) eqn:Ef, (Qgtb (risk_score r) 0.7) eqn:E1,
      (Qgtb (risk_score r) 0.4 && Qle_bool (risk_score r) 0.7) eqn:E2;
      cbn [length]; try lia.
    exfalso. assert (Hs : threshold <= risk_score r) by (apply Hr; reflexivity).
    apply andb_false_iff in E2 as [E2|E2].
    + apply not_true_iff_false in E2. apply E2, Qltb_lt. lra.
    + apply not_true_iff_false in E1, E2. apply E2, Qle_bool_iff.
      apply Qnot_lt_le. intros Hlt. apply E1, Qltb_lt. exact Hlt.
Qed.

Lemma statistics_threshold_witness :
  exists st,
    FraudDetector.get_fraud_statistics FraudDetector.default_settings
      Samples.scenario_A = Some st
    /\ (FraudDetector.high_risk_transactions st
        <= FraudDetector.fraud_transactions st)%nat.
Proof.
  destruct (FraudDetector.get_fraud_statistics FraudDetector.default_settings
              Samples.scenario_A) as [st|] eqn:E;
    [|vm_compute in E; discriminate E].
  exists st. split; [reflexivity|].
  apply (proj1 (statistics_threshold _ _ _ 0.7 E eq_refl)). lra.
Defined.

(** ** The metrics of [Utils] *)

Lemma mean_nonempty (l : list Q) :
  (0 < length l)%nat -> mean l = XNum (Qsum l / Qof_nat (length l)).
Proof. destruct l; [simpl; lia | reflexivity]. Qed.

(** X14. The metrics of a scored frame: fraud and normal rows add up to the
    total, the normal rows are the rows that are not flagged, the normal
    amount is the total amount less the fraud amount, the fraud rate is the
    quotient of the fraud count by the total and lies in [0,1], and the two
    averages and their ratio are numbers, never NaN or infinite. *)
Theorem fraud_metrics_consistent (df : DataFrame) :
  let m := Utils.calculate_fraud_metrics df in
  (Utils.fraud_transactions m + Utils.normal_transactions m
   = Utils.total_transactions m)%nat
  /\ Utils.normal_transactions m
     = length (List.filter (fun r => negb (is_fraud r)) df)
  /\ Utils.normal_amount m = Utils.total_amount m - Utils.fraud_amount m
  /\ ((0 < Utils.total_transactions m)%nat ->
      Utils.fraud_rate m
      = Qof_nat (Utils.fraud_transactions m)
        / Qof_nat (Utils.total_transactions m))
  /\ 0 <= Utils.fraud_rate m <= 1
  /\ (exists a, Utils.avg_fraud_amount m = XNum a)
  /\ (exists a, Utils.avg_normal_amount m = XNum a)
  /\ (exists a, Utils.fraud_to_normal_ratio m = XNum a).
Proof.
  cbv zeta. unfold Utils.calculate_fraud_metrics.
  cbn [Utils.fraud_transactions Utils.normal_transactions
       Utils.total_transactions Utils.fraud_amount Utils.normal_amount
       Utils.total_amount Utils.fraud_rate Utils.avg_fraud_amount
       Utils.avg_normal_amount Utils.fraud_to_normal_ratio].
  assert (Hsplit := filter_length_split is_fraud df).
  set (fraud := List.filter is_fraud df) in *.
  set (normal := List.filter (fun r => negb (is_fraud r)) df) in *.
  assert (Hn : (length df - length fraud)%nat = length normal) by lia.
  rewrite Hn.
  split; [lia|]. split; [reflexivity|]. split; [reflexivity|].
  split.
  { intros Hpos. apply Nat.ltb_lt in Hpos. rewrite Hpos. reflexivity. }
  split.
  { destruct (0 <? length df)%nat eqn:E; [|lra].
    apply Nat.ltb_lt in E. apply Qdiv_unit.
    - apply (Qof_nat_le 0). lia.
    - apply Qof_nat_le. lia.
    - apply Qof_nat_positive. exact E. }
  assert (Hf : exists a,
             (if (0 <? length fraud)%nat
              then mean (FraudDetector.amounts fraud) else XNum 0) = XNum a).
  { destruct (0 <? length fraud)%nat eqn:E; [|eauto].
    apply Nat.ltb_lt in E. rewrite mean_nonempty; [eauto|].
    unfold FraudDetector.amounts. rewrite length_map. exact E. }
  assert (Hnm : exists a,
             (if (0 <? length normal)%nat
              then mean (FraudDetector.amounts normal) else XNum 0) = XNum a).
  { destruct (0 <? length normal)%nat eqn:E; [|eauto].
    apply Nat.ltb_lt in E. rewrite mean_nonempty; [eauto|].
    unfold FraudDetector.amounts. rewrite length_map. exact E. }
  split; [exact Hf|]. split; [exact Hnm|].
  destruct Hf as [a ->], Hnm as [b ->].
  destruct (xgt (XNum b) (XNum 0)) eqn:E; [|eauto].
  cbn [xgt] in E. apply Qltb_lt in E. cbn [xdiv].
  destruct (Qeq_bool b 0) eqn:Eb; [|eauto].
  apply Qeq_bool_iff in Eb. lra.
Qed.

(** X15. On the frame that the batch scorer returns, the metrics of [Utils]
    and the statistics of the detector report the same counts, amounts and
    rates. *)
Theorem fraud_metrics_agree_with_statistics settings transactions out st :
  FraudDetector.detect_fraud settings transactions = Some out ->
  FraudDetector.get_fraud_statistics settings transactions = Some st ->
  let m := Utils.calculate_fraud_metrics out in
  Utils.total_transactions m = FraudDetector.total_transactions st
  /\ Utils.fraud_transactions m = FraudDetector.fraud_transactions st
  /\ Utils.fraud_rate m = FraudDetector.fraud_rate st
  /\ Utils.total_amount m = FraudDetector.total_amount st
  /\ Utils.fraud_amount m = FraudDetector.fraud_amount st
  /\ Utils.fraud_amount_rate m = FraudDetector.fraud_amount_rate st.
Proof.
  unfold FraudDetector.get_fraud_statistics. intros Hout H.
  rewrite Hout, option_bind_Some in H. apply (inj Some) in H. subst st.
  cbv zeta. repeat split.
Qed.

Lemma fraud_metrics_agree_with_statistics_witness :
  exists out st,
    FraudDetector.detect_fraud FraudDetector.default_settings Samples.scenario_A
    = Some out
    /\ FraudDetector.get_fraud_statistics FraudDetector.default_settings
         Samples.scenario_A = Some st
    /\ Utils.fraud_rate (Utils.calculate_fraud_metrics out)
       = FraudDetector.fraud_rate st.
Proof.
  destruct (FraudDetector.detect_fraud FraudDetector.default_settings
              Samples.scenario_A) as [out|] eqn:E1;
    [|vm_compute in E1; discriminate E1].
  destruct (FraudDetector.get_fraud_statistics FraudDetector.default_settings
              Samples.scenario_A) as [st|] eqn:E2;
    [|vm_compute in E2; discriminate E2].
  exists out, st. split; [reflexivity|]. split; [reflexivity|].
  apply (fraud_metrics_agree_with_statistics _ _ _ _ E1 E2).
Defined.

(** X16. The colour of a score and the risk level of the single-transaction
    analysis use the same cut-offs: red is HIGH, orange MEDIUM, yellow LOW and
    green VERY_LOW. *)
Theorem risk_color_follows_risk_level (score : Q) :
  Utils.get_risk_color score
  = match TransactionAnalyzer._get_risk_level score with
    | HIGH => "#d62728"
    | MEDIUM => "#ff9800"
    | LOW => "#ffc107"
    | VERY_LOW => "#2ca02c"
    end.
Proof.
  unfold Utils.get_risk_color, TransactionAnalyzer._get_risk_level.
  destruct (Qgeb score 0.7), (Qgeb score 0.4), (Qgeb score 0.2); reflexivity.
Qed.

(** * More properties of the single-transaction analysis *)

Lemma accounted_no_risk : accounted TransactionAnalyzer.no_risk.
Proof. reflexivity. Qed.

Lemma accounted_fire c f a :
  weight f = c -> accounted a -> accounted (TransactionAnalyzer.fire c f a).
Proof.
  unfold accounted, running_sum. cbn [TransactionAnalyzer.fire
    TransactionAnalyzer.risk_contribution TransactionAnalyzer.factors].
  intros <- ->. rewrite map_app, fold_left_app. reflexivity.
Qed.

Lemma accounted_fire_if b c f a :
  weight f = c -> accounted a -> accounted (TransactionAnalyzer.fire_if b c f a).
Proof.
  intros Hc Ha. unfold TransactionAnalyzer.fire_if.
  destruct b; auto using accounted_fire.
Qed.

Create HintDb weights.
#[local] Hint Resolve accounted_no_risk accounted_fire accounted_fire_if : weights.
#[local] Hint Extern 1 (weight _ = _) => reflexivity : weights.

Lemma _analyze_user_behavior_accounted t h :
  accounted (TransactionAnalyzer._analyze_user_behavior t h).
Proof.
  unfold TransactionAnalyzer._analyze_user_behavior.
  destruct (TransactionAnalyzer.user_history h (user_id t)) as [|first rest];
    [auto with weights|].
  cbv zeta. split_ifs; auto 10 with weights.
Qed.

Lemma _analyze_amount_patterns_accounted t h :
  accounted (TransactionAnalyzer._analyze_amount_patterns t h).
Proof.
  unfold TransactionAnalyzer._analyze_amount_patterns.
  cbv zeta. split_ifs; auto 10 with weights.
Qed.

Lemma _analyze_temporal_patterns_accounted t h :
  accounted (TransactionAnalyzer._analyze_temporal_patterns t h).
Proof.
  unfold TransactionAnalyzer._analyze_temporal_patterns.
  cbv zeta. auto 10 with weights.
Qed.

Lemma _analyze_location_patterns_accounted t h a :
  TransactionAnalyzer._analyze_location_patterns t h = Some a -> accounted a.
Proof.
  unfold TransactionAnalyzer._analyze_location_patterns. cbv zeta.
  destruct (TransactionAnalyzer.any_keyword _ _) as [b|]; simpl; [|discriminate].
  intros [= <-]. split_ifs; auto 10 with weights.
Qed.

Lemma _analyze_merchant_patterns_accounted t h a :
  TransactionAnalyzer._analyze_merchant_patterns t h = Some a -> accounted a.
Proof.
  unfold TransactionAnalyzer._analyze_merchant_patterns. cbv zeta.
  destruct (TransactionAnalyzer.any_keyword
              TransactionAnalyzer.high_risk_categories _) as [b|];
    simpl; [|discriminate].
  destruct (TransactionAnalyzer.any_keyword
              TransactionAnalyzer.suspicious_merchant_keywords _) as [b'|];
    simpl; [|discriminate].
  intros [= <-]. split_ifs; auto 10 with weights.
Qed.

Lemma weight_positive (f : Factor) : 0 < weight f.
Proof. destruct f; reflexivity. Qed.

Lemma running_sum_grows (ws : list Factor) (acc : Q) :
  acc <= fold_left Qplus (map weight ws) acc.
Proof.
  revert acc. induction ws as [|f ws IH]; intros acc; cbn [map fold_left]; [lra|].
  assert (H := weight_positive f). specialize (IH (acc + weight f)). lra.
Qed.

Lemma running_sum_zero (fs : list Factor) : running_sum fs == 0 <-> fs = [].
Proof.
  unfold running_sum. destruct fs as [|f fs]; cbn [map fold_left].
  - split; reflexivity.
  - split; [|discriminate]. intros Hs. exfalso.
    assert (H1 := weight_positive f).
    assert (H2 := running_sum_grows fs (0 + weight f)). lra.
Qed.

(** X17. The score of a single-transaction analysis is accounted for by the
    factors it reports.  The contribution of each sub-analysis is the running
    sum of the weights of its factors, added in the order of the factors, and
    is zero exactly when there is no factor; the score is the five
    contributions added to 0 in the order user, amount, time, location,
    merchant, capped at 1; and the reported factors are those of the five
    sub-analyses in that order.  These are the additions of the source in
    the order of the source. *)
Theorem score_is_sum_of_factor_weights t h res :
  TransactionAnalyzer.analyze_single_transaction t h = Some res ->
  let part sub := running_sum (TransactionAnalyzer.factors (sub res)) in
  TransactionAnalyzer.risk_score res
  = Qmin (0 + part TransactionAnalyzer.user_analysis
          + part TransactionAnalyzer.amount_analysis
          + part TransactionAnalyzer.temporal_analysis
          + part TransactionAnalyzer.location_analysis
          + part TransactionAnalyzer.merchant_analysis) 1
  /\ TransactionAnalyzer.risk_factors res
     = TransactionAnalyzer.factors (TransactionAnalyzer.user_analysis res)
       ++ TransactionAnalyzer.factors (TransactionAnalyzer.amount_analysis res)
       ++ TransactionAnalyzer.factors (TransactionAnalyzer.temporal_analysis res)
       ++ TransactionAnalyzer.factors (TransactionAnalyzer.location_analysis res)
       ++ TransactionAnalyzer.factors (TransactionAnalyzer.merchant_analysis res)
  /\ Forall (fun a => accounted a
                      /\ (TransactionAnalyzer.risk_contribution a == 0
                          <-> TransactionAnalyzer.factors a = []))
       [TransactionAnalyzer.user_analysis res;
        TransactionAnalyzer.amount_analysis res;
        TransactionAnalyzer.temporal_analysis res;
        TransactionAnalyzer.location_analysis res;
        TransactionAnalyzer.merchant_analysis res].
Proof.
  intros H. apply analyze_single_transaction_inv in H as (la & ma & Hla & Hma & ->).
  cbv zeta. cbn [TransactionAnalyzer.risk_score TransactionAnalyzer.risk_factors
    TransactionAnalyzer.user_analysis TransactionAnalyzer.amount_analysis
    TransactionAnalyzer.temporal_analysis TransactionAnalyzer.location_analysis
    TransactionAnalyzer.merchant_analysis].
  assert (Hu := _analyze_user_behavior_accounted t h).
  assert (Ha := _analyze_amount_patterns_accounted t h).
  assert (Ht := _analyze_temporal_patterns_accounted t h).
  apply _analyze_location_patterns_accounted in Hla.
  apply _analyze_merchant_patterns_accounted in Hma.
  split; [|split].
  - unfold accounted in *. rewrite <- Hu, <- Ha, <- Ht, <- Hla, <- Hma.
    reflexivity.
  - cbn [app]. rewrite <- !app_assoc. reflexivity.
  - assert (Hzero : forall a, accounted a ->
              (TransactionAnalyzer.risk_contribution a == 0
               <-> TransactionAnalyzer.factors a = [])).
    { intros a Hacc. unfold accounted in Hacc. rewrite Hacc.
      apply running_sum_zero. }
    repeat (apply List.Forall_cons; [split; [|apply Hzero]; assumption|]).
    apply List.Forall_nil.
Qed.

Lemma score_is_sum_of_factor_weights_witness :
  exists res,
    TransactionAnalyzer.analyze_single_transaction
      Samples.u1_second Samples.scenario_A = Some res
    /\ TransactionAnalyzer.risk_factors res
       = TransactionAnalyzer.factors (TransactionAnalyzer.user_analysis res)
         ++ TransactionAnalyzer.factors (TransactionAnalyzer.amount_analysis res)
         ++ TransactionAnalyzer.factors (TransactionAnalyzer.temporal_analysis res)
         ++ TransactionAnalyzer.factors (TransactionAnalyzer.location_analysis res)
         ++ TransactionAnalyzer.factors (TransactionAnalyzer.merchant_analysis res).
Proof.
  destruct (TransactionAnalyzer.analyze_single_transaction
              Samples.u1_second Samples.scenario_A) as [res|] eqn:E;
    [|vm_compute in E; discriminate E].
  exists res. split; [reflexivity|].
  apply (score_is_sum_of_factor_weights _ _ _ E).
Defined.

Lemma _analyze_merchant_patterns_returns t h :
  (exists a, TransactionAnalyzer._analyze_merchant_patterns t h = Some a)
  <-> (exists m, merchant t = Some m) /\ (exists c, merchant_category t = Some c).
Proof.
  unfold TransactionAnalyzer._analyze_merchant_patterns. cbv zeta.
  destruct (merchant_category t) as [c|], (merchant t) as [m|];
    cbn [TransactionAnalyzer.any_keyword]; rewrite ?option_bind_Some.
  - split; eauto.
  - split; [intros [a H]; discriminate H | intros [[m H] _]; discriminate H].
  - split; [intros [a H]; discriminate H | intros [_ [c H]]; discriminate H].
  - split; [intros [a H]; discriminate H | intros [_ [c H]]; discriminate H].
Qed.

(** X18. The single-transaction analysis raises exactly when the location,
    the merchant or the merchant category of the transaction is missing. *)
Theorem single_analysis_raises_iff_text_missing t h :
  TransactionAnalyzer.analyze_single_transaction t h = None
  <-> location t = None \/ merchant t = None \/ merchant_category t = None.
Proof.
  split.
  - intros H.
    destruct (location t) as [l|] eqn:El; [|auto].
    destruct (merchant t) as [m|] eqn:Em; [|auto].
    destruct (merchant_category t) as [c|] eqn:Ec; [|auto].
    exfalso.
    destruct (_analyze_location_patterns_suspicious t h l El) as (a & Ha & _).
    destruct (proj2 (_analyze_merchant_patterns_returns t h)) as [ma Hma];
      [rewrite Em, Ec; eauto|].
    unfold TransactionAnalyzer.analyze_single_transaction in H. cbv zeta in H.
    rewrite Ha, option_bind_Some, Hma, option_bind_Some in H. discriminate H.
  - intros H.
    destruct (TransactionAnalyzer.analyze_single_transaction t h) as [res|] eqn:E;
      [|reflexivity].
    exfalso.
    apply analyze_single_transaction_inv in E as (la & ma & Hla & Hma & _).
    apply _analyze_location_patterns_needs_location in Hla as [l Hl].
    destruct (proj1 (_analyze_merchant_patterns_returns t h)) as [[m Hm] [c Hc]];
      [eauto|].
    destruct H as [H|[H|H]]; congruence.
Qed.

Lemma Qmin_ge (a b : Q) : b <= a -> b <= 1 -> b <= Qmin a 1.
Proof. intros Ha Hb. unfold Qmin. destruct (Qle_bool a 1); assumption. Qed.

(** What a single analysis that returns adds up. *)
Lemma analyze_single_transaction_parts t h res :
  TransactionAnalyzer.analyze_single_transaction t h = Some res ->
  exists l a ma,
    location t = Some l
    /\ TransactionAnalyzer._analyze_location_patterns t h
       = Some (TransactionAnalyzer.fire 0.25 SuspiciousLocationName a)
    /\ nonneg a
    /\ TransactionAnalyzer._analyze_merchant_patterns t h = Some ma
    /\ nonneg ma
    /\ let ua := TransactionAnalyzer._analyze_user_behavior t h in
       let aa := TransactionAnalyzer._analyze_amount_patterns t h in
       let ta := TransactionAnalyzer._analyze_temporal_patterns t h in
       let la := TransactionAnalyzer.fire 0.25 SuspiciousLocationName a in
       let total :=
         0 + TransactionAnalyzer.risk_contribution ua
         + TransactionAnalyzer.risk_contribution aa
         + TransactionAnalyzer.risk_contribution ta
         + TransactionAnalyzer.risk_contribution la
         + TransactionAnalyzer.risk_contribution ma in
       let fs :=
         (((([] ++ TransactionAnalyzer.factors ua)
            ++ TransactionAnalyzer.factors aa)
           ++ TransactionAnalyzer.factors ta)
          ++ TransactionAnalyzer.factors la)
         ++ TransactionAnalyzer.factors ma in
       TransactionAnalyzer.risk_score res = Qmin total 1
       /\ TransactionAnalyzer.risk_factors res = fs
       /\ TransactionAnalyzer.recommendation res
          = TransactionAnalyzer._get_recommendation (Qmin total 1) fs.
Proof.
  intros H. apply analyze_single_transaction_inv in H as (la & ma & Hla & Hma & ->).
  destruct (_analyze_location_patterns_needs_location t h la Hla) as [l El].
  destruct (_analyze_location_patterns_suspicious t h l El) as (a & Ha & Hpos).
  rewrite Ha in Hla. apply (inj Some) in Hla. subst la.
  exists l, a, ma. split; [exact El|]. split; [exact Ha|]. split; [exact Hpos|].
  split; [exact Hma|].
  split; [eapply _analyze_merchant_patterns_nonneg; exact Hma|].
  cbv zeta. repeat split.
Qed.

(** X19. A single-transaction analysis that returns has a score of at least
    0.25, so its risk level is never VERY_LOW, and it reports at least one
    factor and one primary concern. *)
Theorem single_analysis_never_very_low t h res :
  TransactionAnalyzer.analyze_single_transaction t h = Some res ->
  0.25 <= TransactionAnalyzer.risk_score res
  /\ TransactionAnalyzer.risk_level (TransactionAnalyzer.recommendation res)
     <> VERY_LOW
  /\ TransactionAnalyzer.risk_factors res <> []
  /\ TransactionAnalyzer.primary_concerns (TransactionAnalyzer.recommendation res)
     <> [].
Proof.
  intros H.
  apply analyze_single_transaction_parts in H
    as (l & a & ma & _ & _ & Ha & _ & Hma & Hscore & Hfs & Hrec).
  cbv zeta in Hscore, Hfs, Hrec.
  assert (Hu := _analyze_user_behavior_nonneg t h).
  assert (Haa := _analyze_amount_patterns_nonneg t h).
  assert (Ht := _analyze_temporal_patterns_nonneg t h).
  unfold nonneg in *.
  assert (Hlow : 0.25 <= TransactionAnalyzer.risk_score res).
  { rewrite Hscore. apply Qmin_ge; [|lra].
    cbn [TransactionAnalyzer.fire TransactionAnalyzer.risk_contribution]. lra. }
  assert (Hne : TransactionAnalyzer.risk_factors res <> []).
  { rewrite Hfs. cbn [TransactionAnalyzer.fire TransactionAnalyzer.factors].
    intros E. apply app_eq_nil in E as [E _]. apply app_eq_nil in E as [_ E].
    apply app_eq_nil in E as [_ E]. discriminate E. }
  split; [exact Hlow|]. split; [|split; [exact Hne|]].
  - rewrite Hrec, _get_recommendation_level, <- Hscore.
    destruct (_get_risk_level_ladder (TransactionAnalyzer.risk_score res))
      as (H7 & H4 & H2 & _).
    destruct (Qlt_le_dec (TransactionAnalyzer.risk_score res) 0.4) as [C4|C4];
      [rewrite H2 by lra; discriminate|].
    destruct (Qlt_le_dec (TransactionAnalyzer.risk_score res) 0.7) as [C7|C7];
      [rewrite H4 by lra; discriminate|].
    rewrite H7 by lra. discriminate.
  - rewrite Hrec, _get_recommendation_concerns, <- Hfs.
    destruct (TransactionAnalyzer.risk_factors res); [contradiction | discriminate].
Qed.

Lemma single_analysis_never_very_low_witness :
  exists res,
    TransactionAnalyzer.analyze_single_transaction
      Samples.u1_second Samples.scenario_A = Some res
    /\ 0.25 <= TransactionAnalyzer.risk_score res.
Proof.
  destruct (TransactionAnalyzer.analyze_single_transaction
              Samples.u1_second Samples.scenario_A) as [res|] eqn:E;
    [|vm_compute in E; discriminate E].
  exists res. split; [reflexivity|].
  apply (single_analysis_never_very_low _ _ _ E).
Defined.

Lemma _analyze_user_behavior_new_user t h :
  TransactionAnalyzer.user_history h (user_id t) = [] ->
  TransactionAnalyzer._analyze_user_behavior t h
  = TransactionAnalyzer.fire 0.3 NewUser TransactionAnalyzer.no_risk.
Proof.
  intros H. unfold TransactionAnalyzer._analyze_user_behavior. rewrite H.
  reflexivity.
Qed.

Lemma _get_recommendation_action (score : Q) (fs : list Factor) :
  let r := TransactionAnalyzer._get_recommendation score fs in
  (0.8 <= score -> TransactionAnalyzer.action r = BLOCK
                   /\ TransactionAnalyzer.confidence r = HIGH)
  /\ (0.3 <= score -> TransactionAnalyzer.action r <> APPROVE).
Proof.
  destruct (_get_recommendation_ladder score fs) as (H8 & H6 & H3 & _).
  cbv zeta. split; [exact H8|]. intros Hs.
  destruct (Qlt_le_dec score 0.6) as [C6|C6];
    [destruct H3 as [-> _]; [lra | discriminate]|].
  destruct (Qlt_le_dec score 0.8) as [C8|C8];
    [destruct H6 as [-> _]; [lra | discriminate]|].
  destruct H8 as [-> _]; [lra | discriminate].
Qed.

(** X20. A transaction of a user without history scores at least 0.55: it is
    never approved, its risk level is HIGH or MEDIUM, and "new user" is the
    first factor and the first primary concern. *)
Theorem unknown_user_never_approved t h res :
  TransactionAnalyzer.user_history h (user_id t) = [] ->
  TransactionAnalyzer.analyze_single_transaction t h = Some res ->
  0.55 <= TransactionAnalyzer.risk_score res
  /\ TransactionAnalyzer.action (TransactionAnalyzer.recommendation res)
     <> APPROVE
  /\ (TransactionAnalyzer.risk_level (TransactionAnalyzer.recommendation res)
      = HIGH
      \/ TransactionAnalyzer.risk_level (TransactionAnalyzer.recommendation res)
         = MEDIUM)
  /\ hd_error (TransactionAnalyzer.risk_factors res) = Some NewUser
  /\ hd_error (TransactionAnalyzer.primary_concerns
                 (TransactionAnalyzer.recommendation res)) = Some NewUser.
Proof.
  intros Hnew H.
  apply analyze_single_transaction_parts in H
    as (l & a & ma & _ & _ & Ha & _ & Hma & Hscore & Hfs & Hrec).
  cbv zeta in Hscore, Hfs, Hrec.
  rewrite (_analyze_user_behavior_new_user t h Hnew) in Hscore, Hfs, Hrec.
  assert (Haa := _analyze_amount_patterns_nonneg t h).
  assert (Ht := _analyze_temporal_patterns_nonneg t h).
  unfold nonneg in *.
  assert (Hlow : 0.55 <= TransactionAnalyzer.risk_score res).
  { rewrite Hscore. apply Qmin_ge; [|lra].
    cbn [TransactionAnalyzer.fire TransactionAnalyzer.no_risk
         TransactionAnalyzer.risk_contribution]. lra. }
  assert (Hhd : hd_error (TransactionAnalyzer.risk_factors res) = Some NewUser)
    by (rewrite Hfs; reflexivity).
  split; [exact Hlow|]. rewrite Hrec, <- Hscore, <- Hfs.
  split; [apply _get_recommendation_action; lra|]. split.
  - rewrite _get_recommendation_level.
    destruct (_get_risk_level_ladder (TransactionAnalyzer.risk_score res))
      as (H7 & H4 & _).
    destruct (Qlt_le_dec (TransactionAnalyzer.risk_score res) 0.7) as [C7|C7];
      [right; apply H4; lra | left; apply H7; lra].
  - split; [exact Hhd|]. rewrite _get_recommendation_concerns.
    destruct (TransactionAnalyzer.risk_factors res); [discriminate Hhd | exact Hhd].
Qed.

Lemma unknown_user_never_approved_witness :
  exists res,
    TransactionAnalyzer.analyze_single_transaction Samples.u1_first [] = Some res
    /\ TransactionAnalyzer.action (TransactionAnalyzer.recommendation res)
       <> APPROVE.
Proof.
  destruct (TransactionAnalyzer.analyze_single_transaction Samples.u1_first [])
    as [res|] eqn:E; [|vm_compute in E; discriminate E].
  exists res. split; [reflexivity|].
  apply (unknown_user_never_approved Samples.u1_first [] res eq_refl E).
Defined.

Lemma _analyze_location_patterns_first_sighting t h la :
  TransactionAnalyzer.user_history h (user_id t) = [] ->
  TransactionAnalyzer.occurrences (map location h) (location t) = 0%nat ->
  TransactionAnalyzer._analyze_location_patterns t h = Some la ->
  la = TransactionAnalyzer.fire 0.25 SuspiciousLocationName
         (TransactionAnalyzer.fire 0.15 NewLocationGlobally
            TransactionAnalyzer.no_risk).
Proof.
  intros Hnew Hloc. unfold TransactionAnalyzer._analyze_location_patterns.
  cbv zeta. rewrite Hnew, Hloc.
  destruct (location t) as [l|]; [|discriminate].
  rewrite any_keyword_empty by (simpl; tauto). rewrite option_bind_Some.
  intros H. apply (inj Some) in H. subst la. reflexivity.
Qed.

Lemma _analyze_merchant_patterns_first_sighting t h ma :
  TransactionAnalyzer.user_history h (user_id t) = [] ->
  TransactionAnalyzer.occurrences (map merchant h) (merchant t) = 0%nat ->
  TransactionAnalyzer._analyze_merchant_patterns t h = Some ma ->
  0.15 <= TransactionAnalyzer.risk_contribution ma.
Proof.
  intros Hnew Hmer. unfold TransactionAnalyzer._analyze_merchant_patterns.
  cbv zeta. rewrite Hnew, Hmer.
  destruct (TransactionAnalyzer.any_keyword
              TransactionAnalyzer.high_risk_categories _) as [b|];
    [|discriminate].
  rewrite option_bind_Some.
  destruct (TransactionAnalyzer.any_keyword
              TransactionAnalyzer.suspicious_merchant_keywords _) as [b'|];
    [|discriminate].
  rewrite option_bind_Some. intros H. apply (inj Some) in H. subst ma.
  destruct b, b'; cbn; lra.
Qed.

(** X21. A transaction of a user without history, at a location and a
    merchant that the history does not hold, scores at least 0.85 and is
    blocked with HIGH confidence and HIGH risk level; this is the case of
    every transaction analysed against an empty history. *)
Theorem first_sighting_is_blocked t h res :
  TransactionAnalyzer.user_history h (user_id t) = [] ->
  TransactionAnalyzer.occurrences (map location h) (location t) = 0%nat ->
  TransactionAnalyzer.occurrences (map merchant h) (merchant t) = 0%nat ->
  TransactionAnalyzer.analyze_single_transaction t h = Some res ->
  0.85 <= TransactionAnalyzer.risk_score res
  /\ TransactionAnalyzer.action (TransactionAnalyzer.recommendation res) = BLOCK
  /\ TransactionAnalyzer.confidence (TransactionAnalyzer.recommendation res)
     = HIGH
  /\ TransactionAnalyzer.risk_level (TransactionAnalyzer.recommendation res)
     = HIGH.
Proof.
  intros Hnew Hloc Hmer H.
  apply analyze_single_transaction_inv in H as (la & ma & Hla & Hma & ->).
  apply (_analyze_location_patterns_first_sighting t h la Hnew Hloc) in Hla.
  apply (_analyze_merchant_patterns_first_sighting t h ma Hnew Hmer) in Hma.
  subst la. cbv zeta.
  rewrite (_analyze_user_behavior_new_user t h Hnew).
  cbn [TransactionAnalyzer.risk_score TransactionAnalyzer.recommendation].
  assert (Haa := _analyze_amount_patterns_nonneg t h).
  assert (Ht := _analyze_temporal_patterns_nonneg t h).
  unfold nonneg in *.
  match goal with
  | |- _ <= Qmin ?total 1 /\ _ => set (score := Qmin total 1)
  end.
  assert (Hlow : 0.85 <= score).
  { subst score. apply Qmin_ge; [|lra].
    cbn [TransactionAnalyzer.fire TransactionAnalyzer.no_risk
         TransactionAnalyzer.risk_contribution]. lra. }
  split; [exact Hlow|].
  match goal with
  | |- TransactionAnalyzer.action
         (TransactionAnalyzer._get_recommendation _ ?fs) = _ /\ _ =>
      destruct (_get_recommendation_action score fs) as [H8 _]
  end.
  destruct H8 as [Hact Hconf]; [lra|].
  split; [exact Hact|]. split; [exact Hconf|].
  rewrite _get_recommendation_level.
  apply (_get_risk_level_ladder score). lra.
Qed.

Lemma first_sighting_is_blocked_witness :
  exists res,
    TransactionAnalyzer.analyze_single_transaction Samples.u1_first [] = Some res
    /\ TransactionAnalyzer.action (TransactionAnalyzer.recommendation res) = BLOCK.
Proof.
  destruct (TransactionAnalyzer.analyze_single_transaction Samples.u1_first [])
    as [res|] eqn:E; [|vm_compute in E; discriminate E].
  exists res. split; [reflexivity|].
  apply (first_sighting_is_blocked Samples.u1_first [] res
           eq_refl eq_refl eq_refl E).
Defined.

(** ** The most that a sub-analysis reports *)

Ltac count_up :=
  cbn [TransactionAnalyzer.fire_if TransactionAnalyzer.fire
       TransactionAnalyzer.no_risk TransactionAnalyzer.factors
       app length];
  rewrite ?length_app; cbn [length]; lia.

Lemma _analyze_user_behavior_cap t h :
  (length (TransactionAnalyzer.factors
             (TransactionAnalyzer._analyze_user_behavior t h)) <= 3)%nat.
Proof.
  unfold TransactionAnalyzer._analyze_user_behavior.
  destruct (TransactionAnalyzer.user_history h (user_id t)) as [|first rest];
    [count_up|].
  cbv zeta. unfold TransactionAnalyzer.fire_if. split_ifs; count_up.
Qed.

Lemma _analyze_amount_patterns_cap t h :
  (length (TransactionAnalyzer.factors
             (TransactionAnalyzer._analyze_amount_patterns t h)) <= 3)%nat.
Proof.
  unfold TransactionAnalyzer._analyze_amount_patterns. cbv zeta.
  unfold TransactionAnalyzer.fire_if.
  destruct (Qltb (amount t) 1) eqn:Emicro.
  - apply Qltb_lt in Emicro.
    assert (E100 : Qgeb (amount t) 100 = false) by (apply Qgeb_false; lra).
    assert (E10 : Qgeb (amount t) 10 = false) by (apply Qgeb_false; lra).
    rewrite E100, E10. cbn [andb]. split_ifs; count_up.
  - split_ifs; count_up.
Qed.

Lemma _analyze_temporal_patterns_cap t h :
  (length (TransactionAnalyzer.factors
             (TransactionAnalyzer._analyze_temporal_patterns t h)) <= 4)%nat.
Proof.
  unfold TransactionAnalyzer._analyze_temporal_patterns. cbv zeta.
  unfold TransactionAnalyzer.fire_if. split_ifs; count_up.
Qed.

Lemma _analyze_location_patterns_cap t h a :
  TransactionAnalyzer._analyze_location_patterns t h = Some a ->
  (length (TransactionAnalyzer.factors a) <= 3)%nat.
Proof.
  unfold TransactionAnalyzer._analyze_location_patterns. cbv zeta.
  destruct (TransactionAnalyzer.any_keyword _ _) as [b|]; [|discriminate].
  rewrite option_bind_Some. intros H. apply (inj Some) in H. subst a.
  unfold TransactionAnalyzer.fire_if. split_ifs; count_up.
Qed.

Lemma _analyze_merchant_patterns_cap t h a :
  TransactionAnalyzer._analyze_merchant_patterns t h = Some a ->
  (length (TransactionAnalyzer.factors a) <= 5)%nat.
Proof.
  unfold TransactionAnalyzer._analyze_merchant_patterns. cbv zeta.
  destruct (TransactionAnalyzer.any_keyword
              TransactionAnalyzer.high_risk_categories _) as [b|];
    [|discriminate].
  rewrite option_bind_Some.
  destruct (TransactionAnalyzer.any_keyword
              TransactionAnalyzer.suspicious_merchant_keywords _) as [b'|];
    [|discriminate].
  rewrite option_bind_Some. intros H. apply (inj Some) in H. subst a.
  unfold TransactionAnalyzer.fire_if. split_ifs; count_up.
Qed.

(** X22. The most that each sub-analysis reports: user behaviour three
    factors, amount three (a micro amount is never a round amount, and the two
    quantile factors and the two round factors exclude each other), time
    four, location between one and three, merchant five; so a result lists
    between one and eighteen factors.  No contribution is negative and the
    location contributes at least 0.25. *)
Theorem sub_analyses_are_capped t h res :
  TransactionAnalyzer.analyze_single_transaction t h = Some res ->
  let count sub := length (TransactionAnalyzer.factors (sub res)) in
  let part sub := TransactionAnalyzer.risk_contribution (sub res) in
  (count TransactionAnalyzer.user_analysis <= 3)%nat
  /\ (count TransactionAnalyzer.amount_analysis <= 3)%nat
  /\ (count TransactionAnalyzer.temporal_analysis <= 4)%nat
  /\ (1 <= count TransactionAnalyzer.location_analysis <= 3)%nat
  /\ (count TransactionAnalyzer.merchant_analysis <= 5)%nat
  /\ (1 <= length (TransactionAnalyzer.risk_factors res) <= 18)%nat
  /\ 0 <= part TransactionAnalyzer.user_analysis
  /\ 0 <= part TransactionAnalyzer.amount_analysis
  /\ 0 <= part TransactionAnalyzer.temporal_analysis
  /\ 0.25 <= part TransactionAnalyzer.location_analysis
  /\ 0 <= part TransactionAnalyzer.merchant_analysis.
Proof.
  intros H.
  destruct (analyze_single_transaction_parts t h res H)
    as (l & a & ma & _ & Hla & Ha & Hma & Hmpos & _).
  apply analyze_single_transaction_inv in H as (la & ma' & Hla' & Hma' & ->).
  cbv zeta. cbn [TransactionAnalyzer.user_analysis
    TransactionAnalyzer.amount_analysis TransactionAnalyzer.temporal_analysis
    TransactionAnalyzer.location_analysis TransactionAnalyzer.merchant_analysis
    TransactionAnalyzer.risk_factors].
  rewrite Hma in Hma'. apply (inj Some) in Hma'. subst ma'.
  assert (Hcap := _analyze_location_patterns_cap t h la Hla').
  rewrite Hla in Hla'. apply (inj Some) in Hla'. subst la.
  assert (H1 := _analyze_user_behavior_nonneg t h).
  assert (H2 := _analyze_amount_patterns_nonneg t h).
  assert (H3 := _analyze_temporal_patterns_nonneg t h).
  assert (C1 := _analyze_user_behavior_cap t h).
  assert (C2 := _analyze_amount_patterns_cap t h).
  assert (C3 := _analyze_temporal_patterns_cap t h).
  assert (C5 := _analyze_merchant_patterns_cap t h ma Hma).
  unfold nonneg in *.
  cbn [TransactionAnalyzer.fire TransactionAnalyzer.risk_contribution
       TransactionAnalyzer.factors] in *.
  rewrite !length_app in *. cbn [length app] in *.
  repeat split; try lia; lra.
Qed.

Lemma sub_analyses_are_capped_witness :
  exists res,
    TransactionAnalyzer.analyze_single_transaction
      Samples.u1_second Samples.scenario_A = Some res
    /\ (length (TransactionAnalyzer.factors
                  (TransactionAnalyzer.user_analysis res)) <= 3)%nat.
Proof.
  destruct (TransactionAnalyzer.analyze_single_transaction
              Samples.u1_second Samples.scenario_A) as [res|] eqn:E;
    [|vm_compute in E; discriminate E].
  exists res. split; [reflexivity|].
  apply (sub_analyses_are_capped _ _ _ E).
Defined.

(** ** The two scorers on the time of day *)

Lemma dayofweek_range (t : Z) : (0 <= Clock.dayofweek t < 7)%Z.
Proof. unfold Clock.dayofweek. apply Z.mod_pos_bound. lia. Qed.

(** X23. Under the default settings the batch scorer and the
    single-transaction analysis agree on which transactions are off-hours and
    which fall on a weekend. *)
Theorem scorers_agree_on_time_rules t h :
  FraudDetector.get_hour FraudDetector.default_settings "off_hours_start"
  = Some 22%Z
  /\ FraudDetector.get_hour FraudDetector.default_settings "off_hours_end"
     = Some 6%Z
  /\ (In (OffHours (Clock.hour (timestamp t)))
         (TransactionAnalyzer.factors
            (TransactionAnalyzer._analyze_temporal_patterns t h))
      <-> FraudDetector.off_hours 22 6 (Clock.hour (timestamp t)) = true)
  /\ (In WeekendTransaction
         (TransactionAnalyzer.factors
            (TransactionAnalyzer._analyze_temporal_patterns t h))
      <-> FraudDetector.weekend (Clock.dayofweek (timestamp t)) = true).
Proof.
  split; [vm_compute; reflexivity|]. split; [vm_compute; reflexivity|].
  unfold TransactionAnalyzer._analyze_temporal_patterns. cbv zeta.
  assert (Hoff : FraudDetector.off_hours 22 6 (Clock.hour (timestamp t))
                 = (Clock.hour (timestamp t) >=? 22)%Z
                   || (Clock.hour (timestamp t) <=? 6)%Z) by reflexivity.
  assert (Hwe : FraudDetector.weekend (Clock.dayofweek (timestamp t))
                = (Clock.dayofweek (timestamp t) >=? 5)%Z).
  { unfold FraudDetector.weekend.
    assert (Hr := dayofweek_range (timestamp t)).
    destruct (Clock.dayofweek (timestamp t) =? 5)%Z eqn:E5,
             (Clock.dayofweek (timestamp t) =? 6)%Z eqn:E6,
             (Clock.dayofweek (timestamp t) >=? 5)%Z eqn:E; try reflexivity;
      lia. }
  rewrite Hoff, Hwe.
  unfold TransactionAnalyzer.fire_if.
  destruct ((Clock.hour (timestamp t) >=? 22)%Z
            || (Clock.hour (timestamp t) <=? 6)%Z),
           (Clock.dayofweek (timestamp t) >=? 5)%Z;
    split_ifs; cbn; intuition (discriminate || congruence).
Qed.

(** * The user profile *)

Lemma in_user_history (t : Transaction) (h : list Transaction) (user : string) :
  In t (TransactionAnalyzer.user_history h user) <-> In t h /\ user_id t = user.
Proof.
  unfold TransactionAnalyzer.user_history. rewrite List.filter_In.
  rewrite String.eqb_eq. reflexivity.
Qed.

Lemma user_history_empty (h : list Transaction) (user : string) :
  TransactionAnalyzer.user_history h user = [] <->
  Forall (fun t => user_id t <> user) h.
Proof.
  split.
  - intros H. apply List.Forall_forall. intros t Hin Hu.
    assert (Ht : In t (TransactionAnalyzer.user_history h user))
      by (apply in_user_history; auto).
    rewrite H in Ht. exact Ht.
  - intros H. destruct (TransactionAnalyzer.user_history h user) as [|t l] eqn:E;
      [reflexivity|].
    assert (Ht : In t (TransactionAnalyzer.user_history h user))
      by (rewrite E; left; reflexivity).
    apply in_user_history in Ht as [Hin Hu].
    rewrite List.Forall_forall in H. exfalso. exact (H t Hin Hu).
Qed.

Lemma min_timestamp_le (first : Z) (rest : list Z) :
  (TransactionAnalyzer.min_timestamp first rest <= first)%Z
  /\ Forall (fun x => (TransactionAnalyzer.min_timestamp first rest <= x)%Z) rest
  /\ In (TransactionAnalyzer.min_timestamp first rest) (first :: rest).
Proof.
  unfold TransactionAnalyzer.min_timestamp. revert first.
  induction rest as [|x rest IH]; intros first; cbn [fold_left].
  - split; [lia|]. split; [constructor | left; reflexivity].
  - destruct (IH (Z.min first x)) as (H1 & H2 & H3).
    split; [lia|]. split; [constructor; [lia | exact H2]|].
    destruct H3 as [H3|H3]; [|right; right; exact H3].
    destruct (Z.min_spec first x) as [[_ E]|[_ E]];
      [left | right; left]; congruence.
Qed.

Lemma max_timestamp_in (first : Z) (rest : list Z) :
  In (TransactionAnalyzer.max_timestamp first rest) (first :: rest).
Proof.
  unfold TransactionAnalyzer.max_timestamp. revert first.
  induction rest as [|x rest IH]; intros first; cbn [fold_left].
  - left. reflexivity.
  - destruct (IH (Z.max first x)) as [H|H]; [|right; right; exact H].
    destruct (Z.max_spec first x) as [[_ E]|[_ E]];
      [right; left | left]; congruence.
Qed.

Lemma days_between_spec (first last : Z) :
  (first <= last)%Z ->
  (0 <= TransactionAnalyzer.days_between first last
   /\ TransactionAnalyzer.days_between first last * 86400 <= last - first
      < (TransactionAnalyzer.days_between first last + 1) * 86400)%Z.
Proof.
  intros H. unfold TransactionAnalyzer.days_between, Clock.day_s.
  assert (H1 := Z.div_pos (last - first) 86400).
  assert (H2 := Z.mul_div_le (last - first) 86400).
  assert (H3 := Z.mul_succ_div_gt (last - first) 86400).
  lia.
Qed.

(** X24. The profile of a user is the error entry exactly when the history
    holds no transaction of the user.  Otherwise it counts the user's
    transactions, at least one; the first and the last transaction are
    timestamps of the user that enclose all the others; and the account age
    is the number of whole days between them. *)
Theorem user_profile_dates (user : string) (h : list Transaction) :
  match TransactionAnalyzer.generate_user_profile user h with
  | TransactionAnalyzer.NoTransactionsFound =>
      Forall (fun t => user_id t <> user) h
  | TransactionAnalyzer.Profile p =>
      let d := TransactionAnalyzer.date_range p in
      let first := TransactionAnalyzer.first_transaction d in
      let last := TransactionAnalyzer.last_transaction d in
      let days := TransactionAnalyzer.account_age_days d in
      TransactionAnalyzer.profile_user_id p = user
      /\ TransactionAnalyzer.total_transactions p
         = length (TransactionAnalyzer.user_history h user)
      /\ (1 <= TransactionAnalyzer.total_transactions p)%nat
      /\ Forall (fun t => user_id t = user ->
                          (first <= timestamp t <= last)%Z) h
      /\ (exists t, In t h /\ user_id t = user /\ timestamp t = first)
      /\ (exists t, In t h /\ user_id t = user /\ timestamp t = last)
      /\ (0 <= days /\ days * 86400 <= last - first < (days + 1) * 86400)%Z
  end.
Proof.
  unfold TransactionAnalyzer.generate_user_profile.
  destruct (TransactionAnalyzer.user_history h user) as [|t0 rest] eqn:E.
  - apply user_history_empty. exact E.
  - cbv zeta. cbn [TransactionAnalyzer.date_range
      TransactionAnalyzer.first_transaction TransactionAnalyzer.last_transaction
      TransactionAnalyzer.account_age_days TransactionAnalyzer.profile_user_id
      TransactionAnalyzer.total_transactions].
    destruct (min_timestamp_le (timestamp t0) (map timestamp rest))
      as (Hmin0 & Hmin & Hminin).
    destruct (max_timestamp_ge (timestamp t0) (map timestamp rest))
      as (Hmax0 & Hmax).
    assert (Hmaxin := max_timestamp_in (timestamp t0) (map timestamp rest)).
    set (first := TransactionAnalyzer.min_timestamp _ _) in *.
    set (last := TransactionAnalyzer.max_timestamp _ _) in *.
    assert (Hfrom : forall x, In x (timestamp t0 :: map timestamp rest) ->
                      exists t, In t h /\ user_id t = user /\ timestamp t = x).
    { intros x Hx. change (timestamp t0 :: map timestamp rest)
        with (map timestamp (t0 :: rest)) in Hx.
      apply in_map_iff in Hx as (t & Ht & Hin). rewrite <- E in Hin.
      apply in_user_history in Hin as [Hin Hu]. eauto. }
    split; [reflexivity|]. split; [reflexivity|]. split; [cbn [length]; lia|].
    split.
    { apply List.Forall_forall. intros t Hin Hu.
      assert (Ht : In t (t0 :: rest))
        by (rewrite <- E; apply in_user_history; auto).
      destruct Ht as [<-|Ht]; [lia|].
      rewrite List.Forall_forall in Hmin, Hmax.
      assert (Hts : In (timestamp t) (map timestamp rest))
        by (apply in_map; exact Ht).
      specialize (Hmin _ Hts). specialize (Hmax _ Hts). lia. }
    split; [apply Hfrom; exact Hminin|]. split; [apply Hfrom; exact Hmaxin|].
    apply days_between_spec. lia.
Qed.

Lemma fold_Qmin_spec (first : Q) (rest : list Q) :
  fold_left Qmin rest first <= first
  /\ Forall (fun x => fold_left Qmin rest first <= x) rest
  /\ In (fold_left Qmin rest first) (first :: rest).
Proof.
  revert first. induction rest as [|x rest IH]; intros first; cbn [fold_left].
  - split; [lra|]. split; [constructor | left; reflexivity].
  - destruct (IH (Qmin first x)) as (H1 & H2 & H3).
    assert (Hm : Qmin first x <= first /\ Qmin first x <= x
                 /\ (Qmin first x = first \/ Qmin first x = x)).
    { unfold Qmin. destruct (Qle_bool first x) eqn:Ele.
      - apply Qle_bool_iff in Ele. split; [lra|]. split; [lra | left; reflexivity].
      - assert (~ first <= x) by (rewrite <- Qle_bool_iff; congruence).
        split; [lra|]. split; [lra | right; reflexivity]. }
    destruct Hm as (Hm1 & Hm2 & Hm3).
    split; [lra|]. split; [constructor; [lra | exact H2]|].
    destruct H3 as [H3|H3]; [|right; right; exact H3].
    destruct Hm3 as [Hm3|Hm3]; [left | right; left]; congruence.
Qed.

Lemma fold_Qmax_spec (first : Q) (rest : list Q) :
  first <= fold_left Qmax rest first
  /\ Forall (fun x => x <= fold_left Qmax rest first) rest
  /\ In (fold_left Qmax rest first) (first :: rest).
Proof.
  revert first. induction rest as [|x rest IH]; intros first; cbn [fold_left].
  - split; [lra|]. split; [constructor | left; reflexivity].
  - destruct (IH (Qmax first x)) as (H1 & H2 & H3).
    assert (Hm : first <= Qmax first x /\ x <= Qmax first x
                 /\ (Qmax first x = first \/ Qmax first x = x)).
    { unfold Qmax. destruct (Qle_bool first x) eqn:Ele.
      - apply Qle_bool_iff in Ele. split; [lra|]. split; [lra | right; reflexivity].
      - assert (~ first <= x) by (rewrite <- Qle_bool_iff; congruence).
        split; [lra|]. split; [lra | left; reflexivity]. }
    destruct Hm as (Hm1 & Hm2 & Hm3).
    split; [lra|]. split; [constructor; [lra | exact H2]|].
    destruct H3 as [H3|H3]; [|right; right; exact H3].
    destruct Hm3 as [Hm3|Hm3]; [left | right; left]; congruence.
Qed.

Lemma profile_of_sample :
  TransactionAnalyzer.generate_user_profile "U1" Samples.scenario_A
  <> TransactionAnalyzer.NoTransactionsFound.
Proof.
  unfold TransactionAnalyzer.generate_user_profile.
  change (TransactionAnalyzer.user_history Samples.scenario_A "U1")
    with Samples.scenario_A.
  discriminate.
Qed.

#[local] Arguments TransactionAnalyzer.quantile : simpl never.
#[local] Arguments mean : simpl never.
#[local] Arguments variance : simpl never.

Lemma insert_Q_spec (x : Q) (l : list Q) :
  length (TransactionAnalyzer.insert_Q x l) = S (length l)
  /\ forall y, In y (TransactionAnalyzer.insert_Q x l) <-> y = x \/ In y l.
Proof.
  induction l as [|z l [IH1 IH2]]; cbn [TransactionAnalyzer.insert_Q].
  - split; [reflexivity|]. intros y. simpl. intuition congruence.
  - destruct (Qle_bool x z).
    + split; [reflexivity|]. intros y. simpl. intuition congruence.
    + cbn [length]. split; [rewrite IH1; reflexivity|].
      intros y. cbn [In]. rewrite IH2. intuition congruence.
Qed.

Lemma sorted_Q_spec (l : list Q) :
  length (fold_right TransactionAnalyzer.insert_Q [] l) = length l
  /\ forall y, In y (fold_right TransactionAnalyzer.insert_Q [] l) <-> In y l.
Proof.
  induction l as [|x l [IH1 IH2]]; cbn [fold_right].
  - split; [reflexivity|]. reflexivity.
  - destruct (insert_Q_spec x (fold_right TransactionAnalyzer.insert_Q [] l))
      as [H1 H2].
    split; [rewrite H1, IH1; reflexivity|].
    intros y. rewrite H2, IH2. cbn [In]. intuition congruence.
Qed.

Lemma interpolation_bounds (lo hi a b f : Q) :
  lo <= a <= hi -> lo <= b <= hi -> 0 <= f <= 1 ->
  lo <= a + (b - a) * f <= hi.
Proof.
  intros Ha Hb Hf.
  assert (E : a + (b - a) * f == (1 - f) * a + f * b) by ring.
  rewrite E.
  assert (H1 : (1 - f) * lo <= (1 - f) * a)
    by (apply Qmult_le_l_compat || (rewrite !(Qmult_comm (1 - f));
        apply Qmult_le_compat_r; lra)).
  assert (H2 : (1 - f) * a <= (1 - f) * hi)
    by (rewrite !(Qmult_comm (1 - f)); apply Qmult_le_compat_r; lra).
  assert (H3 : f * lo <= f * b)
    by (rewrite !(Qmult_comm f); apply Qmult_le_compat_r; lra).
  assert (H4 : f * b <= f * hi)
    by (rewrite !(Qmult_comm f); apply Qmult_le_compat_r; lra).
  assert (E1 : (1 - f) * lo + f * lo == lo) by ring.
  assert (E2 : (1 - f) * hi + f * hi == hi) by ring.
  lra.
Qed.

Lemma quantile_bounds (q lo hi : Q) (l : list Q) :
  0 <= q <= 1 -> l <> [] -> Forall (fun x => lo <= x /\ x <= hi) l ->
  exists m, TransactionAnalyzer.quantile q l = XNum m /\ lo <= m <= hi.
Proof.
  intros Hq Hne Hl. unfold TransactionAnalyzer.quantile.
  destruct l as [|x0 l0] eqn:El; [contradiction|]. rewrite <- El in *.
  cbv zeta. eexists. split; [reflexivity|].
  destruct (sorted_Q_spec l) as [Hlen Hin].
  set (sorted := fold_right TransactionAnalyzer.insert_Q [] l) in *.
  set (pos := q * Qof_nat (length l - 1)).
  assert (Hn : (1 <= length l)%nat) by (rewrite El; cbn [length]; lia).
  assert (Hpos : 0 <= pos <= Qof_nat (length l - 1)).
  { subst pos. assert (H0 : 0 <= Qof_nat (length l - 1))
      by (apply (Qof_nat_le 0); lia).
    split; [apply Qmult_le_0_compat; lra|].
    rewrite <- (Qmult_1_l (Qof_nat (length l - 1))) at 2.
    apply Qmult_le_compat_r; lra. }
  assert (Hfl : (0 <= Qfloor pos <= Z.of_nat (length l - 1))%Z).
  { split.
    - change 0%Z with (Qfloor 0). apply Qfloor_resp_le. lra.
    - rewrite <- (Qfloor_Z (Z.of_nat (length l - 1))).
      apply Qfloor_resp_le. exact (proj2 Hpos). }
  assert (Hce : (0 <= Qceiling pos <= Z.of_nat (length l - 1))%Z).
  { split.
    - change 0%Z with (Qceiling 0). apply Qceiling_resp_le. lra.
    - rewrite <- (Qceiling_Z (Z.of_nat (length l - 1))).
      apply Qceiling_resp_le. exact (proj2 Hpos). }
  assert (Hnth : forall i, (i < length l)%nat -> lo <= nth i sorted 0 <= hi).
  { intros i Hi. rewrite <- Hlen in Hi. apply (nth_In sorted 0) in Hi.
    apply Hin in Hi. rewrite List.Forall_forall in Hl. apply Hl in Hi. lra. }
  apply interpolation_bounds.
  - apply Hnth. lia.
  - apply Hnth. lia.
  - assert (H1 := Qfloor_le pos). assert (H2 := Qlt_floor pos).
    rewrite inject_Z_plus in H2. change (inject_Z 1) with 1 in H2. lra.
Qed.

(** X25. In a profile the least and the greatest amount are amounts of the
    user that enclose all the others; the median lies between them; the
    average is a number; and the standard deviation is NaN exactly for a single
    transaction. *)
Theorem user_profile_spending (user : string) (h : list Transaction)
    (p : TransactionAnalyzer.UserProfile) :
  TransactionAnalyzer.generate_user_profile user h = TransactionAnalyzer.Profile p ->
  let s := TransactionAnalyzer.spending_patterns p in
  let lo := TransactionAnalyzer.min_amount s in
  let hi := TransactionAnalyzer.max_amount s in
  Forall (fun t => user_id t = user -> lo <= amount t <= hi) h
  /\ (exists t, In t h /\ user_id t = user /\ amount t = lo)
  /\ (exists t, In t h /\ user_id t = user /\ amount t = hi)
  /\ (exists a, TransactionAnalyzer.average_amount s = XNum a)
  /\ (exists m, TransactionAnalyzer.median_amount s = XNum m /\ lo <= m <= hi)
  /\ (TransactionAnalyzer.std_amount_sq s = XNaN
      <-> TransactionAnalyzer.total_transactions p = 1%nat).
Proof.
  unfold TransactionAnalyzer.generate_user_profile.
  destruct (TransactionAnalyzer.user_history h user) as [|t0 rest] eqn:E;
    [discriminate|].
  intros H. injection H as <-. cbv zeta.
  cbn [TransactionAnalyzer.spending_patterns TransactionAnalyzer.min_amount
       TransactionAnalyzer.max_amount TransactionAnalyzer.average_amount
       TransactionAnalyzer.median_amount TransactionAnalyzer.std_amount_sq
       TransactionAnalyzer.total_amount TransactionAnalyzer.total_transactions].
  destruct (fold_Qmin_spec (amount t0) (map amount rest)) as (Hmin0 & Hmin & Hminin).
  destruct (fold_Qmax_spec (amount t0) (map amount rest)) as (Hmax0 & Hmax & Hmaxin).
  set (lo := fold_left Qmin _ _) in *. set (hi := fold_left Qmax _ _) in *.
  assert (Hall : Forall (fun x => lo <= x /\ x <= hi) (map amount (t0 :: rest))).
  { cbn [map]. constructor; [lra|].
    rewrite List.Forall_forall in Hmin, Hmax |- *. intros x Hx.
    split; [apply Hmin | apply Hmax]; exact Hx. }
  assert (Hfrom : forall x, In x (amount t0 :: map amount rest) ->
                    exists t, In t h /\ user_id t = user /\ amount t = x).
  { intros x Hx. change (amount t0 :: map amount rest)
      with (map amount (t0 :: rest)) in Hx.
    apply in_map_iff in Hx as (t & Ht & Hin). rewrite <- E in Hin.
    apply in_user_history in Hin as [Hin Hu]. eauto. }
  split.
  { apply List.Forall_forall. intros t Hin Hu.
    assert (Ht : In t (t0 :: rest))
      by (rewrite <- E; apply in_user_history; auto).
    rewrite List.Forall_forall in Hall.
    destruct (Hall (amount t)) as [H1 H2]; [apply in_map; exact Ht | lra]. }
  split; [apply Hfrom; exact Hminin|]. split; [apply Hfrom; exact Hmaxin|].
  assert (Hlen : length (map amount (t0 :: rest)) = S (length rest))
    by (rewrite length_map; reflexivity).
  split; [unfold mean; cbn [map]; eexists; reflexivity|].
  split; [apply quantile_bounds; [lra | discriminate | exact Hall]|].
  unfold variance, mean. cbn [map]. cbn [map] in Hlen. rewrite Hlen.
  cbn [length].
  destruct (S (length rest) <=? 1)%nat eqn:En.
  - apply Nat.leb_le in En. split; [lia | reflexivity].
  - apply Nat.leb_gt in En. split; [discriminate | lia].
Qed.

Lemma user_profile_spending_witness :
  exists p,
    TransactionAnalyzer.generate_user_profile "U1" Samples.scenario_A
    = TransactionAnalyzer.Profile p
    /\ exists m, TransactionAnalyzer.median_amount
                      (TransactionAnalyzer.spending_patterns p) = XNum m
                 /\ TransactionAnalyzer.min_amount
                      (TransactionAnalyzer.spending_patterns p) <= m
                    <= TransactionAnalyzer.max_amount
                         (TransactionAnalyzer.spending_patterns p).
Proof.
  destruct (TransactionAnalyzer.generate_user_profile "U1" Samples.scenario_A)
    as [|p] eqn:E; [exfalso; revert E; apply profile_of_sample|].
  exists p. split; [reflexivity|].
  apply (user_profile_spending _ _ _ E).
Defined.

(** X26. The transactions per day of a profile are the quotient of the
    number of transactions by the account age in days, with an age below one
    day counted as one day: the rate is positive, at most the number of
    transactions, and equal to it for an account age of at most one day. *)
Theorem user_profile_rate (user : string) (h : list Transaction)
    (p : TransactionAnalyzer.UserProfile) :
  TransactionAnalyzer.generate_user_profile user h = TransactionAnalyzer.Profile p ->
  let n := Qof_nat (TransactionAnalyzer.total_transactions p) in
  let days :=
    TransactionAnalyzer.account_age_days (TransactionAnalyzer.date_range p) in
  let rate :=
    TransactionAnalyzer.average_transactions_per_day
      (TransactionAnalyzer.temporal_patterns p) in
  rate = n / inject_Z (Z.max 1 days)
  /\ 0 < rate <= n
  /\ ((days <= 1)%Z -> rate == n).
Proof.
  unfold TransactionAnalyzer.generate_user_profile.
  destruct (TransactionAnalyzer.user_history h user) as [|t0 rest] eqn:E;
    [discriminate|].
  intros H. injection H as <-. cbv zeta.
  cbn [TransactionAnalyzer.total_transactions TransactionAnalyzer.date_range
       TransactionAnalyzer.account_age_days
       TransactionAnalyzer.temporal_patterns
       TransactionAnalyzer.average_transactions_per_day].
  set (days := TransactionAnalyzer.days_between _ _).
  cbn [length]. set (n := Qof_nat (S (length rest))).
  assert (Hn : 0 < n) by (apply Qof_nat_positive; lia).
  clearbody n.
  assert (Hd : 1 <= inject_Z (Z.max 1 days)).
  { change 1 with (inject_Z 1). rewrite <- Zle_Qle. lia. }
  assert (Hone : (days <= 1)%Z -> inject_Z (Z.max 1 days) == 1).
  { intros Hle. replace (Z.max 1 days) with 1%Z by lia. reflexivity. }
  generalize dependent (inject_Z (Z.max 1 days)). intros d Hd Hone.
  split; [reflexivity|]. split; [split|].
  - apply Qlt_shift_div_l; lra.
  - apply Qle_shift_div_r; [lra|].
    rewrite <- (Qmult_1_r n) at 1.
    rewrite !(Qmult_comm n). apply Qmult_le_compat_r; lra.
  - intros Hle. rewrite (Hone Hle). field.
Qed.

Lemma user_profile_rate_witness :
  exists p,
    TransactionAnalyzer.generate_user_profile "U1" Samples.scenario_A
    = TransactionAnalyzer.Profile p
    /\ 0 < TransactionAnalyzer.average_transactions_per_day
            (TransactionAnalyzer.temporal_patterns p)
        <= Qof_nat (TransactionAnalyzer.total_transactions p).
Proof.
  destruct (TransactionAnalyzer.generate_user_profile "U1" Samples.scenario_A)
    as [|p] eqn:E; [exfalso; revert E; apply profile_of_sample|].
  exists p. split; [reflexivity|].
  apply (user_profile_rate _ _ _ E).
Defined.

(** ** Counting the values of a column *)

Section Unique.
Context {A : Type} (eqb : A -> A -> bool).
Hypothesis eqb_spec : forall x y, eqb x y = true <-> x = y.

Lemma in_unique_by_eqb (x : A) (l : list A) :
  In x (unique_by eqb l) <-> In x l.
Proof.
  induction l as [|y l IH]; [reflexivity|].
  cbn [unique_by]. split.
  - intros [->|H]; [left; reflexivity|].
    apply List.filter_In in H as [H _]. right. apply IH. exact H.
  - intros [->|H]; [left; reflexivity|].
    destruct (eqb y x) eqn:E.
    + apply eqb_spec in E. left. exact E.
    + right. apply List.filter_In. split; [apply IH; exact H|].
      rewrite E. reflexivity.
Qed.

Lemma NoDup_unique_by (l : list A) : List.NoDup (unique_by eqb l).
Proof.
  induction l as [|y l IH]; cbn [unique_by]; constructor.
  - intros H. apply List.filter_In in H as [_ H].
    assert (E : eqb y y = true) by (apply eqb_spec; reflexivity).
    rewrite E in H. discriminate H.
  - apply List.NoDup_filter. exact IH.
Qed.
End Unique.

Lemma fst_tabulate {K V : Type} (f : K -> V) (ks : list K) :
  (map (fun k => (k, f k)) ks).*1 = ks.
Proof. induction ks as [|k ks IH]; [reflexivity|]. cbn. rewrite IH. reflexivity. Qed.

Lemma lookup_tabulate `{Countable K} {V : Type} (f : K -> V) (ks : list K)
    (k : K) (v : V) :
  List.NoDup ks ->
  (list_to_map (map (fun k => (k, f k)) ks) : gmap K V) !! k = Some v
  <-> In k ks /\ v = f k.
Proof.
  intros Hnd. rewrite <- elem_of_list_to_map
    by (rewrite fst_tabulate; apply NoDup_ListNoDup; exact Hnd).
  rewrite list_elem_of_In, in_map_iff. split.
  - intros (k' & [= <- <-] & Hin). auto.
  - intros [Hin ->]. eauto.
Qed.

Lemma size_tabulate `{Countable K} {V : Type} (f : K -> V) (ks : list K) :
  List.NoDup ks ->
  size (list_to_map (map (fun k => (k, f k)) ks) : gmap K V) = length ks.
Proof.
  intros Hnd. rewrite map_size_list_to_map
    by (rewrite fst_tabulate; apply NoDup_ListNoDup; exact Hnd).
  apply length_map.
Qed.

Lemma in_dropna (v : string) (column : list (option string)) :
  In v (TransactionAnalyzer.dropna column) <-> In (Some v) column.
Proof.
  induction column as [|[s|] column IH]; cbn [TransactionAnalyzer.dropna In].
  - reflexivity.
  - rewrite IH. intuition congruence.
  - rewrite IH. intuition congruence.
Qed.

Lemma count_value_positive (v : string) (column : list (option string)) :
  (1 <= FraudDetector.count_value column v)%nat <-> In (Some v) column.
Proof.
  unfold FraudDetector.count_value.
  induction column as [|x column IH]; cbn [List.filter In length].
  - split; [lia | contradiction].
  - destruct x as [s|]; cbn [opt_string_eqb].
    + destruct (String.eqb s v) eqn:E.
      * apply String.eqb_eq in E. subst s. cbn [length].
        split; [auto | lia].
      * apply String.eqb_neq in E. rewrite IH.
        split; [auto | intros [[= H]|H]; [contradiction | exact H]].
    + rewrite IH. split; [auto | intros [H|H]; [discriminate H | exact H]].
Qed.

Lemma value_counts_lookup (column : list (option string)) (v : string) (n : nat) :
  TransactionAnalyzer.value_counts column !! v = Some n
  <-> n = FraudDetector.count_value column v /\ (1 <= n)%nat.
Proof.
  unfold TransactionAnalyzer.value_counts.
  rewrite lookup_tabulate by (apply NoDup_unique_by, String.eqb_eq).
  rewrite (in_unique_by_eqb _ String.eqb_eq), in_dropna, <- count_value_positive.
  split; [intros [H ->]; auto | intros [-> H]; auto].
Qed.

Lemma value_counts_size (column : list (option string)) :
  size (TransactionAnalyzer.value_counts column)
  = TransactionAnalyzer.nunique column.
Proof.
  unfold TransactionAnalyzer.value_counts, TransactionAnalyzer.nunique.
  apply size_tabulate, NoDup_unique_by, String.eqb_eq.
Qed.

Lemma group_sizes_lookup (key : Transaction -> Z) (txs : list Transaction)
    (k : Z) (n : nat) :
  TransactionAnalyzer.group_sizes key txs !! k = Some n
  <-> n = length (List.filter (fun h => (key h =? k)%Z) txs) /\ (1 <= n)%nat.
Proof.
  unfold TransactionAnalyzer.group_sizes.
  rewrite lookup_tabulate by (apply NoDup_unique_by, Z.eqb_eq).
  rewrite (in_unique_by_eqb _ Z.eqb_eq), in_map_iff.
  split.
  - intros [(t & Hk & Hin) ->]. split; [reflexivity|].
    induction txs as [|t' txs IH]; [contradiction|]. cbn [List.filter].
    destruct Hin as [->|Hin].
    + rewrite Hk, Z.eqb_refl. cbn [length]. lia.
    + destruct (key t' =? k)%Z; cbn [length]; [lia | auto].
  - intros [-> Hn]. split; [|reflexivity].
    induction txs as [|t' txs IH]; [cbn in Hn; lia|]. cbn [List.filter] in Hn.
    destruct (key t' =? k)%Z eqn:E.
    + apply Z.eqb_eq in E. exists t'. split; [exact E | left; reflexivity].
    + destruct (IH Hn) as (t & Hk & Hin). exists t. split; [exact Hk | right; exact Hin].
Qed.

(** X27. The distributions of a profile hold exactly the values that occur
    among the user's transactions, each with the number of its occurrences,
    and the numbers of unique locations and categories are the sizes of the
    distributions; the same for the transactions by hour and by day name. *)
Theorem user_profile_distributions (user : string) (h : list Transaction)
    (p : TransactionAnalyzer.UserProfile) :
  TransactionAnalyzer.generate_user_profile user h = TransactionAnalyzer.Profile p ->
  let txs := TransactionAnalyzer.user_history h user in
  let lp := TransactionAnalyzer.location_patterns p in
  let mp := TransactionAnalyzer.merchant_patterns p in
  let tp := TransactionAnalyzer.temporal_patterns p in
  (forall v n,
      TransactionAnalyzer.location_distribution lp !! v = Some n
      <-> n = FraudDetector.count_value (map location txs) v /\ (1 <= n)%nat)
  /\ TransactionAnalyzer.unique_locations lp
     = size (TransactionAnalyzer.location_distribution lp)
  /\ (forall v n,
         TransactionAnalyzer.category_distribution mp !! v = Some n
         <-> n = FraudDetector.count_value (map merchant_category txs) v
             /\ (1 <= n)%nat)
  /\ TransactionAnalyzer.unique_categories mp
     = size (TransactionAnalyzer.category_distribution mp)
  /\ (forall k n,
         TransactionAnalyzer.transactions_by_hour tp !! k = Some n
         <-> n = length (List.filter
                           (fun t => (Clock.hour (timestamp t) =? k)%Z) txs)
             /\ (1 <= n)%nat)
  /\ (forall d n,
         TransactionAnalyzer.transactions_by_day tp !! d = Some n
         <-> n = length (List.filter
                           (fun t => String.eqb
                                       (TransactionAnalyzer.day_name (timestamp t))
                                       d) txs)
             /\ (1 <= n)%nat).
Proof.
  unfold TransactionAnalyzer.generate_user_profile.
  destruct (TransactionAnalyzer.user_history h user) as [|t0 rest] eqn:E;
    [discriminate|].
  intros H. injection H as <-. cbv zeta.
  cbn [TransactionAnalyzer.location_patterns TransactionAnalyzer.merchant_patterns
       TransactionAnalyzer.temporal_patterns
       TransactionAnalyzer.location_distribution
       TransactionAnalyzer.unique_locations
       TransactionAnalyzer.category_distribution
       TransactionAnalyzer.unique_categories
       TransactionAnalyzer.transactions_by_hour
       TransactionAnalyzer.transactions_by_day].
  split; [intros; apply value_counts_lookup|].
  split; [symmetry; apply value_counts_size|].
  split; [intros; apply value_counts_lookup|].
  split; [symmetry; apply value_counts_size|].
  split; [intros; apply group_sizes_lookup|].
  intros d n. unfold TransactionAnalyzer.sizes_by_day.
  rewrite value_counts_lookup. unfold FraudDetector.count_value.
  assert (Hc : forall l : list Transaction,
             length (List.filter (fun x => opt_string_eqb x (Some d))
                       (map (fun t => Some (TransactionAnalyzer.day_name
                                              (timestamp t))) l))
             = length (List.filter
                         (fun t => String.eqb
                                     (TransactionAnalyzer.day_name (timestamp t))
                                     d) l)).
  { induction l as [|t l IH]; [reflexivity|]. cbn [map List.filter opt_string_eqb].
    destruct (String.eqb _ d); cbn [length]; rewrite IH; reflexivity. }
  rewrite Hc. reflexivity.
Qed.

Lemma user_profile_distributions_witness :
  exists p,
    TransactionAnalyzer.generate_user_profile "U1" Samples.scenario_A
    = TransactionAnalyzer.Profile p
    /\ TransactionAnalyzer.unique_locations
         (TransactionAnalyzer.location_patterns p)
       = size (TransactionAnalyzer.location_distribution
                 (TransactionAnalyzer.location_patterns p)).
Proof.
  destruct (TransactionAnalyzer.generate_user_profile "U1" Samples.scenario_A)
    as [|p] eqn:E; [exfalso; revert E; apply profile_of_sample|].
  exists p. split; [reflexivity|].
  apply (user_profile_distributions _ _ _ E).
Defined.

(** ** The most common value *)

Lemma ascii_compare_lt (a b : ascii) :
  Ascii.compare a b = Lt <-> (N_of_ascii a < N_of_ascii b)%N.
Proof. unfold Ascii.compare. apply N.compare_lt_iff. Qed.

Lemma string_compare_trans (a b c : string) :
  String.compare a b = Lt -> String.compare b c = Lt -> String.compare a c = Lt.
Proof.
  revert b c. induction a as [|x a IH]; intros [|y b] [|z c]; cbn [String.compare];
    try discriminate; try reflexivity.
  destruct (Ascii.compare x y) eqn:Exy; try discriminate.
  - apply Ascii.compare_eq_iff in Exy. subst y.
    destruct (Ascii.compare x z); try discriminate; [apply IH | reflexivity].
  - intros _. destruct (Ascii.compare y z) eqn:Eyz; try discriminate.
    + apply Ascii.compare_eq_iff in Eyz. subst z. rewrite Exy. reflexivity.
    + intros _. apply ascii_compare_lt in Exy, Eyz.
      assert (Exz : Ascii.compare x z = Lt)
        by (apply ascii_compare_lt; eapply N.lt_trans; eassumption).
      rewrite Exz. reflexivity.
Qed.

Lemma string_ltb_total (a b : string) :
  String.ltb a b = false -> a = b \/ String.ltb b a = true.
Proof.
  unfold String.ltb. rewrite (String.compare_antisym b a).
  destruct (String.compare a b) eqn:E; try discriminate.
  - intros _. left. apply String.compare_eq_iff. exact E.
  - intros _. right. reflexivity.
Qed.

Lemma mode_before_trans (column : list (option string)) (a b c : string) :
  mode_before column a b -> mode_before column b c -> mode_before column a c.
Proof.
  unfold mode_before. intros [H1|[H1 H1']] [H2|[H2 H2']];
    [left; lia | left; lia | left; lia |].
  right. split; [lia|].
  destruct H1' as [->|H1']; [exact H2'|].
  destruct H2' as [<-|H2']; [right; exact H1'|].
  right. unfold String.ltb in *.
  destruct (String.compare a b) eqn:E1; try discriminate.
  destruct (String.compare b c) eqn:E2; try discriminate.
  rewrite (string_compare_trans a b c E1 E2). reflexivity.
Qed.

Lemma mode_before_refl (column : list (option string)) (a : string) :
  mode_before column a a.
Proof. right. split; [reflexivity | left; reflexivity]. Qed.

Lemma better_mode_spec (column : list (option string)) (v b : string) :
  if TransactionAnalyzer.better_mode column v b
  then mode_before column v b
  else mode_before column b v.
Proof.
  unfold TransactionAnalyzer.better_mode, mode_before. cbv zeta.
  destruct (FraudDetector.count_value column b
            <? FraudDetector.count_value column v)%nat eqn:E1; cbn [orb].
  - apply Nat.ltb_lt in E1. left. exact E1.
  - apply Nat.ltb_ge in E1.
    destruct (FraudDetector.count_value column v
              =? FraudDetector.count_value column b)%nat eqn:E2; cbn [andb].
    + apply Nat.eqb_eq in E2. destruct (String.ltb v b) eqn:E3.
      * right. split; [lia | right; reflexivity].
      * right. split; [lia|]. apply string_ltb_total in E3 as [->|E3]; auto.
    + apply Nat.eqb_neq in E2. left. lia.
Qed.

Lemma pick_mode_fold (column : list (option string)) (l : list string)
    (best : option string) :
  match fold_left (TransactionAnalyzer.pick_mode column) l best with
  | None => best = None /\ l = []
  | Some b =>
      (best = Some b \/ In b l)
      /\ (forall v, best = Some v \/ In v l -> mode_before column b v)
  end.
Proof.
  revert best. induction l as [|x l IH]; intros best; cbn [fold_left].
  - destruct best as [b|]; [|auto]. split; [auto|].
    intros v [[= ->]|[]]. apply mode_before_refl.
  - specialize (IH (TransactionAnalyzer.pick_mode column best x)).
    destruct (fold_left _ l _) as [b|].
    + destruct IH as [Hin Hmax].
      assert (Hx : TransactionAnalyzer.pick_mode column best x = Some x
                   \/ (TransactionAnalyzer.pick_mode column best x = best
                       /\ best <> None)).
      { unfold TransactionAnalyzer.pick_mode. destruct best as [b0|]; [|auto].
        destruct (TransactionAnalyzer.better_mode column x b0); [auto|].
        right. split; [reflexivity | discriminate]. }
      split.
      * destruct Hin as [Hin|Hin]; [|right; right; exact Hin].
        destruct Hx as [Hx|[Hx _]]; rewrite Hx in Hin.
        -- injection Hin as ->. right. left. reflexivity.
        -- left. exact Hin.
      * intros v [Hv|[->|Hv]].
        -- subst best. cbn [TransactionAnalyzer.pick_mode] in Hmax.
           assert (Hc := better_mode_spec column x v).
           destruct (TransactionAnalyzer.better_mode column x v).
           ++ eapply mode_before_trans; [|exact Hc].
              apply Hmax. left. reflexivity.
           ++ apply Hmax. left. reflexivity.
        -- unfold TransactionAnalyzer.pick_mode in Hmax.
           destruct best as [b0|]; [|apply Hmax; left; reflexivity].
           assert (Hc := better_mode_spec column v b0).
           destruct (TransactionAnalyzer.better_mode column v b0).
           ++ apply Hmax. left. reflexivity.
           ++ eapply mode_before_trans; [|exact Hc].
              apply Hmax. left. reflexivity.
        -- apply Hmax. right. exact Hv.
    + destruct IH as [IH _]. exfalso.
      unfold TransactionAnalyzer.pick_mode in IH. destruct best as [b0|];
        [destruct (TransactionAnalyzer.better_mode column x b0)|]; discriminate IH.
Qed.

Lemma most_common_spec (column : list (option string)) :
  (Forall (fun x => x = None) column
   /\ TransactionAnalyzer.most_common column = "Unknown")
  \/ (In (Some (TransactionAnalyzer.most_common column)) column
      /\ forall v, In (Some v) column ->
                   mode_before column (TransactionAnalyzer.most_common column) v).
Proof.
  unfold TransactionAnalyzer.most_common, TransactionAnalyzer.mode_first.
  assert (H := pick_mode_fold column
                 (unique_by String.eqb (TransactionAnalyzer.dropna column)) None).
  destruct (fold_left _ _ None) as [b|].
  - right. destruct H as [[H|Hin] Hmax]; [discriminate H|].
    apply (in_unique_by_eqb _ String.eqb_eq), in_dropna in Hin.
    split; [exact Hin|]. intros v Hv. apply Hmax. right.
    apply (in_unique_by_eqb _ String.eqb_eq), in_dropna. exact Hv.
  - left. destruct H as [_ H]. split; [|reflexivity].
    apply List.Forall_forall. intros [v|] Hin; [|reflexivity].
    exfalso. apply in_dropna, (in_unique_by_eqb _ String.eqb_eq) in Hin.
    rewrite H in Hin. exact Hin.
Qed.

(** X28. The most common location of a profile is "Unknown" when every
    location of the user is missing; otherwise it is a location of the user
    that is at least as frequent as every other one and, among the most
    frequent, the least in the order of strings.  The same for the most
    common merchant. *)
Theorem user_profile_most_common (user : string) (h : list Transaction)
    (p : TransactionAnalyzer.UserProfile) :
  TransactionAnalyzer.generate_user_profile user h = TransactionAnalyzer.Profile p ->
  let txs := TransactionAnalyzer.user_history h user in
  let place :=
    TransactionAnalyzer.most_common_location
      (TransactionAnalyzer.location_patterns p) in
  let shop :=
    TransactionAnalyzer.most_common_merchant
      (TransactionAnalyzer.merchant_patterns p) in
  ((Forall (fun t => user_id t = user -> location t = None) h
    /\ place = "Unknown")
   \/ ((exists t, In t h /\ user_id t = user /\ location t = Some place)
       /\ forall t, In t h -> user_id t = user ->
             forall v, location t = Some v ->
                       mode_before (map location txs) place v))
  /\ ((Forall (fun t => user_id t = user -> merchant t = None) h
       /\ shop = "Unknown")
      \/ ((exists t, In t h /\ user_id t = user /\ merchant t = Some shop)
          /\ forall t, In t h -> user_id t = user ->
                forall v, merchant t = Some v ->
                          mode_before (map merchant txs) shop v)).
Proof.
  unfold TransactionAnalyzer.generate_user_profile.
  destruct (TransactionAnalyzer.user_history h user) as [|t0 rest] eqn:E;
    [discriminate|].
  intros H. injection H as <-. cbv zeta.
  cbn [TransactionAnalyzer.location_patterns TransactionAnalyzer.merchant_patterns
       TransactionAnalyzer.most_common_location
       TransactionAnalyzer.most_common_merchant].
  assert (Hcol : forall (f : Transaction -> option string),
    (Forall (fun x => x = None) (map f (t0 :: rest))
     -> Forall (fun t => user_id t = user -> f t = None) h)
    /\ (forall v, In (Some v) (map f (t0 :: rest))
        -> exists t, In t h /\ user_id t = user /\ f t = Some v)).
  { intros f. split.
    - intros Hall. apply List.Forall_forall. intros t Hin Hu.
      assert (Ht : In t (t0 :: rest))
        by (rewrite <- E; apply in_user_history; auto).
      rewrite List.Forall_forall in Hall. apply Hall. apply in_map. exact Ht.
    - intros v Hv. apply in_map_iff in Hv as (t & Hf & Hin).
      rewrite <- E in Hin. apply in_user_history in Hin as [Hin Hu]. eauto. }
  assert (Hback : forall (f : Transaction -> option string) t v,
             In t h -> user_id t = user -> f t = Some v ->
             In (Some v) (map f (t0 :: rest))).
  { intros f t v Hin Hu Hf. rewrite <- Hf. apply in_map. rewrite <- E.
    apply in_user_history. auto. }
  split.
  - destruct (most_common_spec (map location (t0 :: rest))) as [[H1 H2]|[H1 H2]].
    + left. split; [apply (Hcol location); exact H1 | exact H2].
    + right. split; [apply (Hcol location); exact H1|].
      intros t Hin Hu v Hv. apply H2. eapply Hback; eauto.
  - destruct (most_common_spec (map merchant (t0 :: rest))) as [[H1 H2]|[H1 H2]].
    + left. split; [apply (Hcol merchant); exact H1 | exact H2].
    + right. split; [apply (Hcol merchant); exact H1|].
      intros t Hin Hu v Hv. apply H2. eapply Hback; eauto.
Qed.

Lemma user_profile_most_common_witness :
  exists p,
    TransactionAnalyzer.generate_user_profile "U1" Samples.scenario_A
    = TransactionAnalyzer.Profile p
    /\ ((Forall (fun t => user_id t = "U1" -> location t = None)
          Samples.scenario_A
        /\ TransactionAnalyzer.most_common_location
             (TransactionAnalyzer.location_patterns p) = "Unknown")
       \/ ((exists t, In t Samples.scenario_A /\ user_id t = "U1"
                      /\ location t
                         = Some (TransactionAnalyzer.most_common_location
                                   (TransactionAnalyzer.location_patterns p)))
           /\ forall t, In t Samples.scenario_A -> user_id t = "U1" ->
                 forall v, location t = Some v ->
                   mode_before
                     (map location
                        (TransactionAnalyzer.user_history Samples.scenario_A "U1"))
                     (TransactionAnalyzer.most_common_location
                        (TransactionAnalyzer.location_patterns p)) v)).
Proof.
  destruct (TransactionAnalyzer.generate_user_profile "U1" Samples.scenario_A)
    as [|p] eqn:E; [exfalso; revert E; apply profile_of_sample|].
  exists p. split; [reflexivity|].
  apply (user_profile_most_common _ _ _ E).
Defined.
